(** * RFM scoring engine: a shallow embedding of [modules/rfm_processing.py]
      and [modules/segment_assigner.py], and the properties of the scoring
      engine checked against it.

    Conventions of the embedding.
    - A Python float is an exact rational ([Q]); a float that may be NaN is
      an [fl] ([None] is NaN).  The literal [0.001] is [1 # 1000].  The
      rounding of doubles is not modelled: a property is stated with bounds
      that leave rounding room (a factor of at least 0 or 1, not -1/2 or
      1/2).
    - The bucket indices that [np.digitize] returns are an int64 array:
      the arithmetic on them wraps around modulo [2^64].
    - A Python call either returns, raises, or goes on with a NaN inside an
      array of cut-points or inside a table; the last case is the third
      constructor of [outcome] and is not followed further.
    - A table is its columns by name; where pandas aligns rows by label
      ([pd.concat]), the row labels are given beside the columns.
    - The record [GlobalConfig] holds the four settings of a configuration
      that has them; a configuration that lacks one makes the lookup raise
      [KeyError], which is outside the model.
    - What numpy, jenkspy and pandas do on inputs the sources never guard
      against (a square root, a percentile of zero samples, the Jenks
      optimisation, a date out of bounds) is a member of the classes
      [NumLib] and [DateLib]. *)

From Stdlib Require Import ZArith QArith Qround List String Ascii Bool Lia Lqa.
From Stdlib Require Import DecimalString Sorted.
Import ListNotations.

Set Implicit Arguments.

(** ** Python outcomes *)

Inductive exn : Type :=
| KeyError (msg : string)
| ValueError (msg : string)
| IndexError (msg : string)
| TypeError (msg : string)
| AttributeError (msg : string)
| FileNotFoundError (msg : string)
| InvalidIndexError (msg : string).

Inductive outcome (A : Type) : Type :=
| Ok (a : A)
| Raise (e : exn)
| NaNResult.

Arguments Ok {A} a.
Arguments Raise {A} e.
Arguments NaNResult {A}.

Definition bind {A B : Type} (m : outcome A) (k : A -> outcome B) : outcome B :=
  match m with
  | Ok a => k a
  | Raise e => Raise e
  | NaNResult => NaNResult
  end.

Notation "x <- m ;; k" := (bind m (fun x => k))
  (at level 61, m at next level, right associativity).
Notation "' p <- m ;; k" := (bind m (fun x => let p := x in k))
  (at level 61, p pattern, m at next level, right associativity).

Fixpoint mapM {A B : Type} (f : A -> outcome B) (l : list A) : outcome (list B) :=
  match l with
  | [] => Ok []
  | a :: l' => b <- f a ;; bs <- mapM f l' ;; Ok (b :: bs)
  end.

(** A float that may be NaN. Arithmetic propagates NaN, comparisons with NaN
    are false. *)
Definition fl : Type := option Q.

Definition fl_map2 (op : Q -> Q -> Q) (a b : fl) : fl :=
  match a, b with
  | Some x, Some y => Some (op x y)
  | _, _ => None
  end.

Definition fl_add : fl -> fl -> fl := fl_map2 Qplus.
Definition fl_sub : fl -> fl -> fl := fl_map2 Qminus.
Definition fl_mul : fl -> fl -> fl := fl_map2 Qmult.

Definition Qlt_bool (x y : Q) : bool := negb (Qle_bool y x).

(** [v >= b] and [v <= b] for a finite [v] and a bound that may be NaN. *)
Definition ge_fl (v : Q) (b : fl) : bool :=
  match b with Some x => Qle_bool x v | None => false end.
Definition le_fl (v : Q) (b : fl) : bool :=
  match b with Some x => Qle_bool v x | None => false end.

(** ** Python dictionaries, insertion-ordered *)

Definition dict (V : Type) : Type := list (string * V).

Fixpoint dict_get {V : Type} (d : dict V) (k : string) : option V :=
  match d with
  | [] => None
  | (k', v) :: d' => if String.eqb k' k then Some v else dict_get d' k
  end.

(** [d[k] = v]: an existing key keeps its place, a new one goes last. *)
Fixpoint dict_set {V : Type} (d : dict V) (k : string) (v : V) : dict V :=
  match d with
  | [] => [(k, v)]
  | (k', v') :: d' =>
      if String.eqb k' k then (k', v) :: d' else (k', v') :: dict_set d' k v
  end.

Definition keys {V : Type} (d : dict V) : list string := map fst d.

(** [d[k]], which raises [KeyError] on a missing key. *)
Definition dict_getitem {V : Type} (d : dict V) (k : string) : outcome V :=
  match dict_get d k with
  | Some v => Ok v
  | None => Raise (KeyError k)
  end.

(** A key of a YAML mapping read with [cfg["key"]]. *)
Definition getitem {V : Type} (field : option V) (key : string) : outcome V :=
  match field with
  | Some v => Ok v
  | None => Raise (KeyError key)
  end.

(** [cfg.get("key", default)]. *)
Definition get_default {V : Type} (field : option V) (default : V) : V :=
  match field with
  | Some v => v
  | None => default
  end.

(** [str.lower()] on ASCII letters. *)
Definition lower_ascii (c : ascii) : ascii :=
  let n := nat_of_ascii c in
  if (65 <=? n)%nat && (n <=? 90)%nat then ascii_of_nat (n + 32) else c.

Fixpoint lower (s : string) : string :=
  match s with
  | EmptyString => EmptyString
  | String c s' => String (lower_ascii c) (lower s')
  end.

(** [str(n)] for a Python int. *)
Definition str_int (z : Z) : string := NilZero.string_of_int (Z.to_int z).

(** ** The numerical libraries *)

Class NumLib : Type := {
  (** [sqrt] of floats, used by [Series.std]. *)
  lib_sqrt : Q -> Q;
  (** [np.percentile(a, q)] when [a] holds zero samples; the argument is [q]. *)
  lib_percentile_empty : list Q -> outcome (list Q);
  (** [jenkspy.jenks_breaks(values, n_classes)]. *)
  lib_jenks_breaks : list Q -> Z -> outcome (list Q)
}.

Module Numpy.

(** Sorting, as done inside the quantile routines. *)
Fixpoint insert (x : Q) (l : list Q) : list Q :=
  match l with
  | [] => [x]
  | y :: l' => if Qle_bool x y then x :: l else y :: insert x l'
  end.

Fixpoint sort (l : list Q) : list Q :=
  match l with
  | [] => []
  | x :: l' => insert x (sort l')
  end.

(** Linear interpolation at the fraction [q] of a sorted, non-empty
    sample: the virtual index is [(n - 1) * q], the neighbours are its
    floor and the next index, clipped to [n - 1]. *)
Definition quantile_sorted (s : list Q) (q : Q) : Q :=
  let n := List.length s in
  let pos := inject_Z (Z.of_nat (n - 1)) * q in
  let k := Z.to_nat (Qfloor pos) in
  let frac := pos - inject_Z (Qfloor pos) in
  let lo := nth k s 0 in
  let hi := nth (Nat.min (S k) (n - 1)) s 0 in
  lo + (hi - lo) * frac.

(** [Series.min()], [Series.max()]: NaN on an empty column. *)
Definition series_min (col : list Q) : fl :=
  match sort col with
  | [] => None
  | x :: _ => Some x
  end.

Definition series_max (col : list Q) : fl :=
  match sort col with
  | [] => None
  | x :: s => Some (last s x)
  end.

(** [Series.quantile(q)]. *)
Definition series_quantile (col : list Q) (q : Q) : fl :=
  match col with
  | [] => None
  | _ => Some (quantile_sorted (sort col) q)
  end.

Definition sum (l : list Q) : Q := fold_right Qplus 0 l.

(** [Series.mean()]. *)
Definition series_mean (col : list Q) : fl :=
  match col with
  | [] => None
  | _ => Some (sum col / inject_Z (Z.of_nat (List.length col)))
  end.

(** [Series.std()]: the sample standard deviation (one degree of freedom
    removed), NaN below two samples. *)
Definition series_std `{NumLib} (col : list Q) : fl :=
  match col with
  | [] | [_] => None
  | _ =>
      let m := sum col / inject_Z (Z.of_nat (List.length col)) in
      let ss := sum (map (fun x => (x - m) * (x - m)) col) in
      Some (lib_sqrt (ss / inject_Z (Z.of_nat (List.length col - 1))))
  end.

Definition percentile_in_range (p : Q) : bool :=
  Qle_bool 0 p && Qle_bool p 100.

(** [np.percentile(a, q)] for an array [q] of percentiles. *)
Definition percentile `{NumLib} (a : list Q) (q : list Q) : outcome (list Q) :=
  if negb (forallb percentile_in_range q) then
    Raise (ValueError "Percentiles must be in the range [0, 100]")
  else
    match a with
    | [] => lib_percentile_empty q
    | _ => Ok (map (fun p => quantile_sorted (sort a) (p / 100)) q)
    end.

(** [np.percentile(a, p)] for one percentile [p]. *)
Definition percentile1 `{NumLib} (a : list Q) (p : Q) : outcome fl :=
  match percentile a [p] with
  | Ok [v] => Ok (Some v)
  | Ok _ => Ok None
  | Raise e => Raise e
  | NaNResult => Ok None
  end.

(** [np.linspace(start, stop, num)]. *)
Definition linspace (start stop : Q) (num : Z) : outcome (list Q) :=
  if (num <? 0)%Z then
    Raise (ValueError "Number of samples must be non-negative")
  else if (num =? 1)%Z then Ok [start]
  else
    Ok (map (fun i => start + inject_Z (Z.of_nat i) * ((stop - start) / inject_Z (num - 1)))
            (seq 0 (Z.to_nat num))).

(** The slice [a[1:-1]]. *)
Definition slice_1_m1 {A : Type} (a : list A) : list A := removelast (tl a).

(** The monotonicity test of [np.digitize]: [1] for non-decreasing bins,
    [-1] for non-increasing ones, [0] otherwise. *)
Fixpoint skip_repeated (first : Q) (a : list Q) : list Q :=
  match a with
  | [] => []
  | x :: a' => if Qeq_bool x first then skip_repeated first a' else a
  end.

Fixpoint never_decreases (prev : Q) (a : list Q) : bool :=
  match a with
  | [] => true
  | x :: a' => if Qlt_bool x prev then false else never_decreases x a'
  end.

Fixpoint never_increases (prev : Q) (a : list Q) : bool :=
  match a with
  | [] => true
  | x :: a' => if Qlt_bool prev x then false else never_increases x a'
  end.

Definition monotonicity (bins : list Q) : Z :=
  match bins with
  | [] => 1
  | first :: rest =>
      match skip_repeated first rest with
      | [] => 1
      | next :: rest' =>
          if Qlt_bool first next
          then (if never_decreases next rest' then 1 else 0)
          else (if never_increases next rest' then -1 else 0)
      end
  end%Z.

(** [np.searchsorted(a, x, side='right')] on a sorted array: the number
    of entries that are at most [x]. *)
Definition searchsorted_right (a : list Q) (x : Q) : Z :=
  Z.of_nat (List.length (filter (fun b => Qle_bool b x) a)).

(** [np.digitize(x, bins, right=False)] for one value [x]. *)
Definition digitize1 (bins : list Q) (x : Q) : outcome Z :=
  let mono := monotonicity bins in
  if (mono =? 0)%Z then
    Raise (ValueError "bins must be monotonically increasing or decreasing")
  else if (mono =? -1)%Z then
    Ok (Z.of_nat (List.length bins) - searchsorted_right (rev bins) x)%Z
  else Ok (searchsorted_right bins x).

Definition digitize (xs bins : list Q) : outcome (list Z) :=
  if (monotonicity bins =? 0)%Z then
    Raise (ValueError "bins must be monotonically increasing or decreasing")
  else mapM (digitize1 bins) xs.

(** [np.clip(a, a_min, a_max)], that is [minimum(a_max, maximum(a, a_min))]. *)
Definition clip (a a_min a_max : Z) : Z := Z.min a_max (Z.max a a_min).

(** The integers of an int64 array, and the result of an operation on
    them: the exact result modulo [2^64], taken between [-2^63] and
    [2^63 - 1]. *)
Definition int64_min : Z := - 2 ^ 63.
Definition int64_max : Z := 2 ^ 63 - 1.

Definition fits_int64 (z : Z) : bool := (int64_min <=? z)%Z && (z <=? int64_max)%Z.

Definition wrap64 (z : Z) : Z := ((z + 2 ^ 63) mod 2 ^ 64 - 2 ^ 63)%Z.

End Numpy.

(** ** [modules/rfm_processing.py] *)

Module RFMProcessing.

Import Numpy.

(** The literal [0.001]. *)
Definition eps : Q := 1 # 1000.

(** One entry of the [variables] section of the YAML file. *)
Record VarConfig : Type := {
  outlier_method : option string;
  iqr_factor : option Q;
  std_dev_factor : option Q;
  percentile_lower : option Q;
  percentile_upper : option Q;
  breaks_method : option string
}.

(** The keys of [global_settings] read by this module: [num_categories]
    and [score_range] with its [min], [max] and [step], for a
    configuration that has the four of them. *)
Record GlobalConfig : Type := {
  num_categories : Z;
  score_min : Z;
  score_max : Z;
  score_step : Z
}.

(** [self]. *)
Record t : Type := {
  global_config : GlobalConfig;
  variables_config : dict VarConfig
}.

(** The per-customer table: its numeric columns, by name. *)
Definition DataFrame : Type := dict (list Q).

Definition range : Type := (Q * Q)%type.

Inductive column : Type :=
| NumCol (values : list Q)
| ScoreCol (scores : list Z)
| RangeCol (ranges : list (option range)).

Record OutlierLimits : Type := {
  LI : fl;
  LS : fl;
  spread : option fl;
  min_value : fl;
  max_value : fl
}.

(** The row labels of a table ([DataFrame.index]); [RangeIndex(n)] is
    [0, ..., n - 1]. *)
Definition Index : Type := list Z.

Definition range_index (n : nat) : Index := map Z.of_nat (seq 0 n).

Definition index_eqb (a b : Index) : bool :=
  Nat.eqb (List.length a) (List.length b)
  && forallb (fun xy => Z.eqb (fst xy) (snd xy)) (combine a b).

Definition mem (l : Z) (index : Index) : bool := existsb (Z.eqb l) index.

Fixpoint has_repeat (index : Index) : bool :=
  match index with
  | [] => false
  | l :: rest => mem l rest || has_repeat rest
  end.

Definition column_length (c : column) : nat :=
  match c with
  | NumCol values => List.length values
  | ScoreCol scores => List.length scores
  | RangeCol ranges => List.length ranges
  end.

(** [pd.DataFrame(scores_dict)]: the arrays must have one length [n], and
    the frame gets the index [RangeIndex(n)]; no array gives the empty
    frame. *)
Definition frame_of_dict (d : dict column) : outcome (Index * dict column) :=
  match d with
  | [] => Ok ([], [])
  | (_, c) :: rest =>
      if forallb (fun kv => Nat.eqb (column_length (snd kv)) (column_length c)) rest
      then Ok (range_index (column_length c), d)
      else Raise (ValueError "All arrays must be of the same length")
  end.

(** The rows of a column of the scores frame, taken by label: the label
    [l] of [RangeIndex(n)] is the row at position [l]. *)
Definition take_rows (labels : Index) (c : column) : column :=
  match c with
  | NumCol values => NumCol (map (fun l => nth (Z.to_nat l) values 0) labels)
  | ScoreCol scores => ScoreCol (map (fun l => nth (Z.to_nat l) scores 0%Z) labels)
  | RangeCol ranges => RangeCol (map (fun l => nth (Z.to_nat l) ranges None) labels)
  end.

(** [pd.concat([rfm_data, scores_df], axis=1)]. With equal indexes the
    columns are put side by side. An empty scores frame is left out.
    Otherwise the rows are aligned by label: labels of the table that
    repeat raise [InvalidIndexError]; labels that are those of the scores
    frame in another order get the scores of their label; any other
    labels leave rows filled with NaN. *)
Definition concat_columns (index : Index) (rfm_data : DataFrame)
           (scores_df : Index * dict column) : outcome (dict column) :=
  let original := map (fun kv => (fst kv, NumCol (snd kv))) rfm_data in
  if index_eqb index (fst scores_df) then Ok (original ++ snd scores_df)
  else
    match snd scores_df with
    | [] => Ok original
    | _ =>
        if has_repeat index then
          Raise (InvalidIndexError "Reindexing only valid with uniquely valued Index objects")
        else if Nat.eqb (List.length index) (List.length (fst scores_df))
                && forallb (fun l => mem l (fst scores_df)) index
        then Ok (original ++ map (fun kv => (fst kv, take_rows index (snd kv)))
                                 (snd scores_df))
        else NaNResult
    end.

Section WithLibraries.

Context `{NumLib}.

Definition calculate_outliers_limits (self : t) (df : DataFrame) (column : string)
  : outcome OutlierLimits :=
  match dict_get (variables_config self) column with
  | None => Raise (KeyError ("La columna '" ++ column ++ "' no está configurada en el YAML."))
  | Some var_config =>
      col <- dict_getitem df column ;;
      let min_value := series_min col in
      let max_value := series_max col in
      method <- getitem (outlier_method var_config) "outlier_method" ;;
      if String.eqb method "IQR" then
        let Q1 := series_quantile col (25 # 100) in
        let Q3 := series_quantile col (75 # 100) in
        let IQR_value := fl_sub Q3 Q1 in
        let IQR_factor := get_default (iqr_factor var_config) (15 # 10) in
        let LI := fl_sub Q1 (fl_mul (Some IQR_factor) IQR_value) in
        let LS := fl_add Q3 (fl_mul (Some IQR_factor) IQR_value) in
        Ok (Build_OutlierLimits LI LS (Some IQR_value) min_value max_value)
      else if String.eqb method "std_dev" then
        let mean_value := series_mean col in
        let std_dev := series_std col in
        let std_dev_factor := get_default (std_dev_factor var_config) 2 in
        let LI := fl_sub mean_value (fl_mul (Some std_dev_factor) std_dev) in
        let LS := fl_add mean_value (fl_mul (Some std_dev_factor) std_dev) in
        Ok (Build_OutlierLimits LI LS (Some std_dev) min_value max_value)
      else if String.eqb method "percentiles" then
        let lower_percentile := get_default (percentile_lower var_config) 5 in
        let upper_percentile := get_default (percentile_upper var_config) 95 in
        LI <- percentile1 col lower_percentile ;;
        LS <- percentile1 col upper_percentile ;;
        Ok (Build_OutlierLimits LI LS None min_value max_value)
      else
        Raise (ValueError ("Método de manejo de outliers no soportado: " ++ method))
  end.

(** [df[(df[column] >= LI) & (df[column] <= LS) & df[column].notnull()]];
    the cells of a column are finite, so [notnull] holds of each. *)
Definition notnull (v : Q) : bool := true.

Definition within_limits (LI LS : fl) (v : Q) : bool :=
  ge_fl v LI && le_fl v LS && notnull v.

(** [np.concatenate(([min_value - 0.001], breaks, [max_value + 0.001]))]. *)
Definition concatenate_breaks (min_value max_value : fl) (breaks : list Q)
  : outcome (list Q) :=
  match fl_sub min_value (Some eps), fl_add max_value (Some eps) with
  | Some lo, Some hi => Ok ([lo] ++ breaks ++ [hi])
  | _, _ => NaNResult
  end.

(** [[(breaks[i], breaks[i+1]) for i in range(len(breaks)-1)]]. *)
Definition ranges_of_breaks (breaks : list Q) : list range :=
  map (fun i => (nth i breaks 0, nth (S i) breaks 0))
      (seq 0 (List.length breaks - 1)).

(** [break_ranges[i] = v]. *)
Fixpoint list_set {A : Type} (l : list A) (i : nat) (v : A) : list A :=
  match l, i with
  | [], _ => []
  | _ :: l', O => v :: l'
  | x :: l', S i' => x :: list_set l' i' v
  end.

(** One turn of the loop that separates adjacent ranges. *)
Definition shrink_step (break_ranges : list range) (i : nat) : list range :=
  match nth_error break_ranges i, nth_error break_ranges (S i) with
  | Some (lo, up), Some (lo', _) =>
      if Qle_bool lo' up then list_set break_ranges i (lo, up - eps)
      else break_ranges
  | _, _ => break_ranges
  end.

(** [for i in range(len(break_ranges)-1): ...]. *)
Definition shrink_ranges (break_ranges : list range) : list range :=
  fold_left shrink_step (seq 0 (List.length break_ranges - 1)) break_ranges.

Definition calculate_breaks (self : t) (df : DataFrame) (column : string)
  : outcome (list Q * list range) :=
  var_config <- dict_getitem (variables_config self) column ;;
  lim <- calculate_outliers_limits self df column ;;
  col <- dict_getitem df column ;;
  let df_filtered := filter (within_limits (LI lim) (LS lim)) col in
  method <- getitem (breaks_method var_config) "breaks_method" ;;
  if String.eqb method "percentiles" then
    grid <- linspace 0 100 (num_categories (global_config self) + 1) ;;
    let percentiles := slice_1_m1 grid in
    breaks <- percentile df_filtered percentiles ;;
    breaks <- concatenate_breaks (min_value lim) (max_value lim) breaks ;;
    let break_ranges := ranges_of_breaks breaks in
    let break_ranges := shrink_ranges break_ranges in
    Ok (breaks, break_ranges)
  else if String.eqb method "jenks" then
    all_breaks <- lib_jenks_breaks df_filtered (num_categories (global_config self)) ;;
    let breaks := slice_1_m1 all_breaks in
    breaks <- concatenate_breaks (min_value lim) (max_value lim) breaks ;;
    let break_ranges := ranges_of_breaks breaks in
    let break_ranges := shrink_ranges break_ranges in
    Ok (breaks, break_ranges)
  else
    Raise (ValueError ("Método de cálculo de breaks no soportado: " ++ method)).

(** The [for] loop of [get_range_for_value]: the first range with
    [lower <= value < upper]. *)
Fixpoint first_range (value : Q) (break_ranges : list range) : option range :=
  match break_ranges with
  | [] => None
  | (lower, upper) :: rest =>
      if Qle_bool lower value && Qlt_bool value upper then Some (lower, upper)
      else first_range value rest
  end.

Definition get_range_for_value (value : Q) (break_ranges : list range)
  : outcome (option range) :=
  match first_range value break_ranges with
  | Some r => Ok (Some r)
  | None =>
      match break_ranges with
      | [] => Raise (IndexError "list index out of range")
      | r0 :: rest =>
          let final := last rest r0 in
          if Qeq_bool value (snd final) then Ok (Some final) else Ok None
      end
  end.

(** Whether the settings that meet the array of bucket indices fit in 64
    bits: the bounds of [np.clip], the step, and [score_max] in inverse
    order. *)
Definition settings_fit (g : GlobalConfig) (inverse : bool) : bool :=
  fits_int64 (score_min g) && fits_int64 (num_categories g) && fits_int64 (score_step g)
  && (if inverse then fits_int64 (score_max g) else true).

(** One operation on the array of bucket indices. With settings that fit
    in 64 bits the array stays an int64 array and the result wraps around.
    A setting that does not fit takes numpy out of int64 (depending on its
    release it refuses the setting or goes on with Python integers); the
    operation is exact then. *)
Definition int64_op (g : GlobalConfig) (inverse : bool) (z : Z) : Z :=
  if settings_fit g inverse then wrap64 z else z.

(** The score of a bucket index:
    [score_max - ((scores - score_min) * score_step)] in inverse order,
    [score_min + ((scores - score_min) * score_step)] otherwise. *)
Definition score_of_bucket (g : GlobalConfig) (inverse : bool) (bucket : Z) : Z :=
  let op := int64_op g inverse in
  if inverse then op (score_max g - op (op (bucket - score_min g) * score_step g))%Z
  else op (score_min g + op (op (bucket - score_min g) * score_step g))%Z.

Definition calculate_score (self : t) (df : DataFrame) (column : string)
           (breaks : list Q) (break_ranges : list range) (inverse : bool)
  : outcome (list Z * list (option range)) :=
  let g := global_config self in
  col <- dict_getitem df column ;;
  scores <- digitize col breaks ;;
  let scores := map (fun s => clip s (score_min g) (num_categories g)) scores in
  value_ranges <- mapM (fun value => get_range_for_value value break_ranges) col ;;
  let scores := map (score_of_bucket g inverse) scores in
  Ok (scores, value_ranges).

(** The body of the [try] of [process_rfm_data]. *)
Definition score_variable (self : t) (rfm_data : DataFrame) (column : string)
  : outcome (list Z * list (option range)) :=
  let inverse := String.eqb (lower column) "recency" in
  '(breaks, break_ranges) <- calculate_breaks self rfm_data column ;;
  calculate_score self rfm_data column breaks break_ranges inverse.

(** The state of the loop: [scores_dict] and what has been printed. *)
Definition loop_state : Type := (dict column * list string)%type.

Definition message_of (e : exn) : string :=
  match e with
  | KeyError m | ValueError m | IndexError m | TypeError m | AttributeError m
  | FileNotFoundError m | InvalidIndexError m => m
  end.

Definition process_variable (self : t) (rfm_data : DataFrame)
           (st : outcome loop_state) (item : string * VarConfig)
  : outcome loop_state :=
  '(scores_dict, out) <- st ;;
  let column := fst item in
  match score_variable self rfm_data column with
  | Ok (scores, value_ranges) =>
      let scores_dict := dict_set scores_dict (column ++ "_score") (ScoreCol scores) in
      let scores_dict := dict_set scores_dict (column ++ "_range") (RangeCol value_ranges) in
      Ok (scores_dict, out)
  | Raise (KeyError _) =>
      Ok (scores_dict, out ++ [("Configuración no encontrada para la variable: " ++ column)%string])
  | Raise e =>
      Ok (scores_dict,
          out ++ [("Error procesando la variable '" ++ column ++ "': " ++ message_of e)%string])
  | NaNResult => NaNResult
  end.

(** [process_rfm_data] on a table with the row labels [index]: the loop,
    then [pd.DataFrame(scores_dict)] and [pd.concat] outside the [try];
    the result is given with what was printed. *)
Definition process_rfm_data (self : t) (index : Index) (rfm_data : DataFrame)
  : outcome (dict column * list string) :=
  '(scores_dict, out) <-
     fold_left (process_variable self rfm_data) (variables_config self) (Ok ([], [])) ;;
  scores_df <- frame_of_dict scores_dict ;;
  df_resultado <- concat_columns index rfm_data scores_df ;;
  Ok (df_resultado, out).

End WithLibraries.

End RFMProcessing.

(** ** [modules/segment_assigner.py] *)

(** How pandas writes a float and a timestamp as text. *)
Class TextLib : Type := {
  repr_float : Q -> string;
  repr_timestamp : Z -> Z -> Z -> string
}.

(** A scalar of the YAML file. *)
Inductive scalar : Type :=
| Whole (z : Z)
| Real (q : Q)
| Text (s : string)
| Truth (b : bool)
| Null.

(** The calendar of pandas: what, if anything, is raised when [number]
    months, days or years (the first argument) are taken from the last
    day of the previous month. *)
Class DateLib : Type := {
  lib_start_date : string -> scalar -> outcome unit
}.

Module SegmentAssigner.

Local Open Scope string_scope.

Record date : Type := { year : Z; month : Z; day : Z }.

(** [Timestamp.to_period('M')]: the calendar year and month. *)
Definition to_period_M (d : date) : Z * Z := (year d, month d).

Inductive cell : Type :=
| Int (z : Z)
| Float (q : Q)
| Str (s : string)
| Boolean (b : bool)
| Date (d : date)
| NaT.

Definition DataFrame : Type := dict (list cell).

(** What the constructor reads from the YAML file: the two keys of this
    module, and the interval and the number of
    [global_settings.date_range]. *)
Record Config : Type := {
  cfg_score_method : option string;
  cfg_business_categories : option (dict (list string));
  cfg_interval : option string;
  cfg_number : option scalar
}.

(** [self]; [end_date] is [None] when the attribute was never set. *)
Record t : Type := {
  score_method : string;
  business_categories : dict (list string);
  end_date : option date
}.

Section WithCalendar.

Context `{DateLib}.

(** [DataLoader.get_date_range_for_rfm]: the interval and the number are
    read, the start date is computed for one of the three intervals, then
    both dates are overwritten with fixed ones. *)
Definition get_date_range_for_rfm (cfg : Config) : outcome (date * date) :=
  interval <- getitem (cfg_interval cfg) "interval" ;;
  number <- getitem (cfg_number cfg) "number" ;;
  if String.eqb interval "months" || String.eqb interval "days"
     || String.eqb interval "years"
  then
    _ <- lib_start_date interval number ;;
    Ok (Build_date 2023 12 1, Build_date 2024 12 10)
  else Raise (ValueError ("Intervalo '" ++ interval
                          ++ "' no reconocido. Usa 'months', 'days' o 'years'.")).

(** [RFMProcessor.__init__]; [loaded] is what [DataLoader.load_config]
    gave for the path. *)
Definition init (loaded : outcome Config) : outcome t :=
  let fallback := Build_t "combinación" [] None in
  match loaded with
  | Ok config =>
      let score_method := get_default (cfg_score_method config) "combinación" in
      let business_categories := get_default (cfg_business_categories config) [] in
      match get_date_range_for_rfm config with
      | Ok (_, end_date) => Ok (Build_t score_method business_categories (Some end_date))
      | Raise (ValueError _) | Raise (FileNotFoundError _) => Ok fallback
      | Raise e => Raise e
      | NaNResult => NaNResult
      end
  | Raise (ValueError _) | Raise (FileNotFoundError _) => Ok fallback
  | Raise e => Raise e
  | NaNResult => NaNResult
  end.

End WithCalendar.

(** [len(df)], read on the first column (the columns of a table have one
    length). *)
Definition nrows (df : DataFrame) : nat :=
  match df with
  | [] => O
  | (_, col) :: _ => List.length col
  end.

Fixpoint map3 {A B C D : Type} (f : A -> B -> C -> D)
         (la : list A) (lb : list B) (lc : list C) : list D :=
  match la, lb, lc with
  | a :: la', b :: lb', c :: lc' => f a b c :: map3 f la' lb' lc'
  | _, _, _ => []
  end.

(** A cell as a number, for [sum] and [mean]. *)
Definition numeric (c : cell) : outcome Q :=
  match c with
  | Int z => Ok (inject_Z z)
  | Float q => Ok q
  | Boolean b => Ok (if b then 1 else 0)
  | _ => Raise (TypeError "unsupported operand type(s) for +")
  end.

Definition is_int (c : cell) : bool :=
  match c with Int _ | Boolean _ => true | _ => false end.

Definition as_int (c : cell) : Z :=
  match c with Int z => z | Boolean true => 1 | _ => 0 end%Z.

Section WithText.

Context `{TextLib}.

(** [str(x)] for the value of a cell. *)
Definition py_str (c : cell) : string :=
  match c with
  | Int z => str_int z
  | Float q => repr_float q
  | Str s => s
  | Boolean b => if b then "True" else "False"
  | Date d => repr_timestamp (year d) (month d) (day d)
  | NaT => "NaT"
  end.

(** [df[[...]].sum(axis=1)] for one row. *)
Definition row_sum (r f m : cell) : outcome cell :=
  if is_int r && is_int f && is_int m then Ok (Int (as_int r + as_int f + as_int m))
  else
    a <- numeric r ;; b <- numeric f ;; c <- numeric m ;; Ok (Float (a + b + c)).

(** [df[[...]].mean(axis=1)] for one row. *)
Definition row_mean (r f m : cell) : outcome cell :=
  a <- numeric r ;; b <- numeric f ;; c <- numeric m ;; Ok (Float ((a + b + c) / 3)).

Definition sequence {A : Type} (l : list (outcome A)) : outcome (list A) :=
  mapM (fun x => x) l.

Definition calculate_final_score (self : t) (df : DataFrame) : outcome (list cell) :=
  if String.eqb (score_method self) "combinacion" then
    r <- dict_getitem df "Recency_score" ;;
    f <- dict_getitem df "Frequency_score" ;;
    m <- dict_getitem df "Monetary_score" ;;
    Ok (map3 (fun a b c => Str (py_str a ++ py_str b ++ py_str c)) r f m)
  else if String.eqb (score_method self) "suma" then
    r <- dict_getitem df "Recency_score" ;;
    f <- dict_getitem df "Frequency_score" ;;
    m <- dict_getitem df "Monetary_score" ;;
    sequence (map3 row_sum r f m)
  else if String.eqb (score_method self) "promedio" then
    r <- dict_getitem df "Recency_score" ;;
    f <- dict_getitem df "Frequency_score" ;;
    m <- dict_getitem df "Monetary_score" ;;
    sequence (map3 row_mean r f m)
  else
    Raise (ValueError ("Método de cálculo de score '" ++ score_method self
                       ++ "' no reconocido.")).

(** [cell == 1]. *)
Definition equals_one (c : cell) : bool :=
  match c with
  | Int z => (z =? 1)%Z
  | Float q => Qeq_bool q 1
  | Boolean b => b
  | _ => false
  end.

(** [Series.dt.to_period('M')]: only a column of timestamps has [.dt]. *)
Definition dt_to_period_M (col : list cell) : outcome (list (option (Z * Z))) :=
  mapM (fun c =>
          match c with
          | Date d => Ok (Some (to_period_M d))
          | NaT => Ok None
          | _ => Raise (AttributeError "Can only use .dt accessor with datetimelike values")
          end) col.

Definition same_period (p : option (Z * Z)) (q : Z * Z) : bool :=
  match p with
  | Some (y, m) => (y =? fst q)%Z && (m =? snd q)%Z
  | None => false
  end.

(** The inner function [categorize]. *)
Fixpoint categorize (categories : dict (list string)) (score : cell) : string :=
  match categories with
  | [] => "Sin Categoría"
  | (category, values) :: rest =>
      if existsb (String.eqb (py_str score)) values then category
      else categorize rest score
  end.

Fixpoint drop_column (df : DataFrame) (name : string) : DataFrame :=
  match df with
  | [] => []
  | (k, v) :: df' =>
      if String.eqb k name then drop_column df' name else (k, v) :: drop_column df' name
  end.

Definition assign_business_categories (self : t) (df : DataFrame) (score_column : string)
  : outcome DataFrame :=
  match dict_get df score_column with
  | None => Raise (KeyError ("La columna '" ++ score_column ++ "' no existe en el DataFrame."))
  | Some _ =>
      months <- dict_getitem df "MonthsWithPurchases" ;;
      last_purchase <- dict_getitem df "LastPurchaseDate" ;;
      periods <- dt_to_period_M last_purchase ;;
      match end_date self with
      | None => Raise (AttributeError "'RFMProcessor' object has no attribute 'end_date'")
      | Some e =>
          let IsNew :=
            map (fun mp => equals_one (fst mp) && same_period (snd mp) (to_period_M e))
                (combine months periods) in
          let rows := nrows df in
          let has_category :=
            match dict_get df "Business_Category" with Some _ => true | None => false end in
          let df := dict_set df "IsNew" (map Boolean IsNew) in
          (* the first [df.loc[...] = 'Nuevo']: pandas refuses to add a column
             to a table without rows by setting a scalar *)
          if Nat.eqb rows 0 && negb has_category
          then Raise (ValueError "cannot set a frame with no defined index and a scalar")
          else
          scores <- dict_getitem df score_column ;;
          let labels :=
            map (fun ns : bool * cell => if fst ns then "Nuevo"
                           else categorize (business_categories self) (snd ns))
                (combine IsNew scores) in
          let df := dict_set df "Business_Category" (map Str labels) in
          Ok (drop_column df "IsNew")
      end
  end.

End WithText.

End SegmentAssigner.

(** ** Reference instances of the numerical libraries *)

Module Reference.

Import Numpy.

(** A square root to six decimal places, rounded down. *)
Definition sqrt_approx (x : Q) : Q :=
  Z.sqrt (Qnum x * Zpos (Qden x) * 10 ^ 12) # (Qden x * 10 ^ 6).

(** The sum of the squared deviations of a class from its mean. *)
Definition ssd (cls : list Q) : Q :=
  let m := sum cls / inject_Z (Z.of_nat (List.length cls)) in
  sum (map (fun x => (x - m) * (x - m)) cls).

Definition better (a b : option (Q * list (list Q))) : option (Q * list (list Q)) :=
  match a, b with
  | Some (ca, _), Some (cb, _) => if Qle_bool ca cb then a else b
  | Some _, None => a
  | None, _ => b
  end.

(** The best cut of a sorted sample into [k] contiguous, non-empty
    classes, by exhaustive search. *)
Fixpoint best_classes (k : nat) (s : list Q) : option (Q * list (list Q)) :=
  match k with
  | O => match s with [] => Some (0, []) | _ => None end
  | S k' =>
      fold_left
        (fun best i =>
           match best_classes k' (skipn i s) with
           | Some (c, rest) => better best (Some (ssd (firstn i s) + c, firstn i s :: rest))
           | None => best
           end)
        (seq 1 (List.length s)) None
  end.

(** Natural breaks: the minimum, then the largest value of each class. *)
Definition jenks_breaks (values : list Q) (n_classes : Z) : outcome (list Q) :=
  match sort values with
  | [] => Raise (ValueError "values must not be empty")
  | lo :: _ as s =>
      match best_classes (Z.to_nat n_classes) s with
      | Some (_, classes) => Ok (lo :: map (fun cls => last cls 0) classes)
      | None => Raise (ValueError "n_classes must not exceed the number of values")
      end
  end.

(** A numpy that raises on a percentile of zero samples, as recent
    releases do. *)
Definition numpy_recent : NumLib := {|
  lib_sqrt := sqrt_approx;
  lib_percentile_empty :=
    fun _ => Raise (IndexError "index -1 is out of bounds for axis 0 with size 0");
  lib_jenks_breaks := jenks_breaks
|}.

(** A numpy that answers NaN for a percentile of zero samples, as older
    releases do. *)
Definition numpy_legacy : NumLib := {|
  lib_sqrt := sqrt_approx;
  lib_percentile_empty := fun _ => NaNResult;
  lib_jenks_breaks := jenks_breaks
|}.

(** Text of floats and timestamps: a float with an integral value is
    written [N.0] (others as a fraction, which pandas would write as a
    decimal); a timestamp at midnight as [Y-M-D 00:00:00]. *)
Definition pad2 (z : Z) : string :=
  if (z <? 10)%Z then ("0" ++ str_int z)%string else str_int z.

Definition pandas_text : TextLib := {|
  repr_float := fun q =>
    let r := Qred q in
    if (Zpos (Qden r) =? 1)%Z then (str_int (Qnum r) ++ ".0")%string
    else (str_int (Qnum r) ++ "/" ++ str_int (Zpos (Qden r)))%string;
  repr_timestamp := fun y m d =>
    (str_int y ++ "-" ++ pad2 m ++ "-" ++ pad2 d ++ " 00:00:00")%string
|}.

(** A calendar for the examples: whole numbers from 0 to 120 are taken
    from the date without error. It refuses the other scalars; what
    pandas does with them plays no part below. *)
Definition calendar : DateLib := {|
  lib_start_date := fun _ number =>
    match number with
    | Whole z =>
        if (0 <=? z)%Z && (z <=? 120)%Z then Ok tt
        else Raise (ValueError "Out of bounds nanosecond timestamp")
    | _ => Raise (TypeError "unsupported type for timedelta component")
    end
|}.

End Reference.

(** ** Shapes used to state the properties *)

Module Shapes.

Import RFMProcessing SegmentAssigner.

(** The ranges between consecutive cut-points. *)
Fixpoint adjacent_pairs (b : Q) (rest : list Q) : list range :=
  match rest with
  | [] => []
  | b1 :: rest' => (b, b1) :: adjacent_pairs b1 rest'
  end.

(** The same ranges with every upper bound but the last lowered by
    [eps]: what the separating loop leaves. *)
Fixpoint separated_ranges (b : Q) (rest : list Q) : list range :=
  match rest with
  | [] => []
  | [b1] => [(b, b1)]
  | b1 :: rest' => (b, b1 - eps) :: separated_ranges b1 rest'
  end.

(** [label] is the first category of [categories] that lists [s], or
    the fallback when none does. *)
Definition first_match (categories : dict (list string)) (s label : string) : Prop :=
  (exists before values after,
      categories = (before ++ (label, values) :: after)%list /\
      In s values /\
      Forall (fun kv => ~ In s (snd kv)) before)
  \/ (label = "Sin Categoría"%string /\ Forall (fun kv => ~ In s (snd kv)) categories).

(** What one configured variable adds to the table and to the output. *)
Definition scored_columns (column : string)
           (o : outcome (list Z * list (option range))) : dict RFMProcessing.column :=
  match o with
  | Ok (scores, value_ranges) =>
      [((column ++ "_score")%string, ScoreCol scores);
       ((column ++ "_range")%string, RangeCol value_ranges)]
  | _ => []
  end.

Definition skip_message (column : string)
           (o : outcome (list Z * list (option range))) : list string :=
  match o with
  | Raise (KeyError _) =>
      [("Configuración no encontrada para la variable: " ++ column)%string]
  | Raise e =>
      [("Error procesando la variable '" ++ column ++ "': " ++ message_of e)%string]
  | _ => []
  end.

(** The score arithmetic stays within 64 bits: the step is not negative,
    the bucket indices run from [score_min] up to [num_categories], and
    neither the largest multiple of the step nor the score it gives leaves
    the int64 range. *)
Definition no_wrap (g : GlobalConfig) (inverse : bool) : Prop :=
  (0 <= score_step g)%Z /\
  (score_min g <= num_categories g)%Z /\
  (num_categories g - score_min g <= Numpy.int64_max)%Z /\
  ((num_categories g - score_min g) * score_step g <= Numpy.int64_max)%Z /\
  if inverse
  then (Numpy.int64_min <= score_max g - (num_categories g - score_min g) * score_step g)%Z
       /\ (score_max g <= Numpy.int64_max)%Z
  else (Numpy.int64_min <= score_min g)%Z
       /\ (score_min g + (num_categories g - score_min g) * score_step g
           <= Numpy.int64_max)%Z.

(** The rule for a new customer, on the cells of a row. *)
Definition is_new (e : date) (months last_purchase : cell) : Prop :=
  equals_one months = true /\
  exists d, last_purchase = Date d /\ to_period_M d = to_period_M e.

End Shapes.

(** ** Example inputs *)

Module Scenarios.

Local Open Scope string_scope.

(** Scenario D: one customer with scores 5, 2 and 4. *)
Definition scenario_D : SegmentAssigner.DataFrame :=
  [("Recency_score", [SegmentAssigner.Int 5]);
   ("Frequency_score", [SegmentAssigner.Int 2]);
   ("Monetary_score", [SegmentAssigner.Int 4])].

(** A configuration file without the key [score_method]. *)
Definition config_without_method : SegmentAssigner.Config :=
  SegmentAssigner.Build_Config None (Some [("Campeones", ["555"; "554"])]) (Some "months")
                               (Some (Whole 12)).

(** A configuration whose categories use the name [Nuevo] themselves,
    and a customer with purchases in three months. *)
Definition assigner_with_nuevo : SegmentAssigner.t :=
  SegmentAssigner.Build_t "combinacion"
    [("Nuevo", ["111"]); ("Campeones", ["555"; "554"])]
    (Some (SegmentAssigner.Build_date 2024 12 10)).

Definition loyal_customer : SegmentAssigner.DataFrame :=
  [("MonthsWithPurchases", [SegmentAssigner.Int 3]);
   ("LastPurchaseDate", [SegmentAssigner.Date (SegmentAssigner.Build_date 2024 6 15)]);
   ("Final_Score", [SegmentAssigner.Str "111"])].

(** Scenario E: a single month with purchases, the last one in the month
    of the end date, and a final score that a category lists. *)
Definition assigner_E : SegmentAssigner.t :=
  SegmentAssigner.Build_t "combinacion"
    [("Campeones", ["555"; "554"]); ("Leales", ["554"; "444"])]
    (Some (SegmentAssigner.Build_date 2024 12 10)).

Definition scenario_E : SegmentAssigner.DataFrame :=
  [("MonthsWithPurchases", [SegmentAssigner.Int 1; SegmentAssigner.Int 4]);
   ("LastPurchaseDate",
    [SegmentAssigner.Date (SegmentAssigner.Build_date 2024 12 3);
     SegmentAssigner.Date (SegmentAssigner.Build_date 2024 12 5)]);
   ("Final_Score", [SegmentAssigner.Str "555"; SegmentAssigner.Str "554"])].

(** The table of scenario E without customers. *)
Definition scenario_empty : SegmentAssigner.DataFrame :=
  [("MonthsWithPurchases", []); ("LastPurchaseDate", []); ("Final_Score", [])].

(** Scenario A: ten customers, IQR limits, percentile breaks, five
    categories scored 1 to 5; Recency is cut by Jenks. *)
Definition column_A : list Q := map inject_Z [10; 20; 30; 40; 50; 60; 70; 80; 90; 100]%Z.

Definition config_A : RFMProcessing.VarConfig :=
  RFMProcessing.Build_VarConfig (Some "IQR") None None None None (Some "percentiles").

Definition config_jenks : RFMProcessing.VarConfig :=
  RFMProcessing.Build_VarConfig (Some "std_dev") None None None None (Some "jenks").

Definition processing_A : RFMProcessing.t :=
  RFMProcessing.Build_t (RFMProcessing.Build_GlobalConfig 5 1 5 1)
                        [("Monetary", config_A); ("Recency", config_jenks)].

Definition table_A : RFMProcessing.DataFrame :=
  [("Monetary", column_A);
   ("Recency", map inject_Z [1; 2; 3; 10; 11; 12; 50; 51; 52; 53]%Z)].

(** Its cut-points and ranges for Monetary, with [numpy_recent]. *)
Definition breaks_A : list Q * list RFMProcessing.range :=
  Eval vm_compute in
    match @RFMProcessing.calculate_breaks Reference.numpy_recent processing_A
                                          table_A "Monetary" with
    | Ok b => b
    | _ => ([], [])
    end.

(** Scenario A with scores from 1 to 5 in steps of 2. *)
Definition processing_step_two : RFMProcessing.t :=
  RFMProcessing.Build_t (RFMProcessing.Build_GlobalConfig 5 1 5 2)
                        [("Monetary", config_A)].

(** Scores from 1 to 5 in steps of [2^62]. *)
Definition settings_wide_step : RFMProcessing.GlobalConfig :=
  RFMProcessing.Build_GlobalConfig 5 1 5 (2 ^ 62).

(** Scenario A with scores in steps of -1. *)
Definition processing_step_back : RFMProcessing.t :=
  RFMProcessing.Build_t (RFMProcessing.Build_GlobalConfig 5 1 5 (-1))
                        [("Monetary", config_A)].

Definition scores_step_two : list Z * list (option RFMProcessing.range) :=
  Eval vm_compute in
    match @RFMProcessing.score_variable Reference.numpy_recent processing_step_two
                                        table_A "Monetary" with
    | Ok s => s
    | _ => ([], [])
    end.

Definition scores_step_back : list Z * list (option RFMProcessing.range) :=
  Eval vm_compute in
    match @RFMProcessing.score_variable Reference.numpy_recent processing_step_back
                                        table_A "Monetary" with
    | Ok s => s
    | _ => ([], [])
    end.

(** Two customers, percentile limits with the default 5 and 95: both
    values fall outside the limits. *)
Definition config_percentiles : RFMProcessing.VarConfig :=
  RFMProcessing.Build_VarConfig (Some "percentiles") None None None None
                                (Some "percentiles").

Definition processing_percentiles : RFMProcessing.t :=
  RFMProcessing.Build_t (RFMProcessing.Build_GlobalConfig 5 1 5 1)
                        [("Monetary", config_percentiles)].

Definition table_pair : RFMProcessing.DataFrame := [("Monetary", [0; 10])].

Definition limits_pair : RFMProcessing.OutlierLimits :=
  Eval vm_compute in
    match @RFMProcessing.calculate_outliers_limits Reference.numpy_recent
                                                   processing_percentiles
                                                   table_pair "Monetary" with
    | Ok l => l
    | _ => RFMProcessing.Build_OutlierLimits None None None None None
    end.

(** A breaks method that does not exist, and a variable without column. *)
Definition config_kmeans : RFMProcessing.VarConfig :=
  RFMProcessing.Build_VarConfig (Some "IQR") None None None None (Some "kmeans").

Definition processing_mixed : RFMProcessing.t :=
  RFMProcessing.Build_t (RFMProcessing.Build_GlobalConfig 5 1 5 1)
    [("Frequency", config_kmeans);
     ("Monetary", config_A);
     ("Visits", config_A)].

Definition table_mixed : RFMProcessing.DataFrame :=
  [("Frequency", map inject_Z [1; 2; 3; 4; 5; 6; 7; 8; 9; 10]%Z);
   ("Monetary", column_A)].

Definition result_mixed : dict RFMProcessing.column * list string :=
  Eval vm_compute in
    match @RFMProcessing.process_rfm_data Reference.numpy_recent processing_mixed
                                          (RFMProcessing.range_index 10) table_mixed with
    | Ok r => r
    | _ => ([], [])
    end.

(** Row labels of ten customers in which the label 0 comes twice. *)
Definition index_repeated : RFMProcessing.Index := [0; 0; 1; 2; 3; 4; 5; 6; 7; 8]%Z.

(** An IQR factor of -1. *)
Definition processing_negative_factor : RFMProcessing.t :=
  RFMProcessing.Build_t (RFMProcessing.Build_GlobalConfig 5 1 5 1)
    [("Monetary",
      RFMProcessing.Build_VarConfig (Some "IQR") (Some (- (1)))%Q None None None
                                    (Some "percentiles"))].

Definition table_two : RFMProcessing.DataFrame := [("Monetary", [0; 4])].

(** Five customers, three of them within 0.0005 of each other, cut
    into two categories at the median of the values within the limits. *)
Definition column_close : list Q := [0; 9995 # 10000; 1; 10005 # 10000; 2].

Definition processing_two : RFMProcessing.t :=
  RFMProcessing.Build_t (RFMProcessing.Build_GlobalConfig 2 1 2 1)
                        [("Monetary", config_A)].

Definition table_close : RFMProcessing.DataFrame := [("Monetary", column_close)].

(** Its cut-points and ranges, with [numpy_recent]. *)
Definition breaks_close : list Q * list RFMProcessing.range :=
  Eval vm_compute in
    match @RFMProcessing.calculate_breaks Reference.numpy_recent processing_two
                                          table_close "Monetary" with
    | Ok b => b
    | _ => ([], [])
    end.

Definition limits_close : RFMProcessing.OutlierLimits :=
  Eval vm_compute in
    match @RFMProcessing.calculate_outliers_limits Reference.numpy_recent processing_two
                                                   table_close "Monetary" with
    | Ok l => l
    | _ => RFMProcessing.Build_OutlierLimits None None None None None
    end.

End Scenarios.

(** ** [RFMProcessor.process_rfm] *)

Module SegmentPipeline.

Import SegmentAssigner.
Local Open Scope string_scope.

(** A cell that [.dt] accepts. *)
Definition datelike (c : cell) : Prop := c = NaT \/ exists d, c = Date d.

(** The processor that [__init__] leaves after the [except] branch. *)
Definition fallback : t := Build_t "combinación" [] None.

Section WithText.

Context `{TextLib}.

(** [process_rfm]: the lines printed, and the table returned or the
    exception raised. *)
Definition process_rfm (self : t) (df : DataFrame) : list string * outcome DataFrame :=
  let out := ["Calculando el score final..."] in
  match calculate_final_score self df with
  | Ok final =>
      let df := dict_set df "Final_Score" final in
      let out := (out ++ ["Asignando categorías de negocio..."])%list in
      match assign_business_categories self df "Final_Score" with
      | Ok df =>
          match end_date self with
          | Some e =>
              ((out ++ ["Procesamiento RFM completado."])%list,
               Ok (dict_set df "CutoffDate" (repeat (Date e) (nrows df))))
          | None =>
              (out, Raise (AttributeError "'RFMProcessor' object has no attribute 'end_date'"))
          end
      | Raise e => (out, Raise e)
      | NaNResult => (out, NaNResult)
      end
  | Raise e => (out, Raise e)
  | NaNResult => (out, NaNResult)
  end.

End WithText.

End SegmentPipeline.

(** ** More example inputs *)

Module MoreScenarios.

Local Open Scope string_scope.

(** Scenario B: a standard-deviation limit with factor 2, and a customer
    far above the others. *)
Definition config_std : RFMProcessing.VarConfig :=
  RFMProcessing.Build_VarConfig (Some "std_dev") None None None None (Some "percentiles").

Definition processing_std : RFMProcessing.t :=
  RFMProcessing.Build_t (RFMProcessing.Build_GlobalConfig 5 1 5 1)
                        [("Monetary", config_std); ("RECENCY", Scenarios.config_A)].

Definition column_B : list Q := map inject_Z [40; 45; 50; 50; 50; 55; 60; 95]%Z.

(** Scenario C: recency values, under a name in capitals. *)
Definition column_C : list Q := map inject_Z [1; 5; 10; 50; 100]%Z.

Definition table_B : RFMProcessing.DataFrame :=
  [("Monetary", column_B); ("RECENCY", column_C)].

Definition breaks_B : list Q * list RFMProcessing.range :=
  Eval vm_compute in
    match @RFMProcessing.calculate_breaks Reference.numpy_recent processing_std
                                          table_B "Monetary" with
    | Ok b => b
    | _ => ([], [])
    end.

Definition scores_C : list Z * list (option RFMProcessing.range) :=
  Eval vm_compute in
    match @RFMProcessing.score_variable Reference.numpy_recent processing_std
                                        table_B "RECENCY" with
    | Ok s => s
    | _ => ([], [])
    end.

(** Two customers, and an IQR factor of 1/10. *)
Definition config_narrow : RFMProcessing.VarConfig :=
  RFMProcessing.Build_VarConfig (Some "IQR") (Some (1 # 10)) None None None
                                (Some "percentiles").

Definition processing_narrow : RFMProcessing.t :=
  RFMProcessing.Build_t (RFMProcessing.Build_GlobalConfig 5 1 5 1)
                        [("Monetary", config_narrow)].

Definition table_two_rows : RFMProcessing.DataFrame := [("Monetary", [10; 20])].

(** Scenario A scored against its own cut-points, and two values outside
    them scored against the same cut-points. *)
Definition scores_A : list Z * list (option RFMProcessing.range) :=
  Eval vm_compute in
    match RFMProcessing.calculate_score Scenarios.processing_A Scenarios.table_A
            "Monetary" (fst Scenarios.breaks_A) (snd Scenarios.breaks_A) false with
    | Ok s => s
    | _ => ([], [])
    end.

Definition range_A_row_four : RFMProcessing.range :=
  Eval vm_compute in
    match nth 4 (snd scores_A) None with
    | Some r => r
    | None => (0, 0)
    end.

Definition table_outside : RFMProcessing.DataFrame := [("Monetary", [0; 500])].

Definition scores_outside : list Z * list (option RFMProcessing.range) :=
  Eval vm_compute in
    match RFMProcessing.calculate_score Scenarios.processing_A table_outside
            "Monetary" (fst Scenarios.breaks_A) (snd Scenarios.breaks_A) false with
    | Ok s => s
    | _ => ([], [])
    end.

(** A table with one customer. *)
Definition table_single : RFMProcessing.DataFrame := [("Monetary", [50])].

(** Three customers with their scores, purchases and an [IsNew] column of
    their own. *)
Definition table_scored : SegmentAssigner.DataFrame :=
  [("CustomerID", [SegmentAssigner.Int 17850; SegmentAssigner.Int 13047;
                   SegmentAssigner.Int 12583]);
   ("IsNew", [SegmentAssigner.Str "x"; SegmentAssigner.Str "y"; SegmentAssigner.Str "z"]);
   ("Recency_score", [SegmentAssigner.Int 5; SegmentAssigner.Int 5; SegmentAssigner.Int 1]);
   ("Frequency_score", [SegmentAssigner.Int 5; SegmentAssigner.Int 5; SegmentAssigner.Int 1]);
   ("Monetary_score", [SegmentAssigner.Int 5; SegmentAssigner.Int 4; SegmentAssigner.Int 2]);
   ("MonthsWithPurchases", [SegmentAssigner.Int 7; SegmentAssigner.Int 1;
                            SegmentAssigner.Int 1]);
   ("LastPurchaseDate",
    [SegmentAssigner.Date (SegmentAssigner.Build_date 2024 11 30);
     SegmentAssigner.Date (SegmentAssigner.Build_date 2024 12 2);
     SegmentAssigner.Date (SegmentAssigner.Build_date 2023 12 2)])].

(** A configuration with a valid method and an interval that does not
    exist, and one with an interval that does. *)
Definition config_bad_interval : SegmentAssigner.Config :=
  SegmentAssigner.Build_Config (Some "combinacion")
                               (Some [("Campeones", ["555"; "554"])]) (Some "weeks")
                               (Some (Whole 12)).

Definition config_good : SegmentAssigner.Config :=
  SegmentAssigner.Build_Config (Some "combinacion")
                               (Some [("Campeones", ["555"; "554"])]) (Some "months")
                               (Some (Whole 12)).

(** A configuration without the number of the date range. *)
Definition config_without_number : SegmentAssigner.Config :=
  SegmentAssigner.Build_Config (Some "combinacion")
                               (Some [("Campeones", ["555"; "554"])]) (Some "weeks") None.

Definition assigner_sum : SegmentAssigner.t :=
  SegmentAssigner.Build_t "suma" [("Campeones", ["15"; "14"])]
                          (Some (SegmentAssigner.Build_date 2024 12 10)).


(** What [process_rfm] returns for the three customers. *)
Definition processed_E : SegmentAssigner.DataFrame :=
  Eval vm_compute in
    match snd (@SegmentPipeline.process_rfm Reference.pandas_text Scenarios.assigner_E
                 table_scored) with
    | Ok d => d
    | _ => []
    end.

Definition processed_good : SegmentAssigner.DataFrame :=
  Eval vm_compute in
    match snd (@SegmentPipeline.process_rfm Reference.pandas_text
                 (SegmentAssigner.Build_t "combinacion" [("Campeones", ["555"; "554"])]
                    (Some (SegmentAssigner.Build_date 2024 12 10)))
                 table_scored) with
    | Ok d => d
    | _ => []
    end.

End MoreScenarios.

(** * Properties *)

(** ** Lists, dictionaries and outcomes *)

Lemma mapM_nth_error {A B : Type} (f : A -> outcome B) (l : list A) (l' : list B) :
  mapM f l = Ok l' ->
  forall i a, nth_error l i = Some a ->
  exists b, f a = Ok b /\ nth_error l' i = Some b.
Proof.
  revert l'. induction l as [|x l IH]; intros l' Hm i a Hi.
  - destruct i; discriminate.
  - simpl in Hm. destruct (f x) as [b| |] eqn:Hfx; try discriminate.
    simpl in Hm. destruct (mapM f l) as [bs| |] eqn:Hl; try discriminate.
    simpl in Hm. injection Hm as <-.
    destruct i as [|i]; simpl in Hi.
    + injection Hi as <-. exists b. split; [assumption | reflexivity].
    + destruct (IH bs eq_refl i a Hi) as [b' [Hb Hn]]. exists b'. split; assumption.
Qed.

Lemma mapM_length {A B : Type} (f : A -> outcome B) (l : list A) (l' : list B) :
  mapM f l = Ok l' -> List.length l' = List.length l.
Proof.
  revert l'. induction l as [|x l IH]; intros l' Hm; simpl in Hm.
  - injection Hm as <-. reflexivity.
  - destruct (f x) as [b| |]; try discriminate. simpl in Hm.
    destruct (mapM f l) as [bs| |]; try discriminate. simpl in Hm.
    injection Hm as <-. simpl. f_equal. apply IH. reflexivity.
Qed.

Lemma mapM_total {A B : Type} (f : A -> outcome B) (l : list A) :
  Forall (fun a => exists b, f a = Ok b) l -> exists l', mapM f l = Ok l'.
Proof.
  induction 1 as [|x l [b Hb] _ [bs Hbs]]; simpl.
  - eexists; reflexivity.
  - rewrite Hb. simpl. rewrite Hbs. simpl. eexists; reflexivity.
Qed.

Lemma combine_nth_error {A B : Type} (la : list A) (lb : list B) i a b :
  nth_error la i = Some a -> nth_error lb i = Some b ->
  nth_error (combine la lb) i = Some (a, b).
Proof.
  revert lb i. induction la as [|x la IH]; intros [|y lb] [|i]; simpl; try discriminate.
  - intros [= ->] [= ->]. reflexivity.
  - apply IH.
Qed.

Lemma dict_get_set_same {V : Type} (d : dict V) k v :
  dict_get (dict_set d k v) k = Some v.
Proof.
  induction d as [|[k' v'] d IH]; simpl.
  - rewrite String.eqb_refl. reflexivity.
  - destruct (String.eqb k' k) eqn:E; simpl; rewrite E; [reflexivity | exact IH].
Qed.

Lemma dict_get_set_other {V : Type} (d : dict V) k k' v :
  k <> k' -> dict_get (dict_set d k v) k' = dict_get d k'.
Proof.
  intros Hne. induction d as [|[k0 v0] d IH]; simpl.
  - destruct (String.eqb k k') eqn:E; [apply String.eqb_eq in E; contradiction | reflexivity].
  - destruct (String.eqb k0 k) eqn:E; simpl.
    + apply String.eqb_eq in E. subst k0.
      destruct (String.eqb k k') eqn:E'; [apply String.eqb_eq in E'; contradiction | reflexivity].
    + destruct (String.eqb k0 k'); [reflexivity | exact IH].
Qed.

(** ** The final score and the business categories *)

Module SegmentAssignerFacts.

Import SegmentAssigner Scenarios.
Local Open Scope string_scope.

Lemma map3_nth_error {A B C D : Type} (g : A -> B -> C -> D) la lb lc i a b c :
  nth_error la i = Some a -> nth_error lb i = Some b -> nth_error lc i = Some c ->
  nth_error (map3 g la lb lc) i = Some (g a b c).
Proof.
  revert lb lc i.
  induction la as [|x la IH]; intros [|y lb] [|z lc] [|i]; simpl; try discriminate.
  - intros [= ->] [= ->] [= ->]. reflexivity.
  - apply IH.
Qed.

Lemma map3_length {A B C D : Type} (g : A -> B -> C -> D) la lb lc :
  List.length la = List.length lb -> List.length lb = List.length lc ->
  List.length (map3 g la lb lc) = List.length la.
Proof.
  revert lb lc.
  induction la as [|x la IH]; intros [|y lb] [|z lc]; simpl; try discriminate; try reflexivity.
  intros [= Hab] [= Hbc]. f_equal. apply IH; assumption.
Qed.

(** C5. With the method [combinacion] (the spec's "combination"), the final
    score of every row is the text of its Recency, Frequency and Monetary
    scores, joined in that order; scores 5, 2, 4 give "524"; any method
    other than [combinacion], [suma] and [promedio] raises [ValueError]. *)
Theorem final_score_combination `{TextLib} (self : t) (df : DataFrame) :
  (score_method self = "combinacion" ->
   forall r f m,
     dict_get df "Recency_score" = Some r ->
     dict_get df "Frequency_score" = Some f ->
     dict_get df "Monetary_score" = Some m ->
     List.length r = List.length f -> List.length f = List.length m ->
     exists final,
       calculate_final_score self df = Ok final /\
       List.length final = List.length r /\
       forall i a b c,
         nth_error r i = Some a -> nth_error f i = Some b -> nth_error m i = Some c ->
         nth_error final i = Some (Str (py_str a ++ py_str b ++ py_str c)))
  /\ (score_method self = "combinacion" ->
      calculate_final_score self scenario_D = Ok [Str "524"])
  /\ (score_method self <> "combinacion" -> score_method self <> "suma" ->
      score_method self <> "promedio" ->
      calculate_final_score self df =
      Raise (ValueError ("Método de cálculo de score '" ++ score_method self
                         ++ "' no reconocido."))).
Proof.
  unfold calculate_final_score. repeat split.
  - intros Hm r f m Hr Hf Hmo Hrf Hfm. rewrite Hm. simpl.
    unfold dict_getitem. rewrite Hr, Hf, Hmo. simpl.
    eexists. split; [reflexivity|]. split.
    + apply map3_length; assumption.
    + intros i a b c Ha Hb Hc.
      apply (map3_nth_error (fun a b c => Str (py_str a ++ py_str b ++ py_str c)));
        assumption.
  - intros Hm. rewrite Hm. reflexivity.
  - intros H1 H2 H3.
    apply String.eqb_neq in H1, H2, H3. rewrite H1, H2, H3. reflexivity.
Qed.

Lemma final_score_combination_witness :
  @calculate_final_score Reference.pandas_text (Build_t "combinacion" [] None) scenario_D
  = Ok [Str "524"]
  /\ @calculate_final_score Reference.pandas_text (Build_t "producto" [] None) scenario_D
     = Raise (ValueError "Método de cálculo de score 'producto' no reconocido.").
Proof.
  split.
  - apply (@final_score_combination Reference.pandas_text
             (Build_t "combinacion" [] None) scenario_D). reflexivity.
  - apply (@final_score_combination Reference.pandas_text
             (Build_t "producto" [] None) scenario_D); discriminate.
Defined.

(** C10. A configuration without the key [score_method] gives the
    processor the accented default, which no branch of
    [calculate_final_score] recognises: every table raises [ValueError]. *)
Theorem default_score_method_unrecognised `{TextLib} `{DateLib}
        (config : Config) (self : t) :
  cfg_score_method config = None ->
  init (Ok config) = Ok self ->
  score_method self = "combinación" /\
  forall df,
    calculate_final_score self df =
    Raise (ValueError "Método de cálculo de score 'combinación' no reconocido.").
Proof.
  intros Hnone Hinit.
  assert (Hs : score_method self = "combinación").
  { unfold init in Hinit. rewrite Hnone in Hinit. simpl in Hinit.
    destruct (get_date_range_for_rfm config) as [[s e]|[]|];
      try discriminate; injection Hinit as <-; reflexivity. }
  split; [exact Hs|].
  intros df. unfold calculate_final_score. rewrite Hs. reflexivity.
Qed.

Lemma default_score_method_unrecognised_witness :
  @init Reference.calendar (Ok config_without_method)
  = Ok (Build_t "combinación" [("Campeones", ["555"; "554"])] (Some (Build_date 2024 12 10)))
  /\ @calculate_final_score Reference.pandas_text
       (Build_t "combinación" [("Campeones", ["555"; "554"])] (Some (Build_date 2024 12 10)))
       scenario_D
     = Raise (ValueError "Método de cálculo de score 'combinación' no reconocido.").
Proof.
  split; [reflexivity|].
  apply (@default_score_method_unrecognised Reference.pandas_text Reference.calendar
           config_without_method); reflexivity.
Defined.

End SegmentAssignerFacts.

(** ** The business categories *)

Module CategoryFacts.

Import SegmentAssigner Shapes Scenarios.
Local Open Scope string_scope.

Lemma existsb_eqb_In (s : string) (values : list string) :
  existsb (String.eqb s) values = true <-> In s values.
Proof.
  rewrite existsb_exists. split.
  - intros [x [Hin Heq]]. apply String.eqb_eq in Heq. subst. exact Hin.
  - intros Hin. exists s. split; [exact Hin | apply String.eqb_refl].
Qed.

Lemma categorize_first_match `{TextLib} (categories : dict (list string)) (score : cell) :
  first_match categories (py_str score) (categorize categories score).
Proof.
  induction categories as [|[category values] rest IH]; simpl.
  - right. split; [reflexivity | constructor].
  - destruct (existsb (String.eqb (py_str score)) values) eqn:E.
    + left. exists [], values, rest. split; [reflexivity|].
      split; [apply existsb_eqb_In; exact E | constructor].
    + assert (Hnot : ~ In (py_str score) values).
      { intros Hin. apply existsb_eqb_In in Hin. congruence. }
      destruct IH as [[before [vals [after [Heq [Hin Hall]]]]] | [Hlab Hall]].
      * left. exists ((category, values) :: before), vals, after.
        split; [simpl; f_equal; exact Heq|].
        split; [exact Hin | constructor; assumption].
      * right. split; [exact Hlab | constructor; assumption].
Qed.

Lemma first_match_label (categories : dict (list string)) (s label : string) :
  first_match categories s label ->
  In label (keys categories) \/ label = "Sin Categoría".
Proof.
  intros [[before [values [after [Heq _]]]] | [Hlab _]]; [left | right; exact Hlab].
  subst categories. unfold keys. rewrite map_app. apply in_or_app. right. left. reflexivity.
Qed.

Lemma drop_column_get_other (df : DataFrame) (name k : string) :
  k <> name -> dict_get (drop_column df name) k = dict_get df k.
Proof.
  intros Hne. induction df as [|[k0 v0] df IH]; simpl; [reflexivity|].
  destruct (String.eqb k0 name) eqn:E; simpl.
  - apply String.eqb_eq in E. subst k0.
    destruct (String.eqb name k) eqn:E'; [|exact IH].
    apply String.eqb_eq in E'. congruence.
  - destruct (String.eqb k0 k); [reflexivity | exact IH].
Qed.

Lemma same_period_iff (c : cell) (p : option (Z * Z)) (e : date) :
  match c with
  | Date d => Ok (Some (to_period_M d))
  | NaT => Ok None
  | _ => Raise (AttributeError "Can only use .dt accessor with datetimelike values")
  end = Ok p ->
  same_period p (to_period_M e) = true <->
  exists d, c = Date d /\ to_period_M d = to_period_M e.
Proof.
  destruct c; try discriminate; intros [= <-]; simpl.
  - rewrite andb_true_iff, !Z.eqb_eq. unfold to_period_M. split.
    + intros [Hy Hm]. exists d. split; [reflexivity | congruence].
    + intros [d' [[= <-] [= Hy Hm]]]. split; assumption.
  - split; [discriminate | intros [d [Hd _]]; discriminate].
Qed.

(** C6, as amended. On a table with at least one row, a customer with one
    month of purchases whose last purchase is in the year and month of the
    end date is labelled [Nuevo] whatever the score; every other customer
    gets the first category, in the order of the configuration, that lists
    the text of the final score, or [Sin Categoría]; so, when no
    configured category is itself called [Nuevo], the label is [Nuevo]
    exactly for the new customers. On a table without rows and without a
    column [Business_Category] the call raises [ValueError]. *)
Theorem new_customers_and_first_match `{TextLib}
        (self : t) (df : DataFrame) (score_column : string) (e : date)
        (months last_purchase scores : list cell) :
  end_date self = Some e ->
  score_column <> "IsNew" ->
  dict_get df score_column = Some scores ->
  dict_get df "MonthsWithPurchases" = Some months ->
  dict_get df "LastPurchaseDate" = Some last_purchase ->
  Forall (fun c => c = NaT \/ exists d, c = Date d) last_purchase ->
  (nrows df = O -> dict_get df "Business_Category" = None ->
   assign_business_categories self df score_column
   = Raise (ValueError "cannot set a frame with no defined index and a scalar"))
  /\ (nrows df <> O ->
      exists out labels,
        assign_business_categories self df score_column = Ok out /\
        dict_get out "Business_Category" = Some (map Str labels) /\
        forall i mc lc sc,
          nth_error months i = Some mc ->
          nth_error last_purchase i = Some lc ->
          nth_error scores i = Some sc ->
          exists label,
            nth_error labels i = Some label /\
            (is_new e mc lc -> label = "Nuevo") /\
            (~ is_new e mc lc ->
             first_match (business_categories self) (py_str sc) label) /\
            (~ In "Nuevo" (keys (business_categories self)) ->
             (label = "Nuevo" <-> is_new e mc lc))).
Proof.
  intros Hend Hcol Hscores Hmonths Hlast Hdates.
  assert (Htot : exists periods, dt_to_period_M last_purchase = Ok periods).
  { apply mapM_total.
    eapply Forall_impl; [|exact Hdates].
    intros c [-> | [d ->]]; eexists; reflexivity. }
  destruct Htot as [periods Hperiods].
  unfold assign_business_categories, dict_getitem.
  rewrite Hscores, Hmonths, Hlast. cbn [bind]. rewrite Hperiods. cbn [bind].
  rewrite Hend. split.
  { intros Hrows Hnone. rewrite Hrows, Hnone. reflexivity. }
  intros Hrows.
  assert (Hzero : Nat.eqb (nrows df) 0 = false) by (apply Nat.eqb_neq; exact Hrows).
  rewrite Hzero. cbn [andb].
  rewrite dict_get_set_other by (intros Heq; apply Hcol; symmetry; exact Heq).
  rewrite Hscores. cbn [bind].
  eexists. eexists. split; [reflexivity|]. split.
  - rewrite drop_column_get_other by discriminate. apply dict_get_set_same.
  - intros i mc lc sc Hmc Hlc Hsc.
    destruct (mapM_nth_error _ _ Hperiods _ Hlc) as [p [Hp Hpi]].
    pose proof (same_period_iff lc e Hp) as Hsame.
    set (new := equals_one mc && same_period p (to_period_M e)).
    assert (Hnew : new = true <-> is_new e mc lc).
    { unfold new, is_new. rewrite andb_true_iff, Hsame. reflexivity. }
    exists (if new then "Nuevo" else categorize (business_categories self) sc).
    split.
    { apply (map_nth_error
               (fun ns : bool * cell =>
                  if fst ns then "Nuevo" else categorize (business_categories self) (snd ns))
               i (combine _ scores) (d := (new, sc))).
      apply combine_nth_error; [|exact Hsc].
      apply (map_nth_error
               (fun mp => equals_one (fst mp) && same_period (snd mp) (to_period_M e))
               i (combine months periods) (d := (mc, p))).
      apply combine_nth_error; assumption. }
    destruct new eqn:En.
    + split; [reflexivity|]. split.
      * intros Hn. exfalso. apply Hn, Hnew. reflexivity.
      * intros _. split; [intros _; apply Hnew; reflexivity | reflexivity].
    + assert (Hn : ~ is_new e mc lc) by (intros Hc; apply Hnew in Hc; discriminate).
      split; [intros Hc; contradiction|]. split.
      * intros _. apply categorize_first_match.
      * intros Hres. split; [|intros Hc; contradiction].
        intros Hlab. exfalso.
        destruct (first_match_label (categorize_first_match (business_categories self) sc))
          as [Hin | Hsin].
        -- rewrite Hlab in Hin. contradiction.
        -- rewrite Hlab in Hsin. discriminate.
Qed.

Lemma new_customers_and_first_match_witness :
  (exists out labels,
      @assign_business_categories Reference.pandas_text assigner_E scenario_E "Final_Score"
      = Ok out /\
      dict_get out "Business_Category" = Some (map Str labels) /\
      forall i mc lc sc,
        nth_error [Int 1; Int 4] i = Some mc ->
        nth_error [Date (Build_date 2024 12 3); Date (Build_date 2024 12 5)] i = Some lc ->
        nth_error [Str "555"; Str "554"] i = Some sc ->
        exists label,
          nth_error labels i = Some label /\
          (is_new (Build_date 2024 12 10) mc lc -> label = "Nuevo") /\
          (~ is_new (Build_date 2024 12 10) mc lc ->
           first_match (business_categories assigner_E)
                       (@py_str Reference.pandas_text sc) label) /\
          (~ In "Nuevo" (keys (business_categories assigner_E)) ->
           (label = "Nuevo" <-> is_new (Build_date 2024 12 10) mc lc)))
  /\ @assign_business_categories Reference.pandas_text assigner_E scenario_empty
                                 "Final_Score"
     = Raise (ValueError "cannot set a frame with no defined index and a scalar").
Proof.
  assert (Hdates : Forall (fun c => c = NaT \/ exists d, c = Date d)
                          [Date (Build_date 2024 12 3); Date (Build_date 2024 12 5)]).
  { repeat (constructor; [right; eexists; reflexivity|]). constructor. }
  assert (Hcol : "Final_Score" <> "IsNew") by discriminate.
  assert (Hrows : nrows scenario_E <> O) by discriminate.
  split.
  - exact (proj2 (@new_customers_and_first_match Reference.pandas_text assigner_E scenario_E
                    "Final_Score" (Build_date 2024 12 10) _ _ _
                    eq_refl Hcol eq_refl eq_refl eq_refl Hdates) Hrows).
  - exact (proj1 (@new_customers_and_first_match Reference.pandas_text assigner_E
                    scenario_empty "Final_Score" (Build_date 2024 12 10) [] [] []
                    eq_refl Hcol eq_refl eq_refl eq_refl (Forall_nil _))
                 eq_refl eq_refl).
Defined.

(** C6 as stated fails: a configured category may itself be called
    [Nuevo], and then a customer with three months of purchases is
    labelled [Nuevo] through the score mapping. *)
Lemma nuevo_without_new_customer :
  exists out,
    @assign_business_categories Reference.pandas_text assigner_with_nuevo loyal_customer
                                "Final_Score" = Ok out /\
    dict_get out "Business_Category" = Some [Str "Nuevo"] /\
    dict_get loyal_customer "MonthsWithPurchases" = Some [Int 3] /\
    ~ is_new (Build_date 2024 12 10) (Int 3) (Date (Build_date 2024 6 15)).
Proof.
  eexists. split; [reflexivity|]. split; [reflexivity|]. split; [reflexivity|].
  intros [Hone _]. discriminate.
Qed.

End CategoryFacts.

(** ** Sorting and quantiles *)

Module NumpyFacts.

Import Numpy.

Lemma Qle_bool_false (x y : Q) : Qle_bool x y = false -> y < x.
Proof.
  intros Hb. apply Qnot_le_lt. intros Hle.
  apply Qle_bool_iff in Hle. congruence.
Qed.

Lemma Qlt_bool_iff (x y : Q) : Qlt_bool x y = true <-> x < y.
Proof.
  unfold Qlt_bool. rewrite negb_true_iff. split.
  - apply Qle_bool_false.
  - intros Hlt. destruct (Qle_bool y x) eqn:E; [|reflexivity].
    apply Qle_bool_iff in E. lra.
Qed.

Lemma Qlt_bool_false (x y : Q) : Qlt_bool x y = false <-> y <= x.
Proof.
  unfold Qlt_bool. rewrite negb_false_iff. apply Qle_bool_iff.
Qed.

Lemma insert_In (x y : Q) (l : list Q) : In y (insert x l) <-> y = x \/ In y l.
Proof.
  induction l as [|z l IH]; simpl.
  - intuition.
  - destruct (Qle_bool x z); simpl; [intuition | rewrite IH; intuition].
Qed.

Lemma sort_In (y : Q) (l : list Q) : In y (sort l) <-> In y l.
Proof.
  induction l as [|x l IH]; simpl; [reflexivity|].
  rewrite insert_In, IH. intuition.
Qed.

Lemma insert_length (x : Q) (l : list Q) : List.length (insert x l) = S (List.length l).
Proof.
  induction l as [|z l IH]; simpl; [reflexivity|].
  destruct (Qle_bool x z); simpl; [reflexivity | rewrite IH; reflexivity].
Qed.

Lemma sort_length (l : list Q) : List.length (sort l) = List.length l.
Proof.
  induction l as [|x l IH]; simpl; [reflexivity|].
  rewrite insert_length, IH. reflexivity.
Qed.

Lemma insert_sorted (x : Q) (l : list Q) :
  StronglySorted Qle l -> StronglySorted Qle (insert x l).
Proof.
  induction 1 as [|z l Hs IH Hall]; simpl.
  - constructor; constructor.
  - destruct (Qle_bool x z) eqn:E.
    + apply Qle_bool_iff in E. constructor.
      * constructor; assumption.
      * constructor; [exact E|].
        eapply Forall_impl; [|exact Hall]. intros a Ha. lra.
    + apply Qle_bool_false in E. constructor; [exact IH|].
      apply Forall_forall. intros a Ha. apply insert_In in Ha.
      destruct Ha as [-> | Ha]; [lra|].
      rewrite Forall_forall in Hall. apply Hall. exact Ha.
Qed.

Lemma sort_sorted (l : list Q) : StronglySorted Qle (sort l).
Proof.
  induction l as [|x l IH]; simpl; [constructor | apply insert_sorted; exact IH].
Qed.

Lemma sorted_nth (s : list Q) :
  StronglySorted Qle s ->
  forall i j, (i <= j)%nat -> (j < List.length s)%nat -> nth i s 0 <= nth j s 0.
Proof.
  induction 1 as [|x s Hs IH Hall]; intros i j Hij Hj; simpl in Hj; [lia|].
  destruct i as [|i], j as [|j]; simpl; try lia.
  - lra.
  - rewrite Forall_forall in Hall. apply Hall. apply nth_In. lia.
  - apply IH; lia.
Qed.

Lemma sorted_head_le (x : Q) (s : list Q) :
  StronglySorted Qle (x :: s) -> forall y, In y (x :: s) -> x <= y.
Proof.
  intros Hs y [<- | Hin]; [lra|].
  inversion Hs as [|? ? _ Hall]; subst.
  rewrite Forall_forall in Hall. apply Hall. exact Hin.
Qed.

Lemma last_cons {A : Type} (s : list A) (z x : A) : last (z :: s) x = last s z.
Proof.
  revert z x. induction s as [|w s IH]; intros z x; [reflexivity|].
  change (last (z :: w :: s) x) with (last (w :: s) x).
  rewrite (IH w x), (IH w z). reflexivity.
Qed.

Lemma sorted_le_last (x : Q) (s : list Q) :
  StronglySorted Qle (x :: s) -> forall y, In y (x :: s) -> y <= last s x.
Proof.
  revert x. induction s as [|z s IH]; intros x Hs y Hin.
  - destruct Hin as [<- | []]. simpl. lra.
  - inversion Hs as [|? ? Hs' Hall]; subst.
    rewrite last_cons.
    destruct Hin as [<- | Hin].
    + assert (Hxz : x <= z) by (rewrite Forall_forall in Hall; apply Hall; left; reflexivity).
      specialize (IH z Hs' z (or_introl eq_refl)). lra.
    + apply IH; assumption.
Qed.

(** The column minimum is at most the column maximum. *)
Lemma series_min_le_max (col : list Q) (mn mx : Q) :
  series_min col = Some mn -> series_max col = Some mx -> mn <= mx.
Proof.
  unfold series_min, series_max. pose proof (sort_sorted col) as Hs.
  destruct (sort col) as [|x s]; [discriminate|].
  intros [= <-] [= <-]. apply (sorted_le_last Hs). left. reflexivity.
Qed.

Lemma series_min_le (col : list Q) (mn : Q) :
  series_min col = Some mn -> forall y, In y col -> mn <= y.
Proof.
  unfold series_min. pose proof (sort_sorted col) as Hs. intros Hmn y Hin.
  apply sort_In in Hin. destruct (sort col) as [|x s]; [discriminate|].
  injection Hmn as <-. apply (sorted_head_le Hs). exact Hin.
Qed.

Lemma series_max_ge (col : list Q) (mx : Q) :
  series_max col = Some mx -> forall y, In y col -> y <= mx.
Proof.
  unfold series_max. pose proof (sort_sorted col) as Hs. intros Hmx y Hin.
  apply sort_In in Hin. destruct (sort col) as [|x s]; [discriminate|].
  injection Hmx as <-. apply (sorted_le_last Hs). exact Hin.
Qed.

(** The shape of an interpolated quantile: an index, a fraction and the
    two neighbours. *)
Lemma quantile_sorted_shape (s : list Q) (q : Q) :
  s <> [] -> 0 <= q <= 1 ->
  let n := List.length s in
  let pos := inject_Z (Z.of_nat (n - 1)) * q in
  let k := Z.to_nat (Qfloor pos) in
  let frac := pos - inject_Z (Qfloor pos) in
  (k <= n - 1)%nat /\ 0 <= frac /\ frac < 1 /\ (0 <= Qfloor pos)%Z /\
  quantile_sorted s q
  = nth k s 0 + (nth (Nat.min (S k) (n - 1)) s 0 - nth k s 0) * frac.
Proof.
  intros Hne [Hq0 Hq1] n pos k frac.
  assert (Hn : (0 < n)%nat) by (subst n; destruct s; [contradiction | simpl; lia]).
  assert (HN : 0 <= inject_Z (Z.of_nat (n - 1))).
  { change 0 with (inject_Z 0). rewrite <- Zle_Qle. lia. }
  assert (Hpos0 : 0 <= pos) by (subst pos; nra).
  assert (Hpos1 : pos <= inject_Z (Z.of_nat (n - 1))) by (subst pos; nra).
  assert (Hf0 : (0 <= Qfloor pos)%Z).
  { change 0%Z with (Qfloor 0). apply Qfloor_resp_le. exact Hpos0. }
  assert (Hf1 : (Qfloor pos <= Z.of_nat (n - 1))%Z).
  { rewrite <- (Qfloor_Z (Z.of_nat (n - 1))). apply Qfloor_resp_le. exact Hpos1. }
  pose proof (Qfloor_le pos) as Hfl.
  pose proof (Qlt_floor pos) as Hlf.
  rewrite inject_Z_plus in Hlf.
  repeat split.
  - subst k. lia.
  - subst frac. lra.
  - subst frac. change (inject_Z 1) with 1 in Hlf. lra.
  - exact Hf0.
Qed.

Lemma quantile_sorted_between (s : list Q) (q : Q) :
  StronglySorted Qle s -> s <> [] -> 0 <= q <= 1 ->
  let n := List.length s in
  let k := Z.to_nat (Qfloor (inject_Z (Z.of_nat (n - 1)) * q)) in
  nth k s 0 <= quantile_sorted s q /\
  quantile_sorted s q <= nth (Nat.min (S k) (n - 1)) s 0.
Proof.
  intros Hs Hne Hq n k.
  destruct (quantile_sorted_shape Hne Hq) as [Hk [Hf0 [Hf1 [_ ->]]]].
  fold n in Hk, Hf0, Hf1 |- *. fold k in Hk |- *.
  assert (Hn : (0 < n)%nat) by (subst n; destruct s; [contradiction | simpl; lia]).
  assert (Hlohi : nth k s 0 <= nth (Nat.min (S k) (n - 1)) s 0).
  { apply sorted_nth; [exact Hs | lia | fold n; lia]. }
  set (lo := nth k s 0) in *.
  set (hi := nth (Nat.min (S k) (n - 1)) s 0) in *.
  set (fr := inject_Z (Z.of_nat (n - 1)) * q
             - inject_Z (Qfloor (inject_Z (Z.of_nat (n - 1)) * q))) in *.
  clearbody lo hi fr.
  assert (H1 : 0 <= (hi - lo) * fr) by (apply Qmult_le_0_compat; lra).
  assert (H2 : 0 <= (hi - lo) * (1 - fr)) by (apply Qmult_le_0_compat; lra).
  split; lra.
Qed.

(** A quantile lies between the smallest and the largest sample. *)
Lemma quantile_sorted_bounds (s : list Q) (q : Q) :
  StronglySorted Qle s -> s <> [] -> 0 <= q <= 1 ->
  nth 0 s 0 <= quantile_sorted s q /\
  quantile_sorted s q <= nth (List.length s - 1) s 0.
Proof.
  intros Hs Hne Hq.
  destruct (quantile_sorted_between Hs Hne Hq) as [Hlo Hhi].
  destruct (quantile_sorted_shape Hne Hq) as [Hk _].
  assert (Hn : (0 < List.length s)%nat) by (destruct s; [contradiction | simpl; lia]).
  split.
  - eapply Qle_trans; [|exact Hlo]. apply sorted_nth; [exact Hs | lia | lia].
  - eapply Qle_trans; [exact Hhi|]. apply sorted_nth; [exact Hs | lia | lia].
Qed.

(** Quantiles grow with the fraction. *)
Lemma quantile_sorted_mono (s : list Q) (q1 q2 : Q) :
  StronglySorted Qle s -> s <> [] -> 0 <= q1 -> q1 <= q2 -> q2 <= 1 ->
  quantile_sorted s q1 <= quantile_sorted s q2.
Proof.
  intros Hs Hne H0 H12 H1.
  assert (Hq1 : 0 <= q1 <= 1) by lra.
  assert (Hq2 : 0 <= q2 <= 1) by lra.
  assert (Hn : (0 < List.length s)%nat) by (destruct s; [contradiction | simpl; lia]).
  assert (HN : 0 <= inject_Z (Z.of_nat (List.length s - 1))).
  { change 0 with (inject_Z 0). rewrite <- Zle_Qle. lia. }
  assert (Hpos : inject_Z (Z.of_nat (List.length s - 1)) * q1
                 <= inject_Z (Z.of_nat (List.length s - 1)) * q2) by nra.
  pose proof (Qfloor_resp_le _ _ Hpos) as Hfloor.
  destruct (quantile_sorted_shape Hne Hq1) as [Hk1 [Hf10 [Hf11 [Hz1 E1]]]].
  destruct (quantile_sorted_shape Hne Hq2) as [Hk2 [Hf20 [Hf21 [Hz2 E2]]]].
  destruct (quantile_sorted_between Hs Hne Hq1) as [Hlo1 Hhi1].
  destruct (quantile_sorted_between Hs Hne Hq2) as [Hlo2 Hhi2].
  set (F1 := Qfloor (inject_Z (Z.of_nat (List.length s - 1)) * q1)) in *.
  set (F2 := Qfloor (inject_Z (Z.of_nat (List.length s - 1)) * q2)) in *.
  destruct (Z.eq_dec F1 F2) as [Heq | Hneq].
  - rewrite E1, E2. rewrite <- Heq.
    assert (Hlohi : nth (Z.to_nat F1) s 0
                    <= nth (Nat.min (S (Z.to_nat F1)) (List.length s - 1)) s 0).
    { apply sorted_nth; [exact Hs | lia | lia]. }
    rewrite <- Heq in Hf20, Hf21. nra.
  - eapply Qle_trans; [exact Hhi1|]. eapply Qle_trans; [|exact Hlo2].
    apply sorted_nth; [exact Hs | lia | lia].
Qed.

End NumpyFacts.

(** ** Outlier limits *)

Module OutlierFacts.

Import Numpy NumpyFacts RFMProcessing Scenarios.
Local Open Scope string_scope.

Lemma two_distinct_length (col : list Q) :
  (exists a b, In a col /\ In b col /\ ~ a == b) -> (2 <= List.length col)%nat.
Proof.
  intros [a [b [Ha [Hb Hab]]]].
  destruct col as [|x [|y l]]; simpl; try lia.
  - destruct Ha.
  - destruct Ha as [<- | []], Hb as [<- | []]. exfalso. apply Hab. reflexivity.
Qed.

Lemma series_quantile_some (col : list Q) (q : Q) :
  col <> [] -> series_quantile col q = Some (quantile_sorted (sort col) q).
Proof.
  destruct col; [contradiction | reflexivity].
Qed.

Lemma sort_nonempty (col : list Q) : col <> [] -> sort col <> [].
Proof.
  intros Hne Hs. apply (f_equal (@List.length Q)) in Hs.
  rewrite sort_length in Hs. destruct col; [contradiction | discriminate].
Qed.

Lemma percentile1_nonempty `{NumLib} (col : list Q) (p : Q) :
  col <> [] -> 0 <= p -> p <= 100 ->
  percentile1 col p = Ok (Some (quantile_sorted (sort col) (p / 100))).
Proof.
  intros Hne H0 H100. unfold percentile1, percentile, percentile_in_range. simpl.
  apply Qle_bool_iff in H0, H100. rewrite H0, H100. simpl.
  destruct col; [contradiction | reflexivity].
Qed.

(** C9, as amended. On a column with two distinct values the limits
    follow the configured formulas, and the lower one is at most the
    upper one when the IQR factor is not negative, the standard-deviation
    factor is not negative, and the lower percentile is at most the upper
    one (the defaults 1.5, 2 and 5/95 are such). *)
Theorem outlier_limits_ordered `{NumLib}
        (self : t) (df : DataFrame) (column : string) (cfg : VarConfig) (col : list Q) :
  (forall x, 0 <= lib_sqrt x) ->
  dict_get (variables_config self) column = Some cfg ->
  dict_get df column = Some col ->
  (exists a b, In a col /\ In b col /\ ~ a == b) ->
  let f := get_default (iqr_factor cfg) (15 # 10) in
  let k := get_default (std_dev_factor cfg) 2 in
  let pl := get_default (percentile_lower cfg) 5 in
  let pu := get_default (percentile_upper cfg) 95 in
  (outlier_method cfg = Some "IQR" -> 0 <= f ->
   exists q1 q3,
     series_quantile col (25 # 100) = Some q1 /\
     series_quantile col (75 # 100) = Some q3 /\
     calculate_outliers_limits self df column
     = Ok (Build_OutlierLimits (Some (q1 - f * (q3 - q1))) (Some (q3 + f * (q3 - q1)))
                               (Some (Some (q3 - q1))) (series_min col) (series_max col)) /\
     q1 - f * (q3 - q1) <= q3 + f * (q3 - q1))
  /\ (outlier_method cfg = Some "std_dev" -> 0 <= k ->
      exists mean sd,
        series_mean col = Some mean /\
        series_std col = Some sd /\
        calculate_outliers_limits self df column
        = Ok (Build_OutlierLimits (Some (mean - k * sd)) (Some (mean + k * sd))
                                  (Some (Some sd)) (series_min col) (series_max col)) /\
        mean - k * sd <= mean + k * sd)
  /\ (outlier_method cfg = Some "percentiles" -> 0 <= pl -> pl <= pu -> pu <= 100 ->
      exists lo hi,
        lo = quantile_sorted (sort col) (pl / 100) /\
        hi = quantile_sorted (sort col) (pu / 100) /\
        calculate_outliers_limits self df column
        = Ok (Build_OutlierLimits (Some lo) (Some hi) None (series_min col) (series_max col)) /\
        lo <= hi).
Proof.
  intros Hsqrt Hcfg Hcol Hdistinct f k pl pu.
  pose proof (two_distinct_length col Hdistinct) as Hlen.
  assert (Hne : col <> []) by (intros ->; simpl in Hlen; lia).
  pose proof (sort_sorted col) as Hsorted.
  pose proof (sort_nonempty Hne) as Hsne.
  unfold calculate_outliers_limits, dict_getitem. rewrite Hcfg, Hcol. simpl.
  repeat split.
  - intros Hmethod Hf. rewrite Hmethod. simpl.
    rewrite !(series_quantile_some _ Hne). simpl.
    do 2 eexists. repeat split.
    assert (Hq : quantile_sorted (sort col) (25 # 100)
                 <= quantile_sorted (sort col) (75 # 100)).
    { apply quantile_sorted_mono; try assumption; lra. }
    fold f. nra.
  - intros Hmethod Hk. rewrite Hmethod. simpl.
    destruct col as [|x [|y l]]; simpl in Hlen; try lia.
    do 2 eexists. repeat split.
    fold k.
    match goal with |- _ - k * ?sd <= _ => set (d := sd) end.
    assert (Hd : 0 <= d) by (apply Hsqrt).
    assert (Hkd : 0 <= k * d) by (apply Qmult_le_0_compat; assumption).
    lra.
  - intros Hmethod Hpl Hplu Hpu. rewrite Hmethod. simpl.
    fold pl pu.
    rewrite (percentile1_nonempty Hne Hpl) by lra.
    assert (Hpu0 : 0 <= pu) by lra.
    rewrite (percentile1_nonempty Hne Hpu0 Hpu). simpl.
    do 2 eexists. repeat split.
    apply quantile_sorted_mono; try assumption.
    + apply Qle_shift_div_l; lra.
    + apply Qmult_le_compat_r; [exact Hplu | unfold Qle; simpl; lia].
    + apply Qle_shift_div_r; lra.
Qed.

Lemma sqrt_approx_nonneg (x : Q) : 0 <= Reference.sqrt_approx x.
Proof.
  unfold Reference.sqrt_approx, Qle. cbn [Qnum Qden].
  rewrite Z.mul_0_l, Z.mul_1_r. apply Z.sqrt_nonneg.
Qed.

Lemma outlier_limits_ordered_witness :
  exists q1 q3,
    series_quantile column_A (25 # 100) = Some q1 /\
    series_quantile column_A (75 # 100) = Some q3 /\
    @calculate_outliers_limits Reference.numpy_recent processing_A table_A "Monetary"
    = Ok (Build_OutlierLimits (Some (q1 - (15 # 10) * (q3 - q1)))
                              (Some (q3 + (15 # 10) * (q3 - q1)))
                              (Some (Some (q3 - q1)))
                              (series_min column_A) (series_max column_A)) /\
    q1 - (15 # 10) * (q3 - q1) <= q3 + (15 # 10) * (q3 - q1).
Proof.
  assert (Hdistinct : exists a b, In a column_A /\ In b column_A /\ ~ a == b).
  { exists 10, 20. split; [left; reflexivity|]. split; [right; left; reflexivity|].
    intros Heq. discriminate Heq. }
  apply (proj1 (@outlier_limits_ordered Reference.numpy_recent processing_A table_A
                  "Monetary" config_A column_A sqrt_approx_nonneg eq_refl eq_refl
                  Hdistinct)).
  - reflexivity.
  - discriminate.
Defined.

(** C9 as stated fails: with an IQR factor of -1 the lower limit of the
    column [0, 4] is 3 and the upper one is 1. *)
Lemma negative_factor_swaps_limits :
  exists lim li ls,
    @calculate_outliers_limits Reference.numpy_recent processing_negative_factor
                               table_two "Monetary" = Ok lim /\
    LI lim = Some li /\ LS lim = Some ls /\
    li == 3 /\ ls == 1 /\ ls < li /\
    (exists a b, In a [0; 4] /\ In b [0; 4] /\ ~ a == b).
Proof.
  do 3 eexists. split; [reflexivity|]. split; [reflexivity|]. split; [reflexivity|].
  split; [reflexivity|]. split; [reflexivity|]. split; [reflexivity|].
  exists 0, 4. split; [left; reflexivity|]. split; [right; left; reflexivity|].
  intros Heq. discriminate Heq.
Qed.

End OutlierFacts.

(** ** Cut-points and ranges *)

Module BreakFacts.

Import Numpy NumpyFacts RFMProcessing Shapes Scenarios.
Local Open Scope string_scope.

Lemma ranges_of_breaks_pairs (b : Q) (rest : list Q) :
  ranges_of_breaks (b :: rest) = adjacent_pairs b rest.
Proof.
  unfold ranges_of_breaks.
  replace (List.length (b :: rest) - 1)%nat with (List.length rest) by (simpl; lia).
  revert b. induction rest as [|b1 rest IH]; intros b; [reflexivity|].
  simpl List.length. rewrite <- cons_seq, <- seq_shift, map_cons, map_map.
  simpl adjacent_pairs. f_equal. rewrite <- IH. apply map_ext. intros i. reflexivity.
Qed.

Lemma nth_error_middle {A : Type} (pre : list A) (x : A) (post : list A) :
  nth_error (pre ++ x :: post) (List.length pre) = Some x.
Proof.
  induction pre as [|y pre IH]; [reflexivity | exact IH].
Qed.

Lemma list_set_middle {A : Type} (pre : list A) (x v : A) (post : list A) :
  list_set (pre ++ x :: post) (List.length pre) v = (pre ++ v :: post)%list.
Proof.
  induction pre as [|y pre IH]; [reflexivity | simpl; rewrite IH; reflexivity].
Qed.

Lemma adjacent_pairs_length (b : Q) (rest : list Q) :
  List.length (adjacent_pairs b rest) = List.length rest.
Proof.
  revert b. induction rest as [|b1 rest IH]; intros b; simpl; [reflexivity|].
  rewrite IH. reflexivity.
Qed.

Lemma separated_ranges_length (b : Q) (rest : list Q) :
  List.length (separated_ranges b rest) = List.length rest.
Proof.
  revert b. induction rest as [|b1 rest IH]; intros b; [reflexivity|].
  destruct rest as [|b2 rest]; [reflexivity|].
  change (separated_ranges b (b1 :: b2 :: rest))
    with ((b, b1 - eps) :: separated_ranges b1 (b2 :: rest)).
  cbn [List.length]. rewrite (IH b1). reflexivity.
Qed.

(** The loop, started at index [length pre]. *)
Lemma shrink_loop (rest : list Q) :
  forall (pre : list range) (b : Q),
    fold_left shrink_step
              (seq (List.length pre) (List.length rest - 1))
              (pre ++ adjacent_pairs b rest)%list
    = (pre ++ separated_ranges b rest)%list.
Proof.
  induction rest as [|b1 rest IH]; intros pre b; [reflexivity|].
  destruct rest as [|b2 rest]; [reflexivity|].
  change (separated_ranges b (b1 :: b2 :: rest))
    with ((b, b1 - eps) :: separated_ranges b1 (b2 :: rest)).
  change (adjacent_pairs b (b1 :: b2 :: rest))
    with ((b, b1) :: adjacent_pairs b1 (b2 :: rest)).
  replace (List.length (b1 :: b2 :: rest) - 1)%nat
    with (S (List.length (b2 :: rest) - 1)) by (simpl; lia).
  rewrite <- cons_seq. cbn [fold_left].
  assert (Hstep : shrink_step (pre ++ (b, b1) :: adjacent_pairs b1 (b2 :: rest))
                              (List.length pre)
                  = (pre ++ (b, b1 - eps) :: adjacent_pairs b1 (b2 :: rest))%list).
  { unfold shrink_step. rewrite nth_error_middle.
    replace (pre ++ (b, b1) :: adjacent_pairs b1 (b2 :: rest))%list
      with ((pre ++ [(b, b1)]) ++ adjacent_pairs b1 (b2 :: rest))%list
      by (rewrite <- app_assoc; reflexivity).
    replace (S (List.length pre)) with (List.length (pre ++ [(b, b1)]))
      by (rewrite length_app; simpl; lia).
    simpl adjacent_pairs. rewrite nth_error_middle.
    assert (Hle : Qle_bool b1 b1 = true) by (apply Qle_bool_iff; lra).
    rewrite Hle. rewrite <- app_assoc. simpl app. apply list_set_middle. }
  rewrite Hstep.
  replace (pre ++ (b, b1 - eps) :: adjacent_pairs b1 (b2 :: rest))%list
    with ((pre ++ [(b, b1 - eps)]) ++ adjacent_pairs b1 (b2 :: rest))%list
    by (rewrite <- app_assoc; reflexivity).
  replace (S (List.length pre)) with (List.length (pre ++ [(b, b1 - eps)]))
    by (rewrite length_app; simpl; lia).
  rewrite IH. rewrite <- app_assoc. reflexivity.
Qed.

(** What the construction of the ranges and the separating loop give for
    a list of cut-points. *)
Lemma shrink_ranges_of_breaks (b : Q) (rest : list Q) :
  shrink_ranges (ranges_of_breaks (b :: rest)) = separated_ranges b rest.
Proof.
  unfold shrink_ranges. rewrite ranges_of_breaks_pairs, adjacent_pairs_length.
  apply (shrink_loop rest [] b).
Qed.

Lemma outlier_limits_min_max `{NumLib} (self : t) (df : DataFrame) (column : string)
      (lim : OutlierLimits) (col : list Q) :
  calculate_outliers_limits self df column = Ok lim ->
  dict_get df column = Some col ->
  min_value lim = series_min col /\ max_value lim = series_max col.
Proof.
  unfold calculate_outliers_limits, dict_getitem. intros Hlim Hcol.
  destruct (dict_get (variables_config self) column) as [cfg|]; [|discriminate].
  rewrite Hcol in Hlim. cbn [bind] in Hlim.
  destruct (getitem (outlier_method cfg) "outlier_method") as [method| |];
    try discriminate. cbn [bind] in Hlim.
  destruct (String.eqb method "IQR").
  { injection Hlim as <-. split; reflexivity. }
  destruct (String.eqb method "std_dev").
  { injection Hlim as <-. split; reflexivity. }
  destruct (String.eqb method "percentiles"); [|discriminate].
  destruct (percentile1 col _) as [lo| |]; try discriminate. cbn [bind] in Hlim.
  destruct (percentile1 col _) as [hi| |]; try discriminate. cbn [bind] in Hlim.
  injection Hlim as <-. split; reflexivity.
Qed.

Lemma concatenate_then_ranges (mnv mxv : fl) (interior breaks : list Q)
      (ranges : list range) :
  (b <- concatenate_breaks mnv mxv interior ;;
   Ok (b, shrink_ranges (ranges_of_breaks b))) = Ok (breaks, ranges) ->
  exists mn mx,
    mnv = Some mn /\ mxv = Some mx /\
    breaks = (mn - eps) :: (interior ++ [mx + eps])%list /\
    ranges = separated_ranges (mn - eps) (interior ++ [mx + eps]).
Proof.
  unfold concatenate_breaks.
  destruct mnv as [mn|], mxv as [mx|]; try discriminate.
  cbn [fl_sub fl_add fl_map2 bind]. intros [= <- <-].
  exists mn, mx. repeat split. apply shrink_ranges_of_breaks.
Qed.

(** The shape of every pair of cut-points and ranges that
    [calculate_breaks] returns, whatever the method. *)
Lemma calculate_breaks_shape `{NumLib} (self : t) (df : DataFrame) (column : string)
      (breaks : list Q) (ranges : list range) :
  calculate_breaks self df column = Ok (breaks, ranges) ->
  exists col mn mx interior,
    dict_get df column = Some col /\
    series_min col = Some mn /\ series_max col = Some mx /\
    breaks = (mn - eps) :: (interior ++ [mx + eps])%list /\
    ranges = separated_ranges (mn - eps) (interior ++ [mx + eps]).
Proof.
  unfold calculate_breaks. intros Hcb.
  destruct (dict_getitem (variables_config self) column) as [cfg| |];
    try discriminate. cbn [bind] in Hcb.
  destruct (calculate_outliers_limits self df column) as [lim| |] eqn:Hlim;
    try discriminate. cbn [bind] in Hcb.
  unfold dict_getitem in Hcb.
  destruct (dict_get df column) as [col|] eqn:Hcol; [|discriminate]. cbn [bind] in Hcb.
  destruct (outlier_limits_min_max _ _ _ Hlim Hcol) as [Hmin Hmax].
  destruct (getitem (breaks_method cfg) "breaks_method") as [method| |];
    try discriminate. cbn [bind] in Hcb.
  destruct (String.eqb method "percentiles").
  - destruct (linspace 0 100 _) as [grid| |]; try discriminate. cbn [bind] in Hcb.
    destruct (percentile _ _) as [interior| |]; try discriminate. cbn [bind] in Hcb.
    destruct (concatenate_then_ranges _ _ _ Hcb) as [mn [mx [Hmn [Hmx [Hb Hr]]]]].
    exists col, mn, mx, interior. rewrite <- Hmin, <- Hmax. auto.
  - destruct (String.eqb method "jenks"); [|discriminate].
    destruct (lib_jenks_breaks _ _) as [all_breaks| |]; try discriminate.
    cbn [bind] in Hcb.
    destruct (concatenate_then_ranges _ _ _ Hcb) as [mn [mx [Hmn [Hmx [Hb Hr]]]]].
    exists col, mn, mx, (slice_1_m1 all_breaks). rewrite <- Hmin, <- Hmax. auto.
Qed.

End BreakFacts.

Module BreakSetFacts.

Import Numpy NumpyFacts RFMProcessing Shapes Scenarios BreakFacts.
Local Open Scope string_scope.

Lemma separated_head (b : Q) (rest : list Q) (r : range) :
  nth_error (separated_ranges b rest) 0 = Some r -> fst r = b.
Proof.
  destruct rest as [|b1 [|b2 rest]]; simpl; [discriminate | |];
    intros [= <-]; reflexivity.
Qed.

Lemma separated_adjacent (rest : list Q) :
  forall (b : Q) (i : nat) (r r' : range),
    nth_error (separated_ranges b rest) i = Some r ->
    nth_error (separated_ranges b rest) (S i) = Some r' ->
    snd r = fst r' - eps.
Proof.
  induction rest as [|b1 rest IH]; intros b i r r' Hi Hsi.
  - destruct i; discriminate.
  - destruct rest as [|b2 rest].
    + destruct i as [|[|i]]; discriminate.
    + change (separated_ranges b (b1 :: b2 :: rest))
        with ((b, b1 - eps) :: separated_ranges b1 (b2 :: rest)) in Hi, Hsi.
      destruct i as [|i].
      * injection Hi as <-. cbn [nth_error] in Hsi.
        apply separated_head in Hsi. rewrite Hsi. reflexivity.
      * cbn [nth_error] in Hi, Hsi. exact (IH b1 i r r' Hi Hsi).
Qed.

Lemma separated_last (rest : list Q) :
  forall (b : Q) (d : range),
    rest <> [] -> snd (last (separated_ranges b rest) d) = last rest b.
Proof.
  induction rest as [|b1 rest IH]; intros b d Hne; [contradiction|].
  destruct rest as [|b2 rest]; [reflexivity|].
  change (separated_ranges b (b1 :: b2 :: rest))
    with ((b, b1 - eps) :: separated_ranges b1 (b2 :: rest)).
  assert (Hne' : separated_ranges b1 (b2 :: rest) <> []).
  { intros Hnil. apply (f_equal (@List.length range)) in Hnil.
    rewrite separated_ranges_length in Hnil. discriminate. }
  destruct (separated_ranges b1 (b2 :: rest)) as [|r rs] eqn:E; [contradiction|].
  change (last ((b, b1 - eps) :: r :: rs) d) with (last (r :: rs) d).
  rewrite <- E. rewrite (IH b1 d) by discriminate.
  rewrite (last_cons (b2 :: rest) b1 b). reflexivity.
Qed.

(** C1, as amended. The ranges that [calculate_breaks] returns, with
    either method, are one fewer than the cut-points; each upper bound is
    the next lower bound less [eps], so consecutive ranges do not overlap
    and leave the values from [cut - eps] up to [cut] between them; the
    first range starts at [min - eps], below the column minimum, and the
    last one ends at [max + eps], above the column maximum. *)
Theorem ranges_separated `{NumLib} (self : t) (df : DataFrame) (column : string)
        (breaks : list Q) (ranges : list range) :
  calculate_breaks self df column = Ok (breaks, ranges) ->
  exists col mn mx,
    dict_get df column = Some col /\
    series_min col = Some mn /\ series_max col = Some mx /\
    List.length ranges = (List.length breaks - 1)%nat /\
    (forall i r r',
        nth_error ranges i = Some r -> nth_error ranges (S i) = Some r' ->
        snd r = fst r' - eps /\ snd r <= fst r' /\ snd r < fst r') /\
    (exists r, nth_error ranges 0 = Some r /\ fst r = mn - eps /\ fst r < mn) /\
    snd (last ranges (0, 0)) = mx + eps /\ mx < snd (last ranges (0, 0)).
Proof.
  intros Hcb.
  destruct (calculate_breaks_shape _ _ _ Hcb)
    as [col [mn [mx [interior [Hcol [Hmn [Hmx [Hb Hr]]]]]]]].
  exists col, mn, mx. subst breaks ranges.
  assert (Hne : (interior ++ [mx + eps])%list <> []) by (destruct interior; discriminate).
  split; [exact Hcol|]. split; [exact Hmn|]. split; [exact Hmx|].
  split; [|split; [|split; [|split]]].
  - rewrite separated_ranges_length. simpl. lia.
  - intros i r r' Hi Hsi.
    rewrite (separated_adjacent _ _ _ Hi Hsi). unfold eps. repeat split; lra.
  - destruct (nth_error (separated_ranges (mn - eps) (interior ++ [mx + eps])) 0)
      as [r|] eqn:E.
    + exists r. pose proof (separated_head _ _ E) as Hfst.
      split; [reflexivity|]. split; [exact Hfst|]. rewrite Hfst. unfold eps. lra.
    + apply nth_error_None in E. rewrite separated_ranges_length in E.
      rewrite length_app in E. simpl in E. lia.
  - rewrite (separated_last _ _ Hne), last_last. reflexivity.
  - rewrite (separated_last _ _ Hne), last_last. unfold eps. lra.
Qed.

Lemma scenario_A_breaks :
  @calculate_breaks Reference.numpy_recent processing_A table_A "Monetary"
  = Ok (fst breaks_A, snd breaks_A).
Proof. vm_compute. reflexivity. Qed.

Lemma ranges_separated_witness :
  exists col mn mx,
    dict_get table_A "Monetary" = Some col /\
    series_min col = Some mn /\ series_max col = Some mx /\
    List.length (snd breaks_A) = (List.length (fst breaks_A) - 1)%nat /\
    (forall i r r',
        nth_error (snd breaks_A) i = Some r -> nth_error (snd breaks_A) (S i) = Some r' ->
        snd r = fst r' - eps /\ snd r <= fst r' /\ snd r < fst r') /\
    (exists r, nth_error (snd breaks_A) 0 = Some r /\ fst r = mn - eps /\ fst r < mn) /\
    snd (last (snd breaks_A) (0, 0)) = mx + eps /\ mx < snd (last (snd breaks_A) (0, 0)).
Proof.
  exact (@ranges_separated Reference.numpy_recent processing_A table_A "Monetary"
           (fst breaks_A) (snd breaks_A) scenario_A_breaks).
Defined.

(** C1 as stated fails: in scenario A the value 27.9995 lies between
    [min - eps] and [max + eps] and in none of the five ranges, not even
    with their upper bounds included. *)
Lemma ranges_leave_gaps :
  @calculate_breaks Reference.numpy_recent processing_A table_A "Monetary"
  = Ok (fst breaks_A, snd breaks_A) /\
  series_min column_A = Some 10 /\ series_max column_A = Some 100 /\
  List.length (snd breaks_A) = 5%nat /\
  10 - eps <= 279995 # 10000 /\ 279995 # 10000 <= 100 + eps /\
  Forall (fun r => ~ (fst r <= 279995 # 10000 /\ 279995 # 10000 <= snd r)) (snd breaks_A).
Proof.
  split; [exact scenario_A_breaks|].
  split; [vm_compute; reflexivity|]. split; [vm_compute; reflexivity|].
  split; [reflexivity|].
  split; [unfold eps; lra|]. split; [unfold eps; lra|].
  assert (Hout : forallb (fun r : range =>
                            negb (Qle_bool (fst r) (279995 # 10000)
                                  && Qle_bool (279995 # 10000) (snd r))) (snd breaks_A)
                 = true) by (vm_compute; reflexivity).
  apply Forall_forall. intros r Hin [Hlo Hhi].
  rewrite forallb_forall in Hout. specialize (Hout r Hin).
  apply Qle_bool_iff in Hlo, Hhi. rewrite Hlo, Hhi in Hout. discriminate.
Qed.

End BreakSetFacts.

Module RangeLookupFacts.

Import Numpy NumpyFacts RFMProcessing Shapes Scenarios BreakFacts BreakSetFacts.
Local Open Scope string_scope.

Lemma first_range_cons_none (v lo up : Q) (rest : list range) :
  first_range v ((lo, up) :: rest) = None <->
  ~ (lo <= v /\ v < up) /\ first_range v rest = None.
Proof.
  simpl. destruct (Qle_bool lo v) eqn:E1; simpl.
  - destruct (Qlt_bool v up) eqn:E2.
    + apply Qle_bool_iff in E1. apply Qlt_bool_iff in E2.
      split; [discriminate | intros [Hn _]; exfalso; apply Hn; split; assumption].
    + apply Qlt_bool_false in E2.
      split; [intros Hr; split; [lra | exact Hr] | intros [_ Hr]; exact Hr].
  - apply Qle_bool_false in E1.
    split; [intros Hr; split; [lra | exact Hr] | intros [_ Hr]; exact Hr].
Qed.

Lemma first_range_sound (v : Q) (ranges : list range) (r : range) :
  first_range v ranges = Some r -> In r ranges /\ fst r <= v /\ v < snd r.
Proof.
  induction ranges as [|[lo up] rest IH]; simpl; [discriminate|].
  destruct (Qle_bool lo v) eqn:E1; simpl.
  - destruct (Qlt_bool v up) eqn:E2.
    + intros [= <-]. apply Qle_bool_iff in E1. apply Qlt_bool_iff in E2.
      split; [left; reflexivity | split; assumption].
    + intros Hr. destruct (IH Hr) as [Hin Hb]. split; [right; exact Hin | exact Hb].
  - intros Hr. destruct (IH Hr) as [Hin Hb]. split; [right; exact Hin | exact Hb].
Qed.

Lemma In_removelast {A : Type} (l : list A) (x : A) : In x (removelast l) -> In x l.
Proof.
  induction l as [|y l IH]; [intros []|].
  destruct l as [|z l]; [intros []|].
  change (removelast (y :: z :: l)) with (y :: removelast (z :: l)).
  intros [-> | Hin]; [left; reflexivity | right; apply IH; exact Hin].
Qed.

Lemma separated_last_fst (rest : list Q) :
  forall (b : Q) (d : range),
    rest <> [] -> In (fst (last (separated_ranges b rest) d)) (b :: removelast rest).
Proof.
  induction rest as [|b1 rest IH]; intros b d Hne; [contradiction|].
  destruct rest as [|b2 rest]; [left; reflexivity|].
  change (separated_ranges b (b1 :: b2 :: rest))
    with ((b, b1 - eps) :: separated_ranges b1 (b2 :: rest)).
  change (removelast (b1 :: b2 :: rest)) with (b1 :: removelast (b2 :: rest)).
  assert (Hne' : separated_ranges b1 (b2 :: rest) <> []).
  { intros Hnil. apply (f_equal (@List.length range)) in Hnil.
    rewrite separated_ranges_length in Hnil. discriminate. }
  destruct (separated_ranges b1 (b2 :: rest)) as [|r rs] eqn:E; [contradiction|].
  change (last ((b, b1 - eps) :: r :: rs) d) with (last (r :: rs) d).
  rewrite <- E. right. apply IH. discriminate.
Qed.

(** Over sorted cut-points, the loop of the lookup finds no range exactly
    for the values below the first cut-point, from the last one on, or
    less than [eps] below an inner one. *)
Lemma first_range_separated_none (rest : list Q) :
  forall (b v : Q),
    StronglySorted Qle (b :: rest) -> rest <> [] ->
    (first_range v (separated_ranges b rest) = None <->
     v < b \/ last rest b <= v \/
     exists c, In c (removelast rest) /\ c - eps <= v /\ v < c).
Proof.
  induction rest as [|b1 rest IH]; intros b v Hs Hne; [contradiction|].
  destruct rest as [|b2 rest].
  - cbn [separated_ranges removelast last]. rewrite first_range_cons_none.
    cbn [first_range]. split.
    + intros [Hn _]. destruct (Qlt_le_dec v b) as [Hlt | Hge]; [left; exact Hlt|].
      right. left. destruct (Qlt_le_dec v b1) as [Hlt1 | Hge1]; [|exact Hge1].
      exfalso. apply Hn. split; assumption.
    + intros [Hlt | [Hge | [c [[] _]]]]; (split; [lra | reflexivity]).
  - change (separated_ranges b (b1 :: b2 :: rest))
      with ((b, b1 - eps) :: separated_ranges b1 (b2 :: rest)).
    change (removelast (b1 :: b2 :: rest)) with (b1 :: removelast (b2 :: rest)).
    rewrite (last_cons (b2 :: rest) b1 b).
    rewrite first_range_cons_none.
    inversion Hs as [|? ? Hs1 Hall]; subst.
    assert (Hbb1 : b <= b1).
    { rewrite Forall_forall in Hall. apply Hall. left. reflexivity. }
    assert (Hb1last : b1 <= last (b2 :: rest) b1).
    { apply (sorted_le_last Hs1). left. reflexivity. }
    assert (Hb1c : forall c, In c (removelast (b2 :: rest)) -> b1 <= c).
    { intros c Hc. apply In_removelast in Hc.
      apply (sorted_head_le Hs1). right. exact Hc. }
    rewrite (IH b1 v Hs1) by discriminate.
    unfold eps in *. split.
    + intros [Hn [Hlt | [Hge | [c [Hc Hgap]]]]].
      * destruct (Qlt_le_dec v b) as [Hvb | Hvb]; [left; exact Hvb|].
        right. right. exists b1. split; [left; reflexivity|].
        split; [|exact Hlt].
        destruct (Qlt_le_dec v (b1 - (1 # 1000))) as [Hv | Hv]; [|exact Hv].
        exfalso. apply Hn. split; assumption.
      * right. left. exact Hge.
      * right. right. exists c. split; [right; exact Hc | exact Hgap].
    + intros [Hlt | [Hge | [c [[<- | Hc] Hgap]]]].
      * split; [lra | left; lra].
      * split; [lra | right; left; exact Hge].
      * split; [lra | left; lra].
      * specialize (Hb1c c Hc).
        split; [lra | right; right; exists c; split; assumption].
Qed.

(** C2, as amended. Over the ranges of a break set with ascending
    cut-points the lookup always returns; it returns no range exactly for
    the values below [min - eps], above [max + eps], or less than [eps]
    below an inner cut-point (which may be values of the column within
    the limits); a range that is returned holds the value; and a value
    equal to the upper bound of the final range gets that final range. *)
Theorem range_lookup `{NumLib} (self : t) (df : DataFrame) (column : string)
        (breaks : list Q) (ranges : list range) :
  calculate_breaks self df column = Ok (breaks, ranges) ->
  StronglySorted Qle breaks ->
  exists lo hi interior,
    breaks = lo :: (interior ++ [hi])%list /\
    forall v,
    exists found,
      get_range_for_value v ranges = Ok found /\
      (found = None <->
       v < lo \/ hi < v \/ exists c, In c interior /\ c - eps <= v /\ v < c) /\
      (forall r, found = Some r ->
                 In r ranges /\ fst r <= v /\ (v < snd r \/ v == hi)) /\
      (v == hi -> found = Some (last ranges (0, 0)) /\ snd (last ranges (0, 0)) = hi).
Proof.
  intros Hcb Hsorted.
  destruct (calculate_breaks_shape _ _ _ Hcb)
    as [col [mn [mx [interior [_ [_ [_ [Hb Hr]]]]]]]].
  exists (mn - eps), (mx + eps), interior. split; [exact Hb|].
  subst breaks. set (lo := mn - eps) in *. set (hi := mx + eps) in *.
  assert (Hne : (interior ++ [hi])%list <> []) by (destruct interior; discriminate).
  assert (Hle_hi : forall y, In y (lo :: interior ++ [hi]) -> y <= hi).
  { intros y Hy. pose proof (sorted_le_last Hsorted Hy) as Hl.
    rewrite last_last in Hl. exact Hl. }
  assert (Hlohi : lo <= hi) by (apply Hle_hi; left; reflexivity).
  intros v.
  pose proof (first_range_separated_none v Hsorted Hne) as Hnone.
  rewrite last_last, removelast_last in Hnone. rewrite <- Hr in Hnone.
  assert (Hlast : snd (last ranges (0, 0)) = hi).
  { rewrite Hr, (separated_last _ _ Hne), last_last. reflexivity. }
  unfold get_range_for_value.
  destruct (first_range v ranges) as [r|] eqn:Hfirst.
  - assert (Hnot : ~ (v < lo \/ hi <= v \/
                      exists c, In c interior /\ c - eps <= v /\ v < c)).
    { intros Hc. apply Hnone in Hc. discriminate. }
    exists (Some r). split; [reflexivity|]. split; [|split].
    + split; [discriminate|]. intros [Hlt | [Hgt | Hgap]]; exfalso; apply Hnot.
      * left; exact Hlt.
      * right; left; lra.
      * right; right; exact Hgap.
    + intros r' [= <-]. destruct (first_range_sound _ _ Hfirst) as [Hin [Hlo Hup]].
      split; [exact Hin|]. split; [exact Hlo | left; exact Hup].
    + intros Heq. exfalso. apply Hnot. right. left. rewrite Heq. lra.
  - destruct ranges as [|r0 rs] eqn:Hranges.
    { exfalso. apply (f_equal (@List.length range)) in Hr.
      rewrite separated_ranges_length, length_app in Hr. simpl in Hr. lia. }
    rewrite (last_cons rs r0 (0, 0)) in Hlast.
    rewrite (last_cons rs r0 (0, 0)).
    assert (Hfinal : In (last rs r0) (r0 :: rs)).
    { rewrite <- (last_cons rs r0 (0, 0)).
      destruct (exists_last (l := r0 :: rs)) as [l' [a ->]]; [discriminate|].
      rewrite last_last. apply in_or_app. right. left. reflexivity. }
    rewrite Hlast.
    destruct (Qeq_bool v hi) eqn:Heq.
    + apply Qeq_bool_iff in Heq.
      exists (Some (last rs r0)). split; [reflexivity|]. split; [|split].
      * split; [discriminate|]. intros [Hlt | [Hgt | [c [Hc [_ Hvc]]]]]; exfalso.
        -- lra.
        -- lra.
        -- assert (c <= hi) by (apply Hle_hi; right; apply in_or_app; left; exact Hc).
           lra.
      * intros r' [= <-]. split; [exact Hfinal|]. split; [|right; exact Heq].
        assert (Hfst : fst (last rs r0) <= hi); [|lra].
        apply Hle_hi. rewrite <- (last_cons rs r0 (0, 0)), Hr.
        pose proof (separated_last_fst lo (0, 0) Hne) as Hin.
        rewrite removelast_last in Hin.
        destruct Hin as [Hin | Hin]; [left; exact Hin|].
        right. apply in_or_app. left. exact Hin.
      * intros _. split; reflexivity.
    + apply Qeq_bool_neq in Heq.
      exists None. split; [reflexivity|]. split; [|split].
      * split; [|reflexivity]. intros _.
        destruct (proj1 Hnone eq_refl) as [Hlt | [Hge | Hgap]].
        -- left; exact Hlt.
        -- right; left. apply Qle_lteq in Hge. destruct Hge as [Hgt | He]; [exact Hgt|].
           exfalso. apply Heq. symmetry. exact He.
        -- right; right; exact Hgap.
      * intros r' Hr'. discriminate.
      * intros He. contradiction.
Qed.

End RangeLookupFacts.

Module PercentileBreakFacts.

Import Numpy NumpyFacts RFMProcessing Shapes Scenarios BreakFacts BreakSetFacts RangeLookupFacts.
Local Open Scope string_scope.

Lemma sorted_map_seq (f : nat -> Q) :
  (forall i j, (i <= j)%nat -> f i <= f j) ->
  forall m a, StronglySorted Qle (map f (seq a m)).
Proof.
  intros Hmono. induction m as [|m IH]; intros a; simpl; constructor.
  - apply IH.
  - apply Forall_forall. intros y Hy. apply in_map_iff in Hy.
    destruct Hy as [i [<- Hi]]. apply in_seq in Hi. apply Hmono. lia.
Qed.

Lemma sorted_tl (l : list Q) : StronglySorted Qle l -> StronglySorted Qle (tl l).
Proof.
  intros Hs. destruct l; [exact Hs|]. inversion Hs; assumption.
Qed.

Lemma sorted_removelast (l : list Q) :
  StronglySorted Qle l -> StronglySorted Qle (removelast l).
Proof.
  induction 1 as [|x l Hs IH Hall]; [constructor|].
  destruct l as [|y l]; [constructor|].
  change (removelast (x :: y :: l)) with (x :: removelast (y :: l)).
  constructor; [exact IH|].
  apply Forall_forall. intros z Hz. apply In_removelast in Hz.
  rewrite Forall_forall in Hall. apply Hall. exact Hz.
Qed.

Lemma In_tl {A : Type} (l : list A) (x : A) : In x (tl l) -> In x l.
Proof.
  destruct l; [intros [] | intros Hin; right; exact Hin].
Qed.

(** The percentiles asked of numpy are ascending and between 0 and 100. *)
Lemma linspace_percentiles (num : Z) (grid : list Q) :
  linspace 0 100 num = Ok grid ->
  StronglySorted Qle (slice_1_m1 grid) /\
  Forall (fun p => 0 <= p /\ p <= 100) (slice_1_m1 grid).
Proof.
  unfold linspace, slice_1_m1.
  destruct (num <? 0)%Z eqn:Hneg; [discriminate|]. apply Z.ltb_ge in Hneg.
  destruct (num =? 1)%Z eqn:Hone.
  { intros [= <-]. split; constructor. }
  apply Z.eqb_neq in Hone. intros [= <-].
  destruct (Z.eq_dec num 0) as [-> | Hnz]; [split; constructor|].
  assert (Hstep : 0 < (100 - 0) / inject_Z (num - 1)).
  { apply Qlt_shift_div_l; [|lra].
    change 0 with (inject_Z 0). rewrite <- Zlt_Qlt. lia. }
  set (step := (100 - 0) / inject_Z (num - 1)) in *.
  assert (Hmono : forall i j, (i <= j)%nat ->
                              0 + inject_Z (Z.of_nat i) * step
                              <= 0 + inject_Z (Z.of_nat j) * step).
  { intros i j Hij.
    assert (Hq : inject_Z (Z.of_nat i) <= inject_Z (Z.of_nat j))
      by (rewrite <- Zle_Qle; lia).
    nra. }
  split.
  - apply sorted_removelast, sorted_tl. apply (sorted_map_seq _ Hmono).
  - apply Forall_forall. intros p Hp. apply In_removelast, In_tl in Hp.
    apply in_map_iff in Hp. destruct Hp as [i [<- Hi]]. apply in_seq in Hi.
    assert (Hi0 : 0 <= inject_Z (Z.of_nat i)).
    { change 0 with (inject_Z 0). rewrite <- Zle_Qle. lia. }
    assert (Hi1 : inject_Z (Z.of_nat i) <= inject_Z (num - 1))
      by (rewrite <- Zle_Qle; lia).
    assert (Hfull : inject_Z (num - 1) * step == 100).
    { unfold step. field. intros Hz.
      assert (Hpos : 0 < inject_Z (num - 1)).
      { change 0 with (inject_Z 0). rewrite <- Zlt_Qlt. lia. }
      lra. }
    split; nra.
Qed.

Lemma sorted_map_quantile (s : list Q) (ps : list Q) :
  StronglySorted Qle s -> s <> [] ->
  StronglySorted Qle ps -> Forall (fun p => 0 <= p /\ p <= 100) ps ->
  StronglySorted Qle (map (fun p => quantile_sorted s (p / 100)) ps).
Proof.
  intros Hs Hne Hps Hrange.
  induction Hps as [|p ps Hps IH Hall]; simpl; constructor.
  - apply IH. inversion Hrange; assumption.
  - inversion Hrange as [|? ? [Hp0 Hp1] Hrest]; subst.
    apply Forall_forall. intros y Hy. apply in_map_iff in Hy.
    destruct Hy as [p' [<- Hp']].
    rewrite Forall_forall in Hall, Hrest.
    pose proof (Hall p' Hp') as Hle. destruct (Hrest p' Hp') as [Hq0 Hq1].
    apply quantile_sorted_mono; try assumption.
    + apply Qle_shift_div_l; lra.
    + apply Qmult_le_compat_r; [exact Hle | unfold Qle; simpl; lia].
    + apply Qle_shift_div_r; lra.
Qed.

Lemma sorted_app_last (l : list Q) (h : Q) :
  StronglySorted Qle l -> Forall (fun x => x <= h) l -> StronglySorted Qle (l ++ [h]).
Proof.
  induction 1 as [|x l Hs IH Hall]; intros Hle; simpl.
  - constructor; constructor.
  - inversion Hle as [|? ? Hxh Hrest]; subst. constructor; [apply IH; exact Hrest|].
    apply Forall_app. split; [exact Hall | constructor; [exact Hxh | constructor]].
Qed.

Lemma percentile_ok_nonempty `{NumLib} (a q l : list Q) :
  a <> [] -> percentile a q = Ok l ->
  l = map (fun p => quantile_sorted (sort a) (p / 100)) q.
Proof.
  unfold percentile. intros Hne.
  destruct (negb (forallb percentile_in_range q)); [discriminate|].
  destruct a; [contradiction|]. intros [= <-]. reflexivity.
Qed.

(** With the method [percentiles], when numpy gives no finite numbers for
    a percentile of zero samples, the cut-points are ascending. *)
Lemma percentile_breaks_sorted `{NumLib} (self : t) (df : DataFrame) (column : string)
      (cfg : VarConfig) (breaks : list Q) (ranges : list range) :
  (forall q l, lib_percentile_empty q <> Ok l) ->
  dict_get (variables_config self) column = Some cfg ->
  breaks_method cfg = Some "percentiles" ->
  calculate_breaks self df column = Ok (breaks, ranges) ->
  StronglySorted Qle breaks.
Proof.
  intros Hlib Hcfg Hmethod Hcb.
  unfold calculate_breaks, dict_getitem in Hcb. rewrite Hcfg in Hcb. cbn [bind] in Hcb.
  destruct (calculate_outliers_limits self df column) as [lim| |] eqn:Hlim;
    try discriminate. cbn [bind] in Hcb.
  destruct (dict_get df column) as [col|] eqn:Hcol; [|discriminate]. cbn [bind] in Hcb.
  destruct (outlier_limits_min_max _ _ _ Hlim Hcol) as [Hmin Hmax].
  rewrite Hmethod in Hcb. cbn [getitem bind] in Hcb.
  change (String.eqb "percentiles" "percentiles") with true in Hcb. cbn iota in Hcb.
  destruct (linspace 0 100 _) as [grid| |] eqn:Hgrid; try discriminate.
  cbn [bind] in Hcb.
  destruct (linspace_percentiles _ Hgrid) as [Hps Hrange].
  set (ps := slice_1_m1 grid) in *.
  destruct (percentile _ ps) as [interior| |] eqn:Hperc; try discriminate.
  cbn [bind] in Hcb.
  destruct (concatenate_then_ranges _ _ _ Hcb) as [mn [mx [Hmn [Hmx [-> _]]]]].
  rewrite Hmin in Hmn. rewrite Hmax in Hmx.
  set (sample := filter (within_limits (LI lim) (LS lim)) col) in *.
  assert (Hne : sample <> []).
  { intros Hnil. rewrite Hnil in Hperc. unfold percentile in Hperc.
    destruct (negb (forallb percentile_in_range ps)); [discriminate|].
    exact (Hlib _ _ Hperc). }
  apply (percentile_ok_nonempty _ Hne) in Hperc. subst interior.
  pose proof (sort_sorted sample) as Hsorted.
  assert (Hsne : sort sample <> []).
  { intros Hnil. apply (f_equal (@List.length Q)) in Hnil.
    rewrite sort_length in Hnil. destruct sample; [contradiction | discriminate]. }
  assert (Hbounds : forall p, In p ps ->
                              mn <= quantile_sorted (sort sample) (p / 100) /\
                              quantile_sorted (sort sample) (p / 100) <= mx).
  { intros p Hp. rewrite Forall_forall in Hrange. destruct (Hrange p Hp) as [Hp0 Hp1].
    assert (Hq : 0 <= p / 100 <= 1).
    { split; [apply Qle_shift_div_l; lra | apply Qle_shift_div_r; lra]. }
    destruct (quantile_sorted_bounds Hsorted Hsne Hq) as [Hlo Hhi].
    assert (Hlen : (0 < List.length (sort sample))%nat).
    { destruct (sort sample); [contradiction | simpl; lia]. }
    assert (Hin : forall i, (i < List.length (sort sample))%nat ->
                            In (nth i (sort sample) 0) col).
    { intros i Hi. pose proof (nth_In (sort sample) 0 Hi) as Hn.
      apply (proj1 (sort_In _ _)) in Hn. unfold sample in Hn.
      apply filter_In in Hn. apply Hn. }
    pose proof (series_min_le _ Hmn _ (Hin O Hlen)) as H1.
    assert (Hlast : (List.length (sort sample) - 1 < List.length (sort sample))%nat)
      by lia.
    pose proof (series_max_ge _ Hmx _ (Hin _ Hlast)) as H2.
    split; lra. }
  pose proof (series_min_le_max _ Hmn Hmx) as Hminmax.
  constructor.
  - apply sorted_app_last.
    + apply sorted_map_quantile; assumption.
    + apply Forall_forall. intros y Hy. apply in_map_iff in Hy.
      destruct Hy as [p [<- Hp]]. destruct (Hbounds p Hp) as [_ Hhi].
      unfold eps. lra.
  - apply Forall_app. split.
    + apply Forall_forall. intros y Hy. apply in_map_iff in Hy.
      destruct Hy as [p [<- Hp]]. destruct (Hbounds p Hp) as [Hlo _].
      unfold eps. lra.
    + constructor; [unfold eps; lra | constructor].
Qed.

Lemma recent_numpy_raises_on_empty (q l : list Q) :
  @lib_percentile_empty Reference.numpy_recent q <> Ok l.
Proof. discriminate. Qed.

Lemma range_lookup_witness :
  exists lo hi interior,
    fst breaks_A = lo :: (interior ++ [hi])%list /\
    forall v,
    exists found,
      get_range_for_value v (snd breaks_A) = Ok found /\
      (found = None <->
       v < lo \/ hi < v \/ exists c, In c interior /\ c - eps <= v /\ v < c) /\
      (forall r, found = Some r ->
                 In r (snd breaks_A) /\ fst r <= v /\ (v < snd r \/ v == hi)) /\
      (v == hi -> found = Some (last (snd breaks_A) (0, 0))
                  /\ snd (last (snd breaks_A) (0, 0)) = hi).
Proof.
  apply (@range_lookup Reference.numpy_recent processing_A table_A "Monetary"
           (fst breaks_A) (snd breaks_A) scenario_A_breaks).
  apply (@percentile_breaks_sorted Reference.numpy_recent processing_A table_A
           "Monetary" config_A (fst breaks_A) (snd breaks_A)
           recent_numpy_raises_on_empty eq_refl eq_refl scenario_A_breaks).
Defined.

(** C2 as stated fails: the value 0.9995 of the column lies within the
    outlier limits and between the column minimum and maximum, and the
    lookup finds no range for it. *)
Lemma value_below_cutpoint_gets_no_range :
  @calculate_outliers_limits Reference.numpy_recent processing_two table_close "Monetary"
  = Ok limits_close /\
  @calculate_breaks Reference.numpy_recent processing_two table_close "Monetary"
  = Ok breaks_close /\
  In (9995 # 10000) column_close /\
  within_limits (LI limits_close) (LS limits_close) (9995 # 10000) = true /\
  series_min column_close = Some 0 /\ series_max column_close = Some 2 /\
  get_range_for_value (9995 # 10000) (snd breaks_close) = Ok None.
Proof.
  split; [vm_compute; reflexivity|]. split; [vm_compute; reflexivity|].
  split; [right; left; reflexivity|].
  split; [vm_compute; reflexivity|]. split; [vm_compute; reflexivity|].
  split; vm_compute; reflexivity.
Qed.

End PercentileBreakFacts.

(** ** Scores *)

Module ScoreFacts.

Import Numpy NumpyFacts RFMProcessing Shapes Scenarios MoreScenarios.
Import BreakFacts BreakSetFacts.
Local Open Scope string_scope.

Lemma searchsorted_right_mono (a : list Q) (x y : Q) :
  x <= y -> (searchsorted_right a x <= searchsorted_right a y)%Z.
Proof.
  intros Hxy. unfold searchsorted_right. apply inj_le.
  induction a as [|b a IH]; simpl; [lia|].
  destruct (Qle_bool b x) eqn:Ex.
  - apply Qle_bool_iff in Ex.
    assert (Ey : Qle_bool b y = true) by (apply Qle_bool_iff; lra).
    rewrite Ey. simpl. lia.
  - destruct (Qle_bool b y); simpl; lia.
Qed.

Lemma searchsorted_right_bounds (a : list Q) (x : Q) :
  (0 <= searchsorted_right a x <= Z.of_nat (List.length a))%Z.
Proof.
  unfold searchsorted_right. pose proof (filter_length_le (fun b => Qle_bool b x) a). lia.
Qed.

Lemma never_increases_le (a : list Q) :
  forall prev, never_increases prev a = true -> forall y, In y a -> y <= prev.
Proof.
  induction a as [|x a IH]; intros prev Hn y Hin; [destruct Hin|].
  simpl in Hn. destruct (Qlt_bool prev x) eqn:E; [discriminate|].
  apply Qlt_bool_false in E. destruct Hin as [<- | Hin]; [exact E|].
  specialize (IH x Hn y Hin). lra.
Qed.

Lemma skip_repeated_suffix (first : Q) (a : list Q) (x : Q) (r : list Q) :
  skip_repeated first a = x :: r -> exists pre, a = (pre ++ x :: r)%list.
Proof.
  induction a as [|y a IH]; simpl; [discriminate|].
  destruct (Qeq_bool y first).
  - intros Hs. destruct (IH Hs) as [pre ->]. exists (y :: pre). reflexivity.
  - intros [= -> ->]. exists []. reflexivity.
Qed.

Lemma last_app_cons {A : Type} (pre : list A) (x : A) (r : list A) (d : A) :
  last (pre ++ x :: r) d = last (x :: r) d.
Proof.
  induction pre as [|y pre IH]; [reflexivity|].
  change ((y :: pre) ++ x :: r)%list with (y :: (pre ++ x :: r))%list.
  destruct (pre ++ x :: r)%list as [|a l] eqn:E; [destruct pre; discriminate|].
  change (last (y :: a :: l) d) with (last (a :: l) d). exact IH.
Qed.

(** Cut-points that start below where they end are never taken for
    descending bins. *)
Lemma monotonicity_not_descending (lo hi : Q) (interior : list Q) :
  lo < hi -> monotonicity (lo :: interior ++ [hi]) <> (-1)%Z.
Proof.
  intros Hlt. unfold monotonicity.
  destruct (skip_repeated lo (interior ++ [hi])) as [|next rest'] eqn:Hskip; [discriminate|].
  destruct (Qlt_bool lo next) eqn:Hcmp.
  - destruct (never_decreases next rest'); discriminate.
  - destruct (never_increases next rest') eqn:Hdown; [|discriminate].
    intros _. apply Qlt_bool_false in Hcmp.
    destruct (skip_repeated_suffix _ _ Hskip) as [pre Hpre].
    assert (Hin : In hi (next :: rest')).
    { assert (Hlast : last (pre ++ next :: rest') 0 = hi)
        by (rewrite <- Hpre; apply last_last).
      rewrite last_app_cons in Hlast.
      rewrite <- Hlast.
      destruct (exists_last (l := next :: rest')) as [l' [z Hz]]; [discriminate|].
      rewrite Hz, last_last. apply in_or_app. right. left. reflexivity. }
    destruct Hin as [Heq | Hin].
    + subst next. lra.
    + pose proof (never_increases_le _ _ Hdown _ Hin). lra.
Qed.

Lemma digitize_nth (xs bins : list Q) (ds : list Z) :
  digitize xs bins = Ok ds ->
  monotonicity bins <> 0%Z /\
  List.length ds = List.length xs /\
  forall i v, nth_error xs i = Some v ->
              exists d, digitize1 bins v = Ok d /\ nth_error ds i = Some d.
Proof.
  unfold digitize. destruct (monotonicity bins =? 0)%Z eqn:E; [discriminate|].
  apply Z.eqb_neq in E. intros Hm. split; [exact E|]. split.
  - apply (mapM_length _ _ Hm).
  - intros i v Hi. apply (mapM_nth_error _ _ Hm _ Hi).
Qed.

Lemma digitize_total (xs bins : list Q) :
  monotonicity bins <> 0%Z -> exists ds, digitize xs bins = Ok ds.
Proof.
  intros Hm. unfold digitize. apply Z.eqb_neq in Hm. rewrite Hm.
  apply mapM_total. apply Forall_forall. intros v _. unfold digitize1. rewrite Hm.
  destruct (monotonicity bins =? -1)%Z; eexists; reflexivity.
Qed.

Lemma get_range_total (ranges : list range) (v : Q) :
  ranges <> [] -> exists found, get_range_for_value v ranges = Ok found.
Proof.
  intros Hne. unfold get_range_for_value.
  destruct (first_range v ranges); [eexists; reflexivity|].
  destruct ranges as [|r0 rest]; [contradiction|].
  destruct (Qeq_bool v (snd (last rest r0))); eexists; reflexivity.
Qed.

Lemma clip_between (a lo hi : Z) :
  (lo <= hi)%Z -> (lo <= clip a lo hi <= hi)%Z.
Proof. unfold clip. lia. Qed.

Lemma clip_mono (a b lo hi : Z) : (a <= b)%Z -> (clip a lo hi <= clip b lo hi)%Z.
Proof. unfold clip. lia. Qed.

(** The scores of a column, row by row. *)
Lemma calculate_score_rows (self : t) (df : DataFrame) (column : string)
      (breaks : list Q) (break_ranges : list range) (inverse : bool)
      (scores : list Z) (value_ranges : list (option range)) (col : list Q) :
  dict_get df column = Some col ->
  calculate_score self df column breaks break_ranges inverse = Ok (scores, value_ranges) ->
  monotonicity breaks <> 0%Z /\
  List.length scores = List.length col /\
  forall i v, nth_error col i = Some v ->
    exists d, digitize1 breaks v = Ok d /\
              nth_error scores i
              = Some (score_of_bucket (global_config self) inverse
                        (clip d (score_min (global_config self))
                              (num_categories (global_config self)))).
Proof.
  intros Hcol. unfold calculate_score, dict_getitem. rewrite Hcol. cbn [bind].
  destruct (digitize col breaks) as [ds| |] eqn:Hd; try discriminate. cbn [bind].
  destruct (mapM _ col) as [vr| |]; try discriminate. cbn [bind].
  intros [= <- <-].
  destruct (digitize_nth _ _ Hd) as [Hm [Hlen Hnth]].
  split; [exact Hm|]. split; [rewrite !length_map; exact Hlen|].
  intros i v Hi. destruct (Hnth i v Hi) as [d [Hd1 Hdi]].
  exists d. split; [exact Hd1|].
  rewrite !nth_error_map, Hdi. reflexivity.
Qed.

Lemma wrap64_small (z : Z) :
  (int64_min <= z <= int64_max)%Z -> wrap64 z = z.
Proof.
  unfold wrap64, int64_min, int64_max.
  change (2 ^ 63)%Z with 9223372036854775808%Z.
  change (2 ^ 64)%Z with 18446744073709551616%Z.
  intros Hz. rewrite Z.mod_small by lia. lia.
Qed.

Lemma int64_op_small (g : GlobalConfig) (inverse : bool) (z : Z) :
  (int64_min <= z <= int64_max)%Z -> int64_op g inverse z = z.
Proof.
  intros Hz. unfold int64_op. destruct (settings_fit g inverse); [|reflexivity].
  apply wrap64_small. exact Hz.
Qed.

(** Without wrap-around the score of a bucket between [score_min] and
    [num_categories] is the exact one. *)
Lemma score_of_bucket_exact (g : GlobalConfig) (inverse : bool) (bucket : Z) :
  no_wrap g inverse ->
  (score_min g <= bucket <= num_categories g)%Z ->
  score_of_bucket g inverse bucket
  = (if inverse then score_max g - (bucket - score_min g) * score_step g
     else score_min g + (bucket - score_min g) * score_step g)%Z.
Proof.
  intros [Hstep [Hmin [Hdiff [Hprod Hends]]]] Hb.
  assert (Hint : (int64_min <= 0)%Z) by (unfold int64_min; lia).
  assert (Hk : (0 <= bucket - score_min g <= num_categories g - score_min g)%Z) by lia.
  assert (Hp : (0 <= (bucket - score_min g) * score_step g
                <= (num_categories g - score_min g) * score_step g)%Z) by nia.
  unfold score_of_bucket. cbv zeta.
  rewrite (@int64_op_small g inverse (bucket - score_min g)) by lia.
  rewrite (@int64_op_small g inverse ((bucket - score_min g) * score_step g)) by lia.
  destruct inverse; destruct Hends as [Hlow Hhigh]; apply int64_op_small; lia.
Qed.

(** C3, as amended. For every row of a scored column the bucket index of
    [np.digitize] is clipped into [score_min, num_categories] (below it
    to [score_min], above it to [num_categories]) and the score is the
    score of that bucket; where the arithmetic stays within 64 bits, it is
    [score_min + k * score_step] (or [score_max - k * score_step] in
    inverse order) for [k] the clipped index less [score_min], and it lies
    in [score_min, score_max] when
    [score_min + (num_categories - score_min) * score_step <= score_max]. *)
Theorem scores_stepped_and_clipped
        (self : t) (df : DataFrame) (column : string) (col : list Q)
        (breaks : list Q) (break_ranges : list range) (inverse : bool)
        (scores : list Z) (value_ranges : list (option range)) :
  let g := global_config self in
  dict_get df column = Some col ->
  calculate_score self df column breaks break_ranges inverse = Ok (scores, value_ranges) ->
  (score_min g <= num_categories g)%Z ->
  List.length scores = List.length col /\
  forall i v,
    nth_error col i = Some v ->
    exists d s,
      digitize1 breaks v = Ok d /\
      nth_error scores i = Some s /\
      let bucket := clip d (score_min g) (num_categories g) in
      let k := (bucket - score_min g)%Z in
      ((d < score_min g)%Z -> bucket = score_min g) /\
      ((num_categories g < d)%Z -> bucket = num_categories g) /\
      ((score_min g <= d <= num_categories g)%Z -> bucket = d) /\
      (0 <= k <= num_categories g - score_min g)%Z /\
      s = score_of_bucket g inverse bucket /\
      (no_wrap g inverse ->
       s = (if inverse then score_max g - k * score_step g
            else score_min g + k * score_step g)%Z /\
       ((score_min g + (num_categories g - score_min g) * score_step g
         <= score_max g)%Z ->
        (score_min g <= s <= score_max g)%Z)).
Proof.
  intros g Hcol Hcs Hminmax.
  destruct (calculate_score_rows _ _ _ _ _ _ Hcol Hcs) as [_ [Hlen Hrows]].
  split; [exact Hlen|].
  intros i v Hv. destruct (Hrows i v Hv) as [d [Hd Hs]]. fold g in Hs.
  exists d. eexists. split; [exact Hd|]. split; [exact Hs|]. cbv zeta.
  pose proof (@clip_between d _ _ Hminmax) as Hclip.
  set (bucket := clip d (score_min g) (num_categories g)) in *.
  split; [unfold bucket, clip; lia|].
  split; [unfold bucket, clip; lia|].
  split; [unfold bucket, clip; lia|].
  split; [lia|]. split; [reflexivity|].
  intros Hfit. rewrite (score_of_bucket_exact Hfit Hclip).
  split; [reflexivity|].
  intros Hmax. destruct Hfit as [Hstep _].
  destruct inverse; nia.
Qed.

Lemma scores_stepped_and_clipped_witness :
  let g := global_config processing_A in
  List.length (fst scores_A) = List.length column_A /\
  forall i v,
    nth_error column_A i = Some v ->
    exists d s,
      digitize1 (fst breaks_A) v = Ok d /\
      nth_error (fst scores_A) i = Some s /\
      let bucket := clip d (score_min g) (num_categories g) in
      let k := (bucket - score_min g)%Z in
      ((d < score_min g)%Z -> bucket = score_min g) /\
      ((num_categories g < d)%Z -> bucket = num_categories g) /\
      ((score_min g <= d <= num_categories g)%Z -> bucket = d) /\
      (0 <= k <= num_categories g - score_min g)%Z /\
      s = score_of_bucket g false bucket /\
      (no_wrap g false ->
       s = (score_min g + k * score_step g)%Z /\
       ((score_min g + (num_categories g - score_min g) * score_step g
         <= score_max g)%Z ->
        (score_min g <= s <= score_max g)%Z)).
Proof.
  apply (@scores_stepped_and_clipped processing_A table_A
           "Monetary" column_A (fst breaks_A) (snd breaks_A) false
           (fst scores_A) (snd scores_A)).
  - reflexivity.
  - vm_compute. reflexivity.
  - vm_compute. discriminate.
Defined.

(** C3 as stated fails: with scores from 1 to 5 in steps of 2 and five
    categories, the customers of the top bucket of scenario A score 9. *)
Lemma score_above_score_max :
  @score_variable Reference.numpy_recent processing_step_two table_A "Monetary"
  = Ok scores_step_two /\
  fst scores_step_two = [1; 1; 3; 3; 5; 5; 7; 7; 9; 9]%Z /\
  score_min (global_config processing_step_two) = 1%Z /\
  score_max (global_config processing_step_two) = 5%Z /\
  score_step (global_config processing_step_two) = 2%Z /\
  num_categories (global_config processing_step_two) = 5%Z.
Proof.
  split; [vm_compute; reflexivity|]. repeat split.
Qed.

(** The arithmetic wraps around: with scores from 1 in steps of [2^62],
    bucket 3 scores [1 - 2^63], below bucket 2. *)
Lemma wide_step_wraps_around :
  score_of_bucket settings_wide_step false 2 = (1 + 2 ^ 62)%Z /\
  score_of_bucket settings_wide_step false 3 = (-9223372036854775807)%Z.
Proof. split; vm_compute; reflexivity. Qed.

(** C4, as amended. Where the score arithmetic stays within 64 bits (so
    with a step that is not negative), the scores of two values against a
    break set of [calculate_breaks] are ordered as the values are in
    standard order, and the other way round in inverse order. *)
Theorem score_monotone `{NumLib}
        (self : t) (df df' : DataFrame) (column column' : string) (col : list Q)
        (breaks : list Q) (break_ranges : list range) (inverse : bool)
        (scores : list Z) (value_ranges : list (option range)) :
  calculate_breaks self df column = Ok (breaks, break_ranges) ->
  dict_get df' column' = Some col ->
  calculate_score self df' column' breaks break_ranges inverse = Ok (scores, value_ranges) ->
  no_wrap (global_config self) inverse ->
  forall i j vi vj si sj,
    nth_error col i = Some vi -> nth_error col j = Some vj ->
    nth_error scores i = Some si -> nth_error scores j = Some sj ->
    vi < vj ->
    if inverse then (sj <= si)%Z else (si <= sj)%Z.
Proof.
  intros Hcb Hcol Hcs Hfit i j vi vj si sj Hvi Hvj Hsi Hsj Hlt.
  destruct (calculate_breaks_shape _ _ _ Hcb)
    as [col0 [mn [mx [interior [_ [Hmn [Hmx [Hb _]]]]]]]].
  pose proof (series_min_le_max _ Hmn Hmx) as Hminmax.
  assert (Hup : monotonicity breaks <> (-1)%Z).
  { rewrite Hb. apply monotonicity_not_descending. unfold eps. lra. }
  destruct (calculate_score_rows _ _ _ _ _ _ Hcol Hcs) as [Hm [_ Hrows]].
  destruct (Hrows i vi Hvi) as [di [Hdi Hsi']].
  destruct (Hrows j vj Hvj) as [dj [Hdj Hsj']].
  rewrite Hsi in Hsi'. rewrite Hsj in Hsj'.
  injection Hsi' as ->. injection Hsj' as ->.
  unfold digitize1 in Hdi, Hdj.
  apply Z.eqb_neq in Hm, Hup. rewrite Hm, Hup in Hdi, Hdj.
  injection Hdi as <-. injection Hdj as <-.
  assert (Hd : (searchsorted_right breaks vi <= searchsorted_right breaks vj)%Z).
  { apply searchsorted_right_mono. lra. }
  pose proof (clip_mono (score_min (global_config self))
                        (num_categories (global_config self)) Hd) as Hclip.
  assert (Hminn : (score_min (global_config self)
                   <= num_categories (global_config self))%Z) by apply Hfit.
  rewrite !(score_of_bucket_exact Hfit) by (apply clip_between; exact Hminn).
  destruct Hfit as [Hstep _].
  destruct inverse; nia.
Qed.

Lemma score_monotone_witness :
  no_wrap (global_config processing_A) false /\
  nth_error column_A 0 = Some 10 /\ nth_error column_A 9 = Some 100 /\
  10 < 100 /\ (1 <= 5)%Z.
Proof.
  assert (Hscore : exists value_ranges,
             calculate_score processing_A table_A "Monetary"
                             (fst breaks_A) (snd breaks_A) false
             = Ok ([1; 1; 2; 2; 3; 3; 4; 4; 5; 5]%Z, value_ranges)).
  { eexists. vm_compute. reflexivity. }
  destruct Hscore as [value_ranges Hscore].
  assert (Hfit : no_wrap (global_config processing_A) false).
  { unfold no_wrap. vm_compute. repeat split; discriminate. }
  assert (Hlt : 10 < 100) by reflexivity.
  split; [exact Hfit|]. split; [reflexivity|]. split; [reflexivity|].
  split; [exact Hlt|].
  exact (@score_monotone Reference.numpy_recent processing_A table_A table_A
           "Monetary" "Monetary" column_A (fst breaks_A) (snd breaks_A) false
           _ value_ranges scenario_A_breaks eq_refl Hscore Hfit
           0%nat 9%nat 10 100 1%Z 5%Z eq_refl eq_refl eq_refl eq_refl Hlt).
Defined.

(** C4 as stated fails: with a step of -1 the customer with the value 10
    scores 1 and the one with the value 100 scores -3, in standard order. *)
Lemma negative_step_reverses_scores :
  @score_variable Reference.numpy_recent processing_step_back table_A "Monetary"
  = Ok scores_step_back /\
  lower "Monetary" <> "recency" /\
  nth_error column_A 0 = Some 10 /\ nth_error column_A 9 = Some 100 /\
  nth_error (fst scores_step_back) 0 = Some 1%Z /\
  nth_error (fst scores_step_back) 9 = Some (-3)%Z /\
  10 < 100 /\ ~ (1 <= -3)%Z.
Proof.
  split; [vm_compute; reflexivity|]. split; [discriminate|].
  repeat split. lia.
Qed.

End ScoreFacts.

(** ** Failures of [calculate_breaks] *)

Module BreakFailureFacts.

Import Numpy NumpyFacts RFMProcessing Shapes Scenarios BreakFacts PercentileBreakFacts.
Local Open Scope string_scope.

Lemma percentile1_not_nan `{NumLib} (col : list Q) (p : Q) :
  percentile1 col p <> NaNResult.
Proof.
  unfold percentile1. destruct (percentile col [p]) as [[|v [|w l]]| |]; discriminate.
Qed.

(** The limits are returned or an exception is raised. *)
Lemma outlier_limits_not_nan `{NumLib} (self : t) (df : DataFrame) (column : string) :
  calculate_outliers_limits self df column <> NaNResult.
Proof.
  unfold calculate_outliers_limits, dict_getitem.
  destruct (dict_get (variables_config self) column) as [cfg|]; [|discriminate].
  destruct (dict_get df column) as [col|]; [|discriminate]. cbn [bind].
  destruct (outlier_method cfg) as [method|]; [|discriminate]. cbn [getitem bind].
  destruct (String.eqb method "IQR"); [discriminate|].
  destruct (String.eqb method "std_dev"); [discriminate|].
  destruct (String.eqb method "percentiles"); [|discriminate].
  pose proof (percentile1_not_nan col (get_default (percentile_lower cfg) 5)) as H1.
  pose proof (percentile1_not_nan col (get_default (percentile_upper cfg) 95)) as H2.
  destruct (percentile1 col (get_default (percentile_lower cfg) 5)); try discriminate;
    [|contradiction].
  cbn [bind].
  destruct (percentile1 col (get_default (percentile_upper cfg) 95)); try discriminate.
  contradiction.
Qed.

Lemma outlier_limits_column `{NumLib} (self : t) (df : DataFrame) (column : string)
      (lim : OutlierLimits) :
  calculate_outliers_limits self df column = Ok lim ->
  exists col, dict_get df column = Some col.
Proof.
  unfold calculate_outliers_limits, dict_getitem.
  destruct (dict_get (variables_config self) column) as [cfg|]; [|discriminate].
  destruct (dict_get df column) as [col|]; [|discriminate].
  intros _. exists col. reflexivity.
Qed.

Lemma linspace_percentiles_valid (num : Z) (grid : list Q) :
  linspace 0 100 num = Ok grid ->
  forallb percentile_in_range (slice_1_m1 grid) = true.
Proof.
  intros Hgrid. destruct (linspace_percentiles _ Hgrid) as [_ Hrange].
  apply forallb_forall. intros p Hp. rewrite Forall_forall in Hrange.
  destruct (Hrange p Hp) as [H0 H100]. unfold percentile_in_range.
  apply Qle_bool_iff in H0, H100. rewrite H0, H100. reflexivity.
Qed.

(** C8, as amended. For a configured variable, every breaks method other
    than [percentiles] and [jenks] makes [calculate_breaks] fail, with the
    [ValueError] of that method once the outlier limits are computed. No
    check is made for an empty sample: when no value lies within the
    limits, the percentile or the Jenks routine is called with zero
    samples, and [calculate_breaks] raises only what that call raises. *)
Theorem breaks_failures `{NumLib}
        (self : t) (df : DataFrame) (column : string) (cfg : VarConfig) :
  dict_get (variables_config self) column = Some cfg ->
  (forall method,
      breaks_method cfg = Some method ->
      method <> "percentiles" -> method <> "jenks" ->
      (exists e, calculate_breaks self df column = Raise e) /\
      (forall lim,
          calculate_outliers_limits self df column = Ok lim ->
          calculate_breaks self df column
          = Raise (ValueError ("Método de cálculo de breaks no soportado: " ++ method))))
  /\ (forall lim col,
         calculate_outliers_limits self df column = Ok lim ->
         dict_get df column = Some col ->
         filter (within_limits (LI lim) (LS lim)) col = [] ->
         (breaks_method cfg = Some "percentiles" ->
          forall grid,
            linspace 0 100 (num_categories (global_config self) + 1) = Ok grid ->
            calculate_breaks self df column
            = (interior <- lib_percentile_empty (slice_1_m1 grid) ;;
               breaks <- concatenate_breaks (min_value lim) (max_value lim) interior ;;
               Ok (breaks, shrink_ranges (ranges_of_breaks breaks))))
         /\ (breaks_method cfg = Some "jenks" ->
             calculate_breaks self df column
             = (all_breaks <- lib_jenks_breaks [] (num_categories (global_config self)) ;;
                breaks <- concatenate_breaks (min_value lim) (max_value lim)
                                             (slice_1_m1 all_breaks) ;;
                Ok (breaks, shrink_ranges (ranges_of_breaks breaks))))).
Proof.
  intros Hcfg. split.
  - intros method Hmethod Hp Hj.
    apply String.eqb_neq in Hp, Hj.
    assert (Hok : forall lim,
               calculate_outliers_limits self df column = Ok lim ->
               calculate_breaks self df column
               = Raise (ValueError ("Método de cálculo de breaks no soportado: "
                                      ++ method))).
    { intros lim Hlim. destruct (outlier_limits_column _ _ _ Hlim) as [col Hcol].
      unfold calculate_breaks, dict_getitem. rewrite Hcfg. cbn [bind].
      rewrite Hlim. cbn [bind]. rewrite Hcol. cbn [bind].
      rewrite Hmethod. cbn [getitem bind]. rewrite Hp, Hj. reflexivity. }
    split; [|exact Hok].
    destruct (calculate_outliers_limits self df column) as [lim|e|] eqn:Hlim.
    + eexists. apply (Hok lim). reflexivity.
    + exists e. unfold calculate_breaks, dict_getitem. rewrite Hcfg. cbn [bind].
      rewrite Hlim. reflexivity.
    + exfalso. exact (outlier_limits_not_nan _ _ _ Hlim).
  - intros lim col Hlim Hcol Hempty. split.
    + intros Hmethod grid Hgrid.
      unfold calculate_breaks, dict_getitem. rewrite Hcfg. cbn [bind].
      rewrite Hlim. cbn [bind]. rewrite Hcol. cbn [bind].
      rewrite Hmethod. cbn [getitem bind].
      change (String.eqb "percentiles" "percentiles") with true. cbn iota.
      rewrite Hgrid. cbn [bind]. rewrite Hempty.
      unfold percentile. rewrite (linspace_percentiles_valid _ Hgrid). reflexivity.
    + intros Hmethod.
      unfold calculate_breaks, dict_getitem. rewrite Hcfg. cbn [bind].
      rewrite Hlim. cbn [bind]. rewrite Hcol. cbn [bind].
      rewrite Hmethod. cbn [getitem bind].
      change (String.eqb "jenks" "percentiles") with false.
      change (String.eqb "jenks" "jenks") with true. cbn iota.
      rewrite Hempty. reflexivity.
Qed.

Lemma breaks_failures_witness :
  @calculate_breaks Reference.numpy_recent processing_mixed table_mixed "Frequency"
  = Raise (ValueError "Método de cálculo de breaks no soportado: kmeans").
Proof.
  assert (Hlim : exists lim,
             @calculate_outliers_limits Reference.numpy_recent processing_mixed
                                        table_mixed "Frequency" = Ok lim).
  { eexists. vm_compute. reflexivity. }
  destruct Hlim as [lim Hlim].
  assert (Hp : "kmeans" <> "percentiles") by discriminate.
  assert (Hj : "kmeans" <> "jenks") by discriminate.
  exact (proj2 (proj1 (@breaks_failures Reference.numpy_recent processing_mixed
                         table_mixed "Frequency" config_kmeans eq_refl)
                      "kmeans" eq_refl Hp Hj) lim Hlim).
Defined.

(** C8 as stated fails: no value of the column [0, 10] lies within its
    5th and 95th percentiles, and [calculate_breaks] hands the empty
    sample to numpy: where numpy answers NaN nothing is raised, and where
    numpy raises, the error is numpy's [IndexError]. *)
Lemma empty_sample_reaches_numpy :
  @calculate_outliers_limits Reference.numpy_legacy processing_percentiles
                             table_pair "Monetary" = Ok limits_pair /\
  @calculate_outliers_limits Reference.numpy_recent processing_percentiles
                             table_pair "Monetary" = Ok limits_pair /\
  LI limits_pair = Some (50 # 100) /\ LS limits_pair = Some (950 # 100) /\
  filter (within_limits (LI limits_pair) (LS limits_pair)) [0; 10] = [] /\
  @calculate_breaks Reference.numpy_legacy processing_percentiles table_pair "Monetary"
  = NaNResult /\
  @calculate_breaks Reference.numpy_recent processing_percentiles table_pair "Monetary"
  = Raise (IndexError "index -1 is out of bounds for axis 0 with size 0").
Proof.
  repeat split; vm_compute; reflexivity.
Qed.

End BreakFailureFacts.

(** ** The loop over the configured variables *)

Module PipelineFacts.

Import Numpy RFMProcessing Shapes Scenarios MoreScenarios ScoreFacts.
Local Open Scope string_scope.

Lemma append_length (s t : string) :
  String.length (s ++ t) = (String.length s + String.length t)%nat.
Proof.
  induction s as [|a s IH]; simpl; [reflexivity | rewrite IH; reflexivity].
Qed.

(** Two texts that end in suffixes of one length agree on both parts. *)
Lemma append_suffix_inj (s1 s2 t1 t2 : string) :
  String.length t1 = String.length t2 ->
  s1 ++ t1 = s2 ++ t2 -> s1 = s2 /\ t1 = t2.
Proof.
  intros Hlen. revert s2.
  induction s1 as [|a s1 IH]; intros [|b s2] Heq; simpl in Heq.
  - split; [reflexivity | exact Heq].
  - exfalso. apply (f_equal String.length) in Heq. simpl in Heq.
    rewrite append_length in Heq. lia.
  - exfalso. apply (f_equal String.length) in Heq. simpl in Heq.
    rewrite append_length in Heq. lia.
  - injection Heq as -> Heq. destruct (IH s2 Heq) as [-> Ht].
    split; [reflexivity | exact Ht].
Qed.

Lemma score_key_inj (c c' : string) : c ++ "_score" = c' ++ "_score" -> c = c'.
Proof. intros Heq. apply (append_suffix_inj c c' "_score" "_score" eq_refl Heq). Qed.

Lemma range_key_inj (c c' : string) : c ++ "_range" = c' ++ "_range" -> c = c'.
Proof. intros Heq. apply (append_suffix_inj c c' "_range" "_range" eq_refl Heq). Qed.

Lemma score_key_not_range (c c' : string) : c ++ "_score" <> c' ++ "_range".
Proof.
  intros Heq.
  destruct (append_suffix_inj c c' "_score" "_range" eq_refl Heq) as [_ Hsuffix].
  discriminate.
Qed.

Lemma dict_set_fresh {V : Type} (d : dict V) (k : string) (v : V) :
  ~ In k (keys d) -> dict_set d k v = (d ++ [(k, v)])%list.
Proof.
  induction d as [|[k' v'] d IH]; intros Hfresh; simpl; [reflexivity|].
  destruct (String.eqb k' k) eqn:E.
  - apply String.eqb_eq in E. exfalso. apply Hfresh. left. exact E.
  - rewrite IH; [reflexivity|]. intros Hin. apply Hfresh. right. exact Hin.
Qed.

Lemma keys_app {V : Type} (d d' : dict V) :
  keys (d ++ d')%list = (keys d ++ keys d')%list.
Proof. apply map_app. Qed.

(** The keys that a variable adds are its own two. *)
Lemma scored_columns_keys (c k : string) (o : outcome (list Z * list (option range))) :
  In k (keys (scored_columns c o)) ->
  (exists scores value_ranges, o = Ok (scores, value_ranges)) /\
  (k = c ++ "_score" \/ k = c ++ "_range").
Proof.
  destruct o as [[scores value_ranges]| |]; simpl.
  - intros [<- | [<- | []]]; (split; [do 2 eexists; reflexivity|]); [left | right];
      reflexivity.
  - intros [].
  - intros [].
Qed.

(** One turn of the loop on fresh keys. *)
Lemma process_variable_fresh `{NumLib} (self : t) (rfm_data : DataFrame)
      (d : dict column) (out : list string) (c : string) (cfg : VarConfig) :
  score_variable self rfm_data c <> NaNResult ->
  ~ In (c ++ "_score") (keys d) -> ~ In (c ++ "_range") (keys d) ->
  process_variable self rfm_data (Ok (d, out)) (c, cfg)
  = Ok ((d ++ scored_columns c (score_variable self rfm_data c))%list,
        (out ++ skip_message c (score_variable self rfm_data c))%list).
Proof.
  intros Hnan Hs Hr. unfold process_variable. cbn [bind fst].
  destruct (score_variable self rfm_data c) as [[scores value_ranges]|e|].
  - rewrite (@dict_set_fresh _ _ _ _ Hs).
    rewrite dict_set_fresh.
    + rewrite <- app_assoc, app_nil_r. reflexivity.
    + rewrite keys_app. intros Hin. apply in_app_or in Hin.
      destruct Hin as [Hin | [Heq | []]]; [exact (Hr Hin)|].
      exact (score_key_not_range _ _ Heq).
  - destruct e; cbn [scored_columns skip_message]; rewrite app_nil_r; reflexivity.
  - contradiction.
Qed.

Lemma process_loop `{NumLib} (self : t) (rfm_data : DataFrame) (vc : dict VarConfig) :
  NoDup (keys vc) ->
  (forall c, In c (keys vc) -> score_variable self rfm_data c <> NaNResult) ->
  forall d out,
    (forall c, In c (keys vc) ->
               ~ In (c ++ "_score") (keys d) /\ ~ In (c ++ "_range") (keys d)) ->
    fold_left (process_variable self rfm_data) vc (Ok (d, out))
    = Ok ((d ++ flat_map (fun kv => scored_columns (fst kv)
                                      (score_variable self rfm_data (fst kv))) vc)%list,
          (out ++ flat_map (fun kv => skip_message (fst kv)
                                        (score_variable self rfm_data (fst kv))) vc)%list).
Proof.
  induction vc as [|[c cfg] vc IH]; intros Hnodup Hnan d out Hfresh.
  - simpl. rewrite !app_nil_r. reflexivity.
  - cbn [fold_left]. inversion Hnodup as [|? ? Hnotin Hnodup']; subst.
    destruct (Hfresh c (or_introl eq_refl)) as [Hs Hr].
    rewrite (@process_variable_fresh _ self rfm_data d out c cfg
               (Hnan c (or_introl eq_refl)) Hs Hr).
    rewrite IH.
    + cbn [flat_map fst]. rewrite <- !app_assoc. reflexivity.
    + exact Hnodup'.
    + intros c' Hc'. apply Hnan. right. exact Hc'.
    + intros c' Hc'. destruct (Hfresh c' (or_intror Hc')) as [Hs' Hr'].
      assert (Hne : c' <> c) by (intros ->; contradiction).
      rewrite keys_app. split; intros Hin; apply in_app_or in Hin;
        destruct Hin as [Hin | Hin]; try contradiction;
          apply scored_columns_keys in Hin; destruct Hin as [_ [Hk | Hk]].
      * apply Hne. exact (score_key_inj _ _ Hk).
      * exact (score_key_not_range _ _ Hk).
      * symmetry in Hk. exact (score_key_not_range _ _ Hk).
      * apply Hne. exact (range_key_inj _ _ Hk).
Qed.

Lemma process_loop_never_raises `{NumLib} (self : t) (rfm_data : DataFrame)
      (vc : dict VarConfig) :
  forall st, (forall e, st <> Raise e) ->
             forall e, fold_left (process_variable self rfm_data) vc st <> Raise e.
Proof.
  induction vc as [|item vc IH]; intros st Hst e; [apply Hst|].
  cbn [fold_left]. apply IH. intros e'.
  unfold process_variable. destruct st as [[d out]|e0|]; cbn [bind].
  - destruct (score_variable self rfm_data (fst item)) as [[scores value_ranges]|[]|];
      discriminate.
  - exfalso. exact (Hst e0 eq_refl).
  - discriminate.
Qed.

(** What the scoring of a variable returns, row by row. *)
Lemma score_variable_rows `{NumLib} (self : t) (rfm_data : DataFrame) (c : string)
      (scores : list Z) (value_ranges : list (option range)) :
  score_variable self rfm_data c = Ok (scores, value_ranges) ->
  exists breaks break_ranges col,
    calculate_breaks self rfm_data c = Ok (breaks, break_ranges) /\
    dict_get rfm_data c = Some col /\
    List.length scores = List.length col /\
    List.length value_ranges = List.length col /\
    forall i v,
      nth_error col i = Some v ->
      exists d found,
        digitize1 breaks v = Ok d /\
        nth_error scores i
        = Some (score_of_bucket (global_config self) (String.eqb (lower c) "recency")
                  (clip d (score_min (global_config self))
                        (num_categories (global_config self)))) /\
        get_range_for_value v break_ranges = Ok found /\
        nth_error value_ranges i = Some found.
Proof.
  unfold score_variable.
  destruct (calculate_breaks self rfm_data c) as [[breaks break_ranges]| |];
    try discriminate. cbn [bind].
  unfold calculate_score, dict_getitem.
  destruct (dict_get rfm_data c) as [col|]; [|discriminate]. cbn [bind].
  destruct (digitize col breaks) as [ds| |] eqn:Hd; try discriminate. cbn [bind].
  destruct (mapM _ col) as [vr| |] eqn:Hvr; try discriminate. cbn [bind].
  intros [= <- <-].
  destruct (digitize_nth _ _ Hd) as [_ [Hlen Hnth]].
  exists breaks, break_ranges, col. split; [reflexivity|]. split; [reflexivity|].
  split; [rewrite !length_map; exact Hlen|].
  split; [apply (mapM_length _ _ Hvr)|].
  intros i v Hi. destruct (Hnth i v Hi) as [d [Hd1 Hdi]].
  destruct (mapM_nth_error _ _ Hvr _ Hi) as [found [Hfound Hvi]].
  exists d, found. split; [exact Hd1|]. split; [|split; assumption].
  rewrite !nth_error_map, Hdi. reflexivity.
Qed.

Lemma dict_get_In {V : Type} (d : dict V) (k : string) (v : V) :
  dict_get d k = Some v -> In (k, v) d.
Proof.
  induction d as [|[k' v'] d IH]; simpl; [discriminate|].
  destruct (String.eqb k' k) eqn:E.
  - apply String.eqb_eq in E. intros [= ->]. left. rewrite E. reflexivity.
  - intros Hd. right. apply IH. exact Hd.
Qed.

Lemma dict_set_Forall {V : Type} (P : string * V -> Prop) (d : dict V) (k : string) (v : V) :
  Forall P d -> (forall k', P (k', v)) -> Forall P (dict_set d k v).
Proof.
  intros Hd Hv. induction Hd as [|[k' v'] d Hx Hd IH]; simpl.
  - constructor; [apply Hv | constructor].
  - destruct (String.eqb k' k); constructor; try assumption. apply Hv.
Qed.

(** In a table whose columns have one length, a scored variable has a
    score and a range for every row. *)
Lemma score_variable_lengths `{NumLib} (self : t) (rfm_data : DataFrame) (n : nat)
      (c : string) (scores : list Z) (value_ranges : list (option range)) :
  Forall (fun kv => List.length (snd kv) = n) rfm_data ->
  score_variable self rfm_data c = Ok (scores, value_ranges) ->
  List.length scores = n /\ List.length value_ranges = n.
Proof.
  intros Hwf Hok.
  destruct (@score_variable_rows _ self rfm_data c scores value_ranges Hok)
    as [breaks [break_ranges [col [_ [Hcol [Hs [Hr _]]]]]]].
  apply dict_get_In in Hcol. rewrite Forall_forall in Hwf.
  specialize (Hwf _ Hcol). cbn [snd] in Hwf. split; congruence.
Qed.

(** The arrays that the loop collects have the length of the table. *)
Lemma process_loop_lengths `{NumLib} (self : t) (rfm_data : DataFrame) (n : nat)
      (vc : dict VarConfig) :
  Forall (fun kv => List.length (snd kv) = n) rfm_data ->
  forall d out d' out',
    Forall (fun kv => column_length (snd kv) = n) d ->
    fold_left (process_variable self rfm_data) vc (Ok (d, out)) = Ok (d', out') ->
    Forall (fun kv => column_length (snd kv) = n) d'.
Proof.
  intros Hwf. induction vc as [|[c cfg] vc IH]; intros d out d' out' Hd Hfold.
  - injection Hfold as <- _. exact Hd.
  - cbn [fold_left] in Hfold. unfold process_variable at 2 in Hfold.
    cbn [bind fst] in Hfold.
    destruct (score_variable self rfm_data c) as [[scores value_ranges]|e|] eqn:Hsv.
    + destruct (@score_variable_lengths _ self rfm_data n c scores value_ranges Hwf Hsv)
        as [Hs Hr].
      refine (IH _ _ _ _ _ Hfold).
      apply dict_set_Forall; [apply dict_set_Forall; [exact Hd|]|];
        intros k'; cbn [snd column_length]; assumption.
    + destruct e; apply (IH _ _ _ _ Hd Hfold).
    + exfalso. clear - Hfold. induction vc as [|item vc IH]; [discriminate|].
      apply IH. exact Hfold.
Qed.

Lemma frame_of_uniform (d : dict column) (n : nat) :
  Forall (fun kv => column_length (snd kv) = n) d ->
  frame_of_dict d = Ok (match d with [] => [] | _ => range_index n end, d).
Proof.
  intros Hd. destruct d as [|[k c] rest]; [reflexivity|].
  inversion Hd as [|? ? Hc Hrest]; subst. cbn [snd] in *. unfold frame_of_dict.
  assert (Hall : forallb (fun kv => Nat.eqb (column_length (snd kv)) (column_length c))
                         rest = true).
  { apply forallb_forall. intros kv Hin. rewrite Forall_forall in Hrest.
    apply Nat.eqb_eq. apply Hrest. exact Hin. }
  rewrite Hall. reflexivity.
Qed.

Lemma index_eqb_refl (index : Index) : index_eqb index index = true.
Proof.
  unfold index_eqb. rewrite Nat.eqb_refl. cbn [andb].
  induction index as [|l index IH]; [reflexivity|].
  cbn [combine forallb fst snd]. rewrite Z.eqb_refl. exact IH.
Qed.

(** C7, as amended. No exception raised while scoring a variable leaves
    [process_rfm_data]: on a table whose columns have the length of its
    index, all it can raise is the [InvalidIndexError] of [pd.concat], on
    row labels that repeat. On a table with the default row labels, when
    no variable runs into NaN, it returns the table followed, in the order
    of the configuration, by the score and range columns of the variables
    whose scoring returned, each with the score and the range of every
    row; a variable whose scoring raised (a missing configuration or
    column, or any other exception) adds no column and one printed
    line. *)
Theorem failing_variable_is_skipped `{NumLib}
        (self : t) (index : Index) (rfm_data : DataFrame) :
  Forall (fun kv => List.length (snd kv) = List.length index) rfm_data ->
  (forall e,
      process_rfm_data self index rfm_data = Raise e ->
      has_repeat index = true /\ exists msg, e = InvalidIndexError msg)
  /\ (NoDup (keys (variables_config self)) ->
      (forall c, In c (keys (variables_config self)) ->
                 score_variable self rfm_data c <> NaNResult) ->
      index = range_index (List.length index) ->
      exists added out,
        process_rfm_data self index rfm_data
        = Ok ((map (fun kv => (fst kv, NumCol (snd kv))) rfm_data ++ added)%list, out) /\
        added = flat_map (fun kv => scored_columns (fst kv)
                                      (score_variable self rfm_data (fst kv)))
                         (variables_config self) /\
        out = flat_map (fun kv => skip_message (fst kv)
                                    (score_variable self rfm_data (fst kv)))
                       (variables_config self) /\
        (forall c scores value_ranges,
            In c (keys (variables_config self)) ->
            score_variable self rfm_data c = Ok (scores, value_ranges) ->
            In (c ++ "_score", ScoreCol scores) added /\
            In (c ++ "_range", RangeCol value_ranges) added /\
            exists breaks break_ranges col,
              calculate_breaks self rfm_data c = Ok (breaks, break_ranges) /\
              dict_get rfm_data c = Some col /\
              List.length scores = List.length index /\
              List.length value_ranges = List.length index /\
              forall i v,
                nth_error col i = Some v ->
                exists d found,
                  digitize1 breaks v = Ok d /\
                  nth_error scores i
                  = Some (score_of_bucket (global_config self)
                            (String.eqb (lower c) "recency")
                            (clip d (score_min (global_config self))
                                  (num_categories (global_config self)))) /\
                  get_range_for_value v break_ranges = Ok found /\
                  nth_error value_ranges i = Some found) /\
        (forall c e,
            In c (keys (variables_config self)) ->
            score_variable self rfm_data c = Raise e ->
            ~ In (c ++ "_score") (keys added) /\
            ~ In (c ++ "_range") (keys added) /\
            exists line, skip_message c (Raise e) = [line] /\ In line out)).
Proof.
  intros Hwf. split.
  - intros e. unfold process_rfm_data.
    pose proof (@process_loop_never_raises _ self rfm_data (variables_config self)
                  (Ok ([], [])) ltac:(discriminate)) as Hloop.
    destruct (fold_left _ _ _) as [[d out]|e0|] eqn:Hfold; cbn [bind];
      [|intros _; exfalso; exact (Hloop e0 eq_refl)|discriminate].
    assert (Hd : Forall (fun kv => column_length (snd kv) = List.length index) d).
    { apply (@process_loop_lengths _ self rfm_data _ (variables_config self) Hwf
               [] [] d out (Forall_nil _) Hfold). }
    rewrite (frame_of_uniform Hd). cbn [bind]. unfold concat_columns. cbn [fst snd].
    destruct (index_eqb index _); [discriminate|].
    destruct d as [|kv d]; [discriminate|].
    destruct (has_repeat index); [|].
    + intros [= <-]. split; [reflexivity|]. eexists. reflexivity.
    + destruct (_ && _); discriminate.
  - intros Hnodup Hnan Hindex.
    pose proof (@process_loop _ self rfm_data (variables_config self) Hnodup Hnan [] []
                  (fun c _ => conj (fun Hin => Hin) (fun Hin => Hin))) as Hloop.
    cbn [app] in Hloop.
    set (added := flat_map (fun kv => scored_columns (fst kv)
                                        (score_variable self rfm_data (fst kv)))
                           (variables_config self)) in *.
    assert (Hd : Forall (fun kv => column_length (snd kv) = List.length index) added).
    { apply (@process_loop_lengths _ self rfm_data _ (variables_config self) Hwf
               [] [] added _ (Forall_nil _) Hloop). }
    exists added. eexists. split.
    { unfold process_rfm_data. unfold dict, loop_state in *. rewrite Hloop. cbn [bind].
      pose proof (frame_of_uniform Hd) as Hframe. unfold dict in *. rewrite Hframe.
      cbn [bind]. unfold concat_columns. cbn [fst snd].
      destruct added as [|kv rest].
      - destruct (index_eqb index []); cbn [bind]; rewrite ?app_nil_r; reflexivity.
      - rewrite <- Hindex, index_eqb_refl. reflexivity. }
    split; [reflexivity|]. split; [reflexivity|]. split.
    + intros c scores value_ranges Hc Hok.
      assert (Hc' := Hc).
      unfold keys in Hc. apply in_map_iff in Hc. destruct Hc as [[c' cfg] [<- Hin]].
      cbn [fst] in *.
      split; [|split].
      * apply in_flat_map; exists (c', cfg); split; [exact Hin|].
        cbn [fst]. rewrite Hok. left. reflexivity.
      * apply in_flat_map; exists (c', cfg); split; [exact Hin|].
        cbn [fst]. rewrite Hok. right. left. reflexivity.
      * destruct (@score_variable_rows _ self rfm_data c' scores value_ranges Hok)
          as [breaks [break_ranges [col [Hcb [Hcol [Hs [Hr Hrows]]]]]]].
        destruct (@score_variable_lengths _ self rfm_data _ c' scores value_ranges Hwf Hok)
          as [Hs' Hr'].
        exists breaks, break_ranges, col. repeat split; assumption.
    + intros c e Hc Hraise. split; [|split].
      * intros Hin. unfold keys in Hin. apply in_map_iff in Hin.
        destruct Hin as [[k v] [Hk Hin]]. cbn [fst] in Hk. subst k.
        apply in_flat_map in Hin. destruct Hin as [[c' cfg] [_ Hin]]. cbn [fst] in Hin.
        assert (Hkey : In (c ++ "_score") (keys (scored_columns c'
                                                   (score_variable self rfm_data c')))).
        { unfold keys. apply in_map_iff. exists (c ++ "_score", v). split;
            [reflexivity | exact Hin]. }
        apply scored_columns_keys in Hkey. destruct Hkey as [[s [r Hok]] [Hk | Hk]].
        -- apply score_key_inj in Hk. subst c'. congruence.
        -- exact (score_key_not_range _ _ Hk).
      * intros Hin. unfold keys in Hin. apply in_map_iff in Hin.
        destruct Hin as [[k v] [Hk Hin]]. cbn [fst] in Hk. subst k.
        apply in_flat_map in Hin. destruct Hin as [[c' cfg] [_ Hin]]. cbn [fst] in Hin.
        assert (Hkey : In (c ++ "_range") (keys (scored_columns c'
                                                   (score_variable self rfm_data c')))).
        { unfold keys. apply in_map_iff. exists (c ++ "_range", v). split;
            [reflexivity | exact Hin]. }
        apply scored_columns_keys in Hkey. destruct Hkey as [[s [r Hok]] [Hk | Hk]].
        -- symmetry in Hk. exact (score_key_not_range _ _ Hk).
        -- apply range_key_inj in Hk. subst c'. congruence.
      * assert (Hline : exists line, skip_message c (Raise e) = [line])
          by (destruct e; eexists; reflexivity).
        destruct Hline as [line Hline]. exists line. split; [exact Hline|].
        unfold keys in Hc. apply in_map_iff in Hc. destruct Hc as [[c' cfg] [<- Hin]].
        apply in_flat_map. exists (c', cfg). split; [exact Hin|].
        cbn [fst] in *. rewrite Hraise, Hline. left. reflexivity.
Qed.

Lemma failing_variable_is_skipped_witness :
  NoDup (keys (variables_config processing_mixed)) /\
  exists added out,
    @process_rfm_data Reference.numpy_recent processing_mixed (range_index 10) table_mixed
    = Ok ((map (fun kv => (fst kv, NumCol (snd kv))) table_mixed ++ added)%list, out) /\
    added = [("Monetary_score", ScoreCol [1; 1; 2; 2; 3; 3; 4; 4; 5; 5]%Z);
             ("Monetary_range", RangeCol (snd scores_A))] /\
    out = ["Error procesando la variable 'Frequency': Método de cálculo de breaks no soportado: kmeans";
           "Configuración no encontrada para la variable: Visits"].
Proof.
  assert (Hnodup : NoDup (keys (variables_config processing_mixed))).
  { repeat constructor; simpl; intuition discriminate. }
  assert (Hnan : forall c, In c (keys (variables_config processing_mixed)) ->
                           @score_variable Reference.numpy_recent processing_mixed
                                           table_mixed c <> NaNResult).
  { intros c [<- | [<- | [<- | []]]]; vm_compute; discriminate. }
  assert (Hwf : Forall (fun kv : string * list Q =>
                          List.length (snd kv) = List.length (range_index 10))
                       table_mixed).
  { repeat constructor. }
  split; [exact Hnodup|].
  destruct (proj2 (@failing_variable_is_skipped Reference.numpy_recent processing_mixed
                     (range_index 10) table_mixed Hwf) Hnodup Hnan eq_refl)
    as [added [out [Heq [Hadded [Hout _]]]]].
  exists added, out. split; [exact Heq|].
  split; [rewrite Hadded | rewrite Hout]; vm_compute; reflexivity.
Defined.

(** C7 as stated fails: on the ten customers of the mixed scenario with a
    row label that comes twice, Monetary is scored and the two other
    variables are skipped, yet the call raises [InvalidIndexError] and no
    table is returned. *)
Lemma repeated_labels_abort :
  @score_variable Reference.numpy_recent processing_mixed table_mixed "Monetary"
  = Ok ([1; 1; 2; 2; 3; 3; 4; 4; 5; 5]%Z, snd scores_A) /\
  Forall (fun kv : string * list Q => List.length (snd kv) = List.length index_repeated)
         table_mixed /\
  @process_rfm_data Reference.numpy_recent processing_mixed index_repeated table_mixed
  = Raise (InvalidIndexError "Reindexing only valid with uniquely valued Index objects").
Proof.
  split; [vm_compute; reflexivity|]. split; [repeat constructor|].
  vm_compute. reflexivity.
Qed.

End PipelineFacts.

(** ** More on limits, cut-points and buckets *)

Module MoreProcessingFacts.

Import Numpy NumpyFacts RFMProcessing Shapes Scenarios MoreScenarios.
Import BreakFacts PercentileBreakFacts ScoreFacts.
Local Open Scope string_scope.

(** X1. What [calculate_outliers_limits] raises: [KeyError] with its own
    message for a variable without configuration, [KeyError] for a column
    or a method key that is missing, [ValueError] for a method other than
    the three, and numpy's [ValueError] for a lower percentile outside
    0..100. *)
Theorem outlier_limits_errors `{NumLib} (self : t) (df : DataFrame) (column : string) :
  (dict_get (variables_config self) column = None ->
   calculate_outliers_limits self df column
   = Raise (KeyError ("La columna '" ++ column ++ "' no está configurada en el YAML.")))
  /\ (forall cfg,
         dict_get (variables_config self) column = Some cfg ->
         dict_get df column = None ->
         calculate_outliers_limits self df column = Raise (KeyError column))
  /\ (forall cfg col,
         dict_get (variables_config self) column = Some cfg ->
         dict_get df column = Some col ->
         (outlier_method cfg = None ->
          calculate_outliers_limits self df column = Raise (KeyError "outlier_method"))
         /\ (forall method,
                outlier_method cfg = Some method ->
                method <> "IQR" -> method <> "std_dev" -> method <> "percentiles" ->
                calculate_outliers_limits self df column
                = Raise (ValueError ("Método de manejo de outliers no soportado: "
                                       ++ method)))
         /\ (outlier_method cfg = Some "percentiles" ->
             ~ (0 <= get_default (percentile_lower cfg) 5
                /\ get_default (percentile_lower cfg) 5 <= 100) ->
             calculate_outliers_limits self df column
             = Raise (ValueError "Percentiles must be in the range [0, 100]"))).
Proof.
  unfold calculate_outliers_limits, dict_getitem. split; [|split].
  - intros Hnone. rewrite Hnone. reflexivity.
  - intros cfg Hcfg Hcol. rewrite Hcfg, Hcol. reflexivity.
  - intros cfg col Hcfg Hcol. rewrite Hcfg, Hcol. cbn [bind]. split; [|split].
    + intros Hm. rewrite Hm. reflexivity.
    + intros method Hm H1 H2 H3. rewrite Hm. cbn [getitem bind].
      apply String.eqb_neq in H1, H2, H3. rewrite H1, H2, H3. reflexivity.
    + intros Hm Hout. rewrite Hm. cbn [getitem bind].
      change (String.eqb "percentiles" "IQR") with false.
      change (String.eqb "percentiles" "std_dev") with false.
      change (String.eqb "percentiles" "percentiles") with true. cbn iota.
      assert (Hrange : percentile_in_range (get_default (percentile_lower cfg) 5) = false).
      { unfold percentile_in_range.
        destruct (Qle_bool 0 (get_default (percentile_lower cfg) 5)) eqn:E0;
          [|reflexivity].
        destruct (Qle_bool (get_default (percentile_lower cfg) 5) 100) eqn:E1;
          [|reflexivity].
        exfalso. apply Hout. split; apply Qle_bool_iff; assumption. }
      unfold percentile1, percentile. cbn [forallb]. rewrite Hrange. reflexivity.
Qed.

Lemma outlier_limits_errors_witness :
  @calculate_outliers_limits Reference.numpy_recent processing_A table_A "Visits"
  = Raise (KeyError "La columna 'Visits' no está configurada en el YAML.")
  /\ @calculate_outliers_limits Reference.numpy_recent processing_mixed table_mixed "Visits"
     = Raise (KeyError "Visits").
Proof.
  split.
  - apply (proj1 (@outlier_limits_errors Reference.numpy_recent processing_A table_A
                    "Visits")). reflexivity.
  - apply (proj1 (proj2 (@outlier_limits_errors Reference.numpy_recent processing_mixed
                           table_mixed "Visits")) config_A); reflexivity.
Defined.

(** X2. With the method [std_dev] and a single customer the standard
    deviation is NaN, both limits are NaN, and no value lies within them:
    the sample handed on to the cut-points is empty. *)
Theorem single_customer_std_dev `{NumLib}
        (self : t) (df : DataFrame) (column : string) (cfg : VarConfig) (x : Q) :
  dict_get (variables_config self) column = Some cfg ->
  outlier_method cfg = Some "std_dev" ->
  dict_get df column = Some [x] ->
  calculate_outliers_limits self df column
  = Ok (Build_OutlierLimits None None (Some None) (Some x) (Some x))
  /\ filter (within_limits None None) [x] = [].
Proof.
  intros Hcfg Hm Hcol. split; [|reflexivity].
  unfold calculate_outliers_limits, dict_getitem. rewrite Hcfg, Hcol. cbn [bind].
  rewrite Hm. reflexivity.
Qed.

Lemma single_customer_std_dev_witness :
  @calculate_outliers_limits Reference.numpy_recent processing_std table_single "Monetary"
  = Ok (Build_OutlierLimits None None (Some None) (Some 50) (Some 50))
  /\ filter (within_limits None None) [50] = [].
Proof.
  apply (@single_customer_std_dev Reference.numpy_recent processing_std table_single
           "Monetary" config_std 50); reflexivity.
Defined.

Lemma removelast_length {A : Type} (l : list A) :
  List.length (removelast l) = Nat.pred (List.length l).
Proof.
  induction l as [|x l IH]; [reflexivity|].
  destruct l as [|y l]; [reflexivity|].
  change (removelast (x :: y :: l)) with (x :: removelast (y :: l)).
  cbn [List.length]. rewrite IH. reflexivity.
Qed.

Lemma slice_length {A : Type} (l : list A) :
  List.length (slice_1_m1 l) = (List.length l - 2)%nat.
Proof.
  unfold slice_1_m1. rewrite removelast_length. destruct l; simpl; lia.
Qed.

Lemma linspace_length (start stop : Q) (num : Z) (grid : list Q) :
  (0 <= num)%Z -> linspace start stop num = Ok grid -> List.length grid = Z.to_nat num.
Proof.
  intros Hnum. unfold linspace.
  destruct (num <? 0)%Z eqn:E; [apply Z.ltb_lt in E; lia|].
  destruct (num =? 1)%Z eqn:E1.
  - apply Z.eqb_eq in E1. subst. intros [= <-]. reflexivity.
  - intros [= <-]. rewrite length_map, length_seq. reflexivity.
Qed.

(** What [calculate_breaks] computes with the method [percentiles] when
    numpy gives no finite numbers for a percentile of zero samples. *)
Lemma percentile_breaks_interior `{NumLib} (self : t) (df : DataFrame) (column : string)
      (cfg : VarConfig) (breaks : list Q) (ranges : list range) :
  (forall q l, lib_percentile_empty q <> Ok l) ->
  dict_get (variables_config self) column = Some cfg ->
  breaks_method cfg = Some "percentiles" ->
  calculate_breaks self df column = Ok (breaks, ranges) ->
  exists lim col grid mn mx,
    calculate_outliers_limits self df column = Ok lim /\
    dict_get df column = Some col /\
    linspace 0 100 (num_categories (global_config self) + 1) = Ok grid /\
    filter (within_limits (LI lim) (LS lim)) col <> [] /\
    series_min col = Some mn /\ series_max col = Some mx /\
    breaks = (mn - eps)
               :: (map (fun p => quantile_sorted
                                   (sort (filter (within_limits (LI lim) (LS lim)) col))
                                   (p / 100))
                       (slice_1_m1 grid) ++ [mx + eps])%list.
Proof.
  intros Hlib Hcfg Hmethod Hcb.
  unfold calculate_breaks, dict_getitem in Hcb. rewrite Hcfg in Hcb. cbn [bind] in Hcb.
  destruct (calculate_outliers_limits self df column) as [lim| |] eqn:Hlim;
    try discriminate. cbn [bind] in Hcb.
  destruct (dict_get df column) as [col|] eqn:Hcol; [|discriminate]. cbn [bind] in Hcb.
  destruct (outlier_limits_min_max _ _ _ Hlim Hcol) as [Hmin Hmax].
  rewrite Hmethod in Hcb. cbn [getitem bind] in Hcb.
  change (String.eqb "percentiles" "percentiles") with true in Hcb. cbn iota in Hcb.
  destruct (linspace 0 100 _) as [grid| |] eqn:Hgrid; try discriminate.
  cbn [bind] in Hcb.
  destruct (percentile _ (slice_1_m1 grid)) as [interior| |] eqn:Hperc; try discriminate.
  cbn [bind] in Hcb.
  destruct (concatenate_then_ranges _ _ _ Hcb) as [mn [mx [Hmn [Hmx [Hb _]]]]].
  rewrite Hmin in Hmn. rewrite Hmax in Hmx.
  assert (Hne : filter (within_limits (LI lim) (LS lim)) col <> []).
  { intros Hnil. rewrite Hnil in Hperc. unfold percentile in Hperc.
    destruct (negb (forallb percentile_in_range (slice_1_m1 grid))); [discriminate|].
    exact (Hlib _ _ Hperc). }
  apply (percentile_ok_nonempty _ Hne) in Hperc. subst interior.
  exists lim, col, grid, mn, mx. repeat split; assumption.
Qed.

(** X3. With the method [percentiles] and at least one category, a break
    set has [num_categories + 1] cut-points and [num_categories] ranges. *)
Theorem percentile_breaks_count `{NumLib} (self : t) (df : DataFrame) (column : string)
        (cfg : VarConfig) (breaks : list Q) (ranges : list range) :
  (forall q l, lib_percentile_empty q <> Ok l) ->
  dict_get (variables_config self) column = Some cfg ->
  breaks_method cfg = Some "percentiles" ->
  (1 <= num_categories (global_config self))%Z ->
  calculate_breaks self df column = Ok (breaks, ranges) ->
  Z.of_nat (List.length breaks) = (num_categories (global_config self) + 1)%Z /\
  Z.of_nat (List.length ranges) = num_categories (global_config self).
Proof.
  intros Hlib Hcfg Hmethod Hn Hcb.
  destruct (@percentile_breaks_interior _ self df column cfg breaks ranges Hlib Hcfg Hmethod Hcb)
    as [lim [col [grid [mn [mx [_ [_ [Hgrid [_ [_ [_ Hb]]]]]]]]]]].
  destruct (calculate_breaks_shape _ _ _ Hcb)
    as [col' [mn' [mx' [interior [_ [_ [_ [Hb' Hr]]]]]]]].
  assert (Hlen : List.length breaks
                 = S (Z.to_nat (num_categories (global_config self)))).
  { rewrite Hb. cbn [List.length]. rewrite length_app, length_map, slice_length.
    assert (Hg : List.length grid
                 = Z.to_nat (num_categories (global_config self) + 1)).
    { apply (@linspace_length 0 100 _ grid); [lia|exact Hgrid]. }
    rewrite Hg. cbn [List.length]. lia. }
  split; [lia|].
  rewrite Hr, separated_ranges_length.
  rewrite Hb' in Hlen. cbn [List.length] in Hlen. lia.
Qed.

Lemma percentile_breaks_count_witness :
  Z.of_nat (List.length (fst breaks_A)) = (5 + 1)%Z /\
  Z.of_nat (List.length (snd breaks_A)) = 5%Z.
Proof.
  apply (@percentile_breaks_count Reference.numpy_recent processing_A table_A "Monetary"
           config_A (fst breaks_A) (snd breaks_A)).
  - discriminate.
  - reflexivity.
  - reflexivity.
  - vm_compute. discriminate.
  - vm_compute. reflexivity.
Defined.

End MoreProcessingFacts.

(** ** Buckets against cut-points *)

Module MoreBucketFacts.

Import Numpy NumpyFacts RFMProcessing Shapes Scenarios MoreScenarios.
Import BreakFacts BreakSetFacts RangeLookupFacts PercentileBreakFacts ScoreFacts.
Import MoreProcessingFacts.
Local Open Scope string_scope.

Lemma searchsorted_right_cons (b : Q) (a : list Q) (v : Q) :
  searchsorted_right (b :: a) v
  = ((if Qle_bool b v then 1 else 0) + searchsorted_right a v)%Z.
Proof.
  unfold searchsorted_right. cbn [filter].
  destruct (Qle_bool b v); cbn [List.length]; lia.
Qed.

Lemma searchsorted_right_app (a a' : list Q) (v : Q) :
  searchsorted_right (a ++ a') v = (searchsorted_right a v + searchsorted_right a' v)%Z.
Proof.
  unfold searchsorted_right. rewrite filter_app, length_app. lia.
Qed.

Lemma searchsorted_right_none (a : list Q) (v : Q) :
  (forall y, In y a -> v < y) -> searchsorted_right a v = 0%Z.
Proof.
  intros Hall. induction a as [|b a IH]; [reflexivity|].
  rewrite searchsorted_right_cons, IH by (intros y Hy; apply Hall; right; exact Hy).
  assert (Hb : Qle_bool b v = false).
  { destruct (Qle_bool b v) eqn:E; [|reflexivity].
    apply Qle_bool_iff in E. specialize (Hall b (or_introl eq_refl)). lra. }
  rewrite Hb. reflexivity.
Qed.

Lemma searchsorted_right_all (a : list Q) (v : Q) :
  (forall y, In y a -> y <= v) -> searchsorted_right a v = Z.of_nat (List.length a).
Proof.
  intros Hall. induction a as [|b a IH]; [reflexivity|].
  rewrite searchsorted_right_cons, IH by (intros y Hy; apply Hall; right; exact Hy).
  assert (Hb : Qle_bool b v = true) by (apply Qle_bool_iff; apply Hall; left; reflexivity).
  rewrite Hb. cbn [List.length]. lia.
Qed.

Lemma searchsorted_right_some (a : list Q) (v : Q) :
  (0 < searchsorted_right a v)%Z -> exists y, In y a /\ y <= v.
Proof.
  unfold searchsorted_right.
  destruct (filter (fun b => Qle_bool b v) a) as [|y l] eqn:E; [simpl; lia|].
  intros _. assert (Hin : In y (filter (fun b => Qle_bool b v) a))
    by (rewrite E; left; reflexivity).
  apply filter_In in Hin. destruct Hin as [Hin Hle].
  exists y. split; [exact Hin | apply Qle_bool_iff; exact Hle].
Qed.

(** A value from the first cut-point up to below the last one counts at
    least the first and at most all but the last. *)
Lemma searchsorted_right_inside (b : Q) (interior : list Q) (h v : Q) :
  b <= v -> v < h ->
  (1 <= searchsorted_right (b :: interior ++ [h]) v
   <= Z.of_nat (List.length (interior ++ [h])))%Z.
Proof.
  intros Hb Hh. rewrite searchsorted_right_cons, searchsorted_right_app.
  apply Qle_bool_iff in Hb. rewrite Hb.
  rewrite (@searchsorted_right_none [h] v)
    by (intros y [<- | []]; exact Hh).
  pose proof (searchsorted_right_bounds interior v).
  rewrite length_app. cbn [List.length]. lia.
Qed.

Lemma monotonicity_values (bins : list Q) :
  monotonicity bins = 1%Z \/ monotonicity bins = 0%Z \/ monotonicity bins = (-1)%Z.
Proof.
  unfold monotonicity. destruct bins as [|first rest]; [left; reflexivity|].
  destruct (skip_repeated first rest) as [|next rest']; [left; reflexivity|].
  destruct (Qlt_bool first next).
  - destruct (never_decreases next rest'); auto.
  - destruct (never_increases next rest'); auto.
Qed.

Lemma skip_repeated_split (first : Q) (a : list Q) :
  exists pre,
    a = (pre ++ skip_repeated first a)%list /\
    Forall (fun y => y == first) pre /\
    match skip_repeated first a with
    | [] => True
    | x :: _ => ~ x == first
    end.
Proof.
  induction a as [|y a IH].
  - exists []. repeat split. constructor.
  - cbn [skip_repeated]. destruct (Qeq_bool y first) eqn:E.
    + destruct IH as [pre [Hpre [Hall Hhead]]].
      exists (y :: pre). split; [simpl; f_equal; exact Hpre|].
      split; [|exact Hhead].
      constructor; [apply Qeq_bool_iff; exact E | exact Hall].
    + exists []. split; [reflexivity|]. split; [constructor|].
      apply Qeq_bool_neq. exact E.
Qed.

Lemma never_decreases_sorted (a : list Q) :
  forall prev, never_decreases prev a = true <-> StronglySorted Qle (prev :: a).
Proof.
  induction a as [|x a IH]; intros prev.
  - split; [intros _; repeat constructor | reflexivity].
  - cbn [never_decreases]. split.
    + destruct (Qlt_bool x prev) eqn:E; [discriminate|].
      apply Qlt_bool_false in E. intros Hn. apply IH in Hn.
      constructor; [exact Hn|]. constructor; [exact E|].
      inversion Hn as [|? ? _ Hall]; subst.
      eapply Forall_impl; [|exact Hall]. intros y Hy. cbv beta in Hy. lra.
    + intros Hs. inversion Hs as [|? ? Hs' Hall]; subst.
      inversion Hall as [|? ? Hpx _]; subst.
      assert (E : Qlt_bool x prev = false) by (apply Qlt_bool_false; exact Hpx).
      rewrite E. apply IH. exact Hs'.
Qed.

Lemma sorted_app (l1 l2 : list Q) :
  StronglySorted Qle l1 -> StronglySorted Qle l2 ->
  (forall x y, In x l1 -> In y l2 -> x <= y) ->
  StronglySorted Qle (l1 ++ l2).
Proof.
  intros H1 H2 Hle. induction H1 as [|x l1 Hs IH Hall]; [exact H2|].
  simpl. constructor.
  - apply IH. intros a b Ha Hb. apply Hle; [right; exact Ha | exact Hb].
  - apply Forall_app. split; [exact Hall|].
    apply Forall_forall. intros y Hy. apply Hle; [left; reflexivity | exact Hy].
Qed.

Lemma sorted_repeated (c : Q) (l : list Q) :
  Forall (fun y => y == c) l -> StronglySorted Qle l.
Proof.
  induction 1 as [|x l Hx Hall IH]; constructor; [exact IH|].
  eapply Forall_impl; [|exact Hall]. intros y Hy. cbv beta in Hy. lra.
Qed.

(** Cut-points that [np.digitize] takes for ascending are sorted, and
    sorted cut-points are taken for ascending. *)
Lemma monotonicity_ascending (bins : list Q) :
  monotonicity bins = 1%Z <-> StronglySorted Qle bins.
Proof.
  unfold monotonicity. destruct bins as [|first rest];
    [split; [constructor | reflexivity]|].
  destruct (skip_repeated_split first rest) as [pre [Hpre [Hall Hhead]]].
  destruct (skip_repeated first rest) as [|next rest'].
  - rewrite app_nil_r in Hpre. subst pre. split; [|reflexivity].
    intros _. apply (@sorted_repeated first). constructor; [reflexivity | exact Hall].
  - split.
    + destruct (Qlt_bool first next) eqn:E;
        [|destruct (never_increases next rest'); discriminate].
      destruct (never_decreases next rest') eqn:En; [|discriminate].
      intros _. apply Qlt_bool_iff in E. apply never_decreases_sorted in En.
      rewrite Hpre. change (first :: pre ++ next :: rest')%list
        with ((first :: pre) ++ next :: rest')%list.
      apply sorted_app.
      * apply (@sorted_repeated first). constructor; [reflexivity | exact Hall].
      * exact En.
      * intros x y Hx Hy.
        assert (Hxf : x == first).
        { destruct Hx as [<- | Hx]; [reflexivity|].
          rewrite Forall_forall in Hall. apply Hall. exact Hx. }
        pose proof (sorted_head_le En Hy). lra.
    + intros Hs.
      assert (Hfn : first <= next).
      { apply (@sorted_head_le first rest Hs). right. rewrite Hpre. apply in_or_app.
        right. left. reflexivity. }
      assert (E : Qlt_bool first next = true) by (apply Qlt_bool_iff; lra).
      rewrite E.
      assert (Hs' : StronglySorted Qle (next :: rest')).
      { rewrite Hpre in Hs. clear - Hs.
        inversion Hs as [|? ? Hs1 _]; subst. clear Hs.
        induction pre as [|p pre IH]; [exact Hs1|].
        apply IH. inversion Hs1; assumption. }
      apply never_decreases_sorted in Hs'. rewrite Hs'. reflexivity.
Qed.

(** Whenever [np.digitize] accepts the cut-points of a break set, they
    are ascending. *)
Lemma accepted_breaks_sorted `{NumLib} (self : t) (df : DataFrame) (column : string)
      (breaks : list Q) (ranges : list range) :
  calculate_breaks self df column = Ok (breaks, ranges) ->
  monotonicity breaks <> 0%Z ->
  monotonicity breaks = 1%Z /\ StronglySorted Qle breaks.
Proof.
  intros Hcb Hm.
  destruct (calculate_breaks_shape _ _ _ Hcb)
    as [col [mn [mx [interior [_ [Hmn [Hmx [Hb _]]]]]]]].
  pose proof (series_min_le_max _ Hmn Hmx) as Hminmax.
  assert (Hup : monotonicity breaks <> (-1)%Z).
  { rewrite Hb. apply monotonicity_not_descending. unfold eps. lra. }
  assert (H1 : monotonicity breaks = 1%Z).
  { destruct (monotonicity_values breaks) as [E | [E | E]];
      [exact E | contradiction | contradiction]. }
  split; [exact H1 | apply monotonicity_ascending; exact H1].
Qed.

(** X4. A value of the column the cut-points were computed from always
    falls in a bucket from 1 to the number of ranges, so clipping leaves
    it alone when [score_min] is at most 1 and there are no more ranges
    than categories. *)
Theorem column_values_keep_their_bucket `{NumLib}
        (self : t) (df : DataFrame) (column : string) (col : list Q)
        (breaks : list Q) (ranges : list range) (v : Q) (d : Z) :
  calculate_breaks self df column = Ok (breaks, ranges) ->
  dict_get df column = Some col ->
  In v col ->
  digitize1 breaks v = Ok d ->
  (1 <= d <= Z.of_nat (List.length ranges))%Z /\
  ((score_min (global_config self) <= 1)%Z ->
   (Z.of_nat (List.length ranges) <= num_categories (global_config self))%Z ->
   clip d (score_min (global_config self)) (num_categories (global_config self)) = d).
Proof.
  intros Hcb Hcol Hin Hd.
  destruct (calculate_breaks_shape _ _ _ Hcb)
    as [col' [mn [mx [interior [Hcol' [Hmn [Hmx [Hb Hr]]]]]]]].
  rewrite Hcol in Hcol'. injection Hcol' as <-.
  pose proof (series_min_le _ Hmn _ Hin) as Hlo.
  pose proof (series_max_ge _ Hmx _ Hin) as Hhi.
  assert (Hup : monotonicity breaks <> (-1)%Z).
  { rewrite Hb. apply monotonicity_not_descending. unfold eps. lra. }
  unfold digitize1 in Hd.
  destruct (monotonicity breaks =? 0)%Z; [discriminate|].
  apply Z.eqb_neq in Hup. rewrite Hup in Hd. injection Hd as <-.
  assert (Hbucket : (1 <= searchsorted_right breaks v
                     <= Z.of_nat (List.length ranges))%Z).
  { rewrite Hb, Hr, separated_ranges_length.
    apply searchsorted_right_inside; unfold eps; lra. }
  split; [exact Hbucket|]. intros Hmin Hcat. unfold clip. lia.
Qed.

Lemma column_values_keep_their_bucket_witness :
  (1 <= 3 <= Z.of_nat (List.length (snd breaks_A)))%Z /\
  ((score_min (global_config processing_A) <= 1)%Z ->
   (Z.of_nat (List.length (snd breaks_A))
    <= num_categories (global_config processing_A))%Z ->
   clip 3 (score_min (global_config processing_A))
        (num_categories (global_config processing_A)) = 3%Z).
Proof.
  apply (@column_values_keep_their_bucket Reference.numpy_recent processing_A table_A
           "Monetary" column_A (fst breaks_A) (snd breaks_A) 50 3).
  - vm_compute. reflexivity.
  - reflexivity.
  - vm_compute. tauto.
  - vm_compute. reflexivity.
Defined.

End MoreBucketFacts.

(** ** Scores against ranges *)

Module MoreScoreFacts.

Import Numpy NumpyFacts RFMProcessing Shapes Scenarios MoreScenarios.
Import BreakFacts BreakSetFacts RangeLookupFacts PercentileBreakFacts ScoreFacts.
Import MoreProcessingFacts MoreBucketFacts.
Local Open Scope string_scope.

(** The ranges of a column, row by row. *)
Lemma calculate_score_range_rows (self : t) (df : DataFrame) (column : string)
      (breaks : list Q) (break_ranges : list range) (inverse : bool)
      (scores : list Z) (value_ranges : list (option range)) (col : list Q) :
  dict_get df column = Some col ->
  calculate_score self df column breaks break_ranges inverse = Ok (scores, value_ranges) ->
  List.length value_ranges = List.length col /\
  forall i v, nth_error col i = Some v ->
    exists found, get_range_for_value v break_ranges = Ok found /\
                  nth_error value_ranges i = Some found.
Proof.
  intros Hcol. unfold calculate_score, dict_getitem. rewrite Hcol. cbn [bind].
  destruct (digitize col breaks) as [ds| |]; try discriminate. cbn [bind].
  destruct (mapM _ col) as [vr| |] eqn:Hvr; try discriminate. cbn [bind].
  intros [= _ <-]. split.
  - apply (mapM_length _ _ Hvr).
  - intros i v Hi. apply (mapM_nth_error _ _ Hvr _ Hi).
Qed.

Lemma fits_int64_bounds (z : Z) :
  fits_int64 z = true -> (int64_min <= z <= int64_max)%Z.
Proof.
  unfold fits_int64. intros Hz. apply andb_true_iff in Hz.
  destruct Hz as [Hlo Hhi]. apply Z.leb_le in Hlo, Hhi. lia.
Qed.

(** The bottom bucket scores [score_min], or [score_max] in inverse
    order, whatever the step. *)
Lemma score_of_bottom_bucket (g : GlobalConfig) (inverse : bool) :
  score_of_bucket g inverse (score_min g)
  = if inverse then score_max g else score_min g.
Proof.
  unfold score_of_bucket, int64_op. cbv zeta. rewrite Z.sub_diag.
  destruct (settings_fit g inverse) eqn:Hfit.
  - change (wrap64 0) with 0%Z. rewrite Z.mul_0_l. change (wrap64 0) with 0%Z.
    unfold settings_fit in Hfit. rewrite !andb_true_iff in Hfit.
    destruct Hfit as [[[Hmin _] _] Hmax].
    destruct inverse.
    + rewrite Z.sub_0_r. apply wrap64_small, fits_int64_bounds. exact Hmax.
    + rewrite Z.add_0_r. apply wrap64_small, fits_int64_bounds. exact Hmin.
  - destruct inverse; lia.
Qed.

(** X5. Scoring a table against a break set: a value below the lowest
    cut-point [min - eps] gets the score of the bottom bucket, and a value
    from the highest cut-point [max + eps] on gets the score of bucket
    [num_categories], however far out it lies. *)
Theorem values_outside_the_cut_points `{NumLib}
        (self : t) (df df' : DataFrame) (column column' : string) (col' : list Q)
        (breaks : list Q) (break_ranges : list range) (inverse : bool)
        (scores : list Z) (value_ranges : list (option range)) :
  let g := global_config self in
  calculate_breaks self df column = Ok (breaks, break_ranges) ->
  dict_get df' column' = Some col' ->
  calculate_score self df' column' breaks break_ranges inverse = Ok (scores, value_ranges) ->
  exists col mn mx,
    dict_get df column = Some col /\
    series_min col = Some mn /\ series_max col = Some mx /\
    forall i v, nth_error col' i = Some v ->
      (v < mn - eps ->
       (0 <= score_min g <= num_categories g)%Z ->
       nth_error scores i = Some (if inverse then score_max g else score_min g))
      /\ (mx + eps <= v ->
          (score_min g <= num_categories g <= Z.of_nat (List.length breaks))%Z ->
          nth_error scores i = Some (score_of_bucket g inverse (num_categories g))).
Proof.
  intros g Hcb Hcol' Hcs.
  destruct (calculate_breaks_shape _ _ _ Hcb)
    as [col [mn [mx [interior [Hcol [Hmn [Hmx [Hb _]]]]]]]].
  exists col, mn, mx. split; [exact Hcol|]. split; [exact Hmn|]. split; [exact Hmx|].
  destruct (calculate_score_rows _ _ _ _ _ _ Hcol' Hcs) as [Hm [_ Hrows]].
  destruct (accepted_breaks_sorted _ _ _ Hcb Hm) as [H1 Hsorted].
  intros i v Hi. destruct (Hrows i v Hi) as [d [Hd Hs]].
  unfold digitize1 in Hd. rewrite H1 in Hd. cbn in Hd. injection Hd as <-.
  split.
  - intros Hlow Hcfg.
    assert (Hz : searchsorted_right breaks v = 0%Z).
    { apply searchsorted_right_none. intros y Hy. rewrite Hb in Hsorted, Hy.
      pose proof (sorted_head_le Hsorted Hy). lra. }
    rewrite Hs, Hz. f_equal. fold g.
    replace (clip 0 (score_min g) (num_categories g)) with (score_min g)
      by (unfold clip; lia).
    apply score_of_bottom_bucket.
  - intros Hhigh Hcfg.
    assert (Hz : searchsorted_right breaks v = Z.of_nat (List.length breaks)).
    { apply searchsorted_right_all. intros y Hy. rewrite Hb in Hsorted, Hy.
      pose proof (sorted_le_last Hsorted Hy) as Hlast.
      rewrite last_last in Hlast. lra. }
    rewrite Hs, Hz. f_equal. fold g. f_equal. unfold clip. lia.
Qed.

Lemma values_outside_the_cut_points_witness :
  let g := global_config processing_A in
  exists col mn mx,
    dict_get table_A "Monetary" = Some col /\
    series_min col = Some mn /\ series_max col = Some mx /\
    forall i v, nth_error [0; 500] i = Some v ->
      (v < mn - eps ->
       (0 <= score_min g <= num_categories g)%Z ->
       nth_error (fst scores_outside) i = Some (score_min g))
      /\ (mx + eps <= v ->
          (score_min g <= num_categories g
           <= Z.of_nat (List.length (fst breaks_A)))%Z ->
          nth_error (fst scores_outside) i
          = Some (score_of_bucket g false (num_categories g))).
Proof.
  apply (@values_outside_the_cut_points Reference.numpy_recent processing_A
           table_A table_outside "Monetary" "Monetary" [0; 500]
           (fst breaks_A) (snd breaks_A) false (fst scores_outside) (snd scores_outside)).
  - vm_compute. reflexivity.
  - reflexivity.
  - vm_compute. reflexivity.
Defined.

(** Over ascending cut-points, the range that the loop of the lookup
    finds is the one of the bucket [np.digitize] gives. *)
Lemma first_range_is_bucket (rest : list Q) :
  forall (b v : Q) (r : range),
    StronglySorted Qle (b :: rest) ->
    first_range v (separated_ranges b rest) = Some r ->
    exists k,
      nth_error (separated_ranges b rest) k = Some r /\
      searchsorted_right (b :: rest) v = Z.of_nat (S k).
Proof.
  induction rest as [|b1 rest IH]; intros b v r Hs Hfound; [discriminate|].
  inversion Hs as [|? ? Hs1 Hall]; subst.
  assert (Hbb1 : b <= b1).
  { rewrite Forall_forall in Hall. apply Hall. left. reflexivity. }
  destruct rest as [|b2 rest].
  - cbn [separated_ranges first_range] in Hfound.
    destruct (Qle_bool b v) eqn:E1; [|discriminate].
    destruct (Qlt_bool v b1) eqn:E2; [|discriminate].
    cbn [andb] in Hfound. injection Hfound as <-.
    exists O. split; [reflexivity|].
    rewrite searchsorted_right_cons, E1.
    rewrite (@searchsorted_right_none [b1] v); [reflexivity|].
    intros y [<- | []]. apply Qlt_bool_iff. exact E2.
  - change (separated_ranges b (b1 :: b2 :: rest))
      with ((b, b1 - eps) :: separated_ranges b1 (b2 :: rest)) in Hfound |- *.
    cbn [first_range] in Hfound.
    destruct (Qle_bool b v && Qlt_bool v (b1 - eps)) eqn:E.
    + injection Hfound as <-. apply andb_true_iff in E. destruct E as [E1 E2].
      exists O. split; [reflexivity|].
      rewrite searchsorted_right_cons, E1.
      rewrite (@searchsorted_right_none (b1 :: b2 :: rest) v); [reflexivity|].
      intros y Hy. apply Qlt_bool_iff in E2.
      pose proof (sorted_head_le Hs1 Hy). unfold eps in E2. lra.
    + destruct (IH b1 v r Hs1 Hfound) as [k [Hk Hcount]].
      exists (S k). split; [exact Hk|].
      rewrite searchsorted_right_cons, Hcount.
      destruct (@searchsorted_right_some (b1 :: b2 :: rest) v) as [y [Hy Hyv]];
        [rewrite Hcount; lia|].
      pose proof (sorted_head_le Hs1 Hy) as Hb1y.
      assert (E1 : Qle_bool b v = true) by (apply Qle_bool_iff; lra).
      rewrite E1. lia.
Qed.

(** X6. The two columns a variable adds agree: when a customer has a
    range, it is the range of its bucket, and, with [score_min] at most 1
    and no more ranges than categories, its score is the score of that
    bucket. *)
Theorem score_and_range_agree `{NumLib}
        (self : t) (df : DataFrame) (column : string)
        (breaks : list Q) (break_ranges : list range) (inverse : bool)
        (scores : list Z) (value_ranges : list (option range)) :
  let g := global_config self in
  calculate_breaks self df column = Ok (breaks, break_ranges) ->
  calculate_score self df column breaks break_ranges inverse = Ok (scores, value_ranges) ->
  (score_min g <= 1)%Z ->
  (Z.of_nat (List.length break_ranges) <= num_categories g)%Z ->
  forall i s r,
    nth_error scores i = Some s ->
    nth_error value_ranges i = Some (Some r) ->
    exists k,
      nth_error break_ranges k = Some r /\
      s = score_of_bucket g inverse (Z.of_nat k + 1).
Proof.
  intros g Hcb Hcs Hmin Hcat i s r Hs Hr.
  destruct (calculate_breaks_shape _ _ _ Hcb)
    as [col [mn [mx [interior [Hcol [Hmn [Hmx [Hb Hranges]]]]]]]].
  destruct (calculate_score_rows _ _ _ _ _ _ Hcol Hcs) as [Hm [Hlen Hrows]].
  destruct (calculate_score_range_rows _ _ _ _ _ _ Hcol Hcs) as [_ Hrrows].
  destruct (accepted_breaks_sorted _ _ _ Hcb Hm) as [H1 Hsorted].
  assert (Hi : (i < List.length col)%nat).
  { rewrite <- Hlen. apply nth_error_Some. rewrite Hs. discriminate. }
  destruct (nth_error col i) as [v|] eqn:Hv;
    [|apply nth_error_None in Hv; lia].
  assert (Hin : In v col) by (apply nth_error_In with i; exact Hv).
  pose proof (series_max_ge _ Hmx _ Hin) as Hhi.
  destruct (Hrows i v Hv) as [d [Hd Hs']].
  destruct (Hrrows i v Hv) as [found [Hfound Hr']].
  rewrite Hs in Hs'. injection Hs' as ->.
  rewrite Hr in Hr'. injection Hr' as <-.
  unfold digitize1 in Hd. rewrite H1 in Hd. cbn in Hd. injection Hd as <-.
  unfold get_range_for_value in Hfound.
  destruct (first_range v break_ranges) as [r'|] eqn:Hfirst.
  - injection Hfound as ->.
    rewrite Hb in Hsorted. rewrite Hranges in Hfirst.
    destruct (first_range_is_bucket _ Hsorted Hfirst) as [k [Hk Hcount]].
    exists k. rewrite Hranges. split; [exact Hk|].
    rewrite Hb, Hcount. fold g. f_equal.
    assert (Hklen : (k < List.length break_ranges)%nat).
    { rewrite Hranges. apply nth_error_Some. rewrite Hk. discriminate. }
    unfold clip. lia.
  - exfalso. destruct break_ranges as [|r0 rest]; [discriminate|].
    destruct (Qeq_bool v (snd (last rest r0))) eqn:E; [|discriminate].
    apply Qeq_bool_iff in E.
    assert (Hlast : snd (last (r0 :: rest) r0) = mx + eps).
    { rewrite Hranges, separated_last by (destruct interior; discriminate).
      apply last_last. }
    rewrite (last_cons rest r0 r0) in Hlast. rewrite Hlast in E.
    unfold eps in E. lra.
Qed.

Lemma score_and_range_agree_witness :
  exists k,
    nth_error (snd breaks_A) k = Some range_A_row_four /\
    3%Z = score_of_bucket (global_config processing_A) false (Z.of_nat k + 1).
Proof.
  assert (Hcb : @calculate_breaks Reference.numpy_recent processing_A table_A "Monetary"
                = Ok (fst breaks_A, snd breaks_A)) by (vm_compute; reflexivity).
  assert (Hcs : calculate_score processing_A table_A "Monetary"
                                (fst breaks_A) (snd breaks_A) false
                = Ok (fst scores_A, snd scores_A)) by (vm_compute; reflexivity).
  assert (Hmin : (score_min (global_config processing_A) <= 1)%Z)
    by (vm_compute; discriminate).
  assert (Hcat : (Z.of_nat (List.length (snd breaks_A))
                  <= num_categories (global_config processing_A))%Z)
    by (vm_compute; discriminate).
  exact (@score_and_range_agree Reference.numpy_recent processing_A table_A "Monetary"
           (fst breaks_A) (snd breaks_A) false (fst scores_A) (snd scores_A)
           Hcb Hcs Hmin Hcat 4%nat 3%Z range_A_row_four eq_refl eq_refl).
Defined.

End MoreScoreFacts.

(** ** Scoring one variable from end to end *)

Module MoreVariableFacts.

Import Numpy NumpyFacts RFMProcessing Shapes Scenarios MoreScenarios.
Import OutlierFacts BreakFacts BreakSetFacts RangeLookupFacts PercentileBreakFacts ScoreFacts.
Import MoreProcessingFacts MoreBucketFacts MoreScoreFacts.
Local Open Scope string_scope.

(** X7. With the method [percentiles] the cut-points that
    [calculate_breaks] returns are ascending and there is at least one
    range: [np.digitize] accepts them for every value, and the lookup of
    the range of a value never runs off an empty list. *)
Theorem percentile_breaks_are_accepted `{NumLib}
        (self : t) (df : DataFrame) (column : string)
        (cfg : VarConfig) (breaks : list Q) (ranges : list range) :
  (forall q l, lib_percentile_empty q <> Ok l) ->
  dict_get (variables_config self) column = Some cfg ->
  breaks_method cfg = Some "percentiles" ->
  calculate_breaks self df column = Ok (breaks, ranges) ->
  monotonicity breaks = 1%Z /\
  ranges <> [] /\
  forall v,
    digitize1 breaks v = Ok (searchsorted_right breaks v) /\
    (0 <= searchsorted_right breaks v <= Z.of_nat (List.length breaks))%Z /\
    exists found, get_range_for_value v ranges = Ok found.
Proof.
  intros Hlib Hcfg Hmethod Hcb.
  pose proof (@percentile_breaks_sorted _ self df column cfg breaks ranges
                Hlib Hcfg Hmethod Hcb) as Hsorted.
  destruct (calculate_breaks_shape _ _ _ Hcb)
    as [col [mn [mx [interior [Hcol [_ [_ [_ Hr]]]]]]]].
  apply monotonicity_ascending in Hsorted.
  assert (Hne : ranges <> []).
  { intros Hnil. apply (f_equal (@List.length range)) in Hnil.
    rewrite Hr, separated_ranges_length, length_app in Hnil. simpl in Hnil. lia. }
  split; [exact Hsorted|]. split; [exact Hne|].
  intros v. split; [|split].
  - unfold digitize1. rewrite Hsorted. reflexivity.
  - apply searchsorted_right_bounds.
  - apply get_range_total. exact Hne.
Qed.

Lemma percentile_breaks_are_accepted_witness :
  monotonicity (fst breaks_A) = 1%Z /\
  snd breaks_A <> [] /\
  forall v,
    digitize1 (fst breaks_A) v = Ok (searchsorted_right (fst breaks_A) v) /\
    (0 <= searchsorted_right (fst breaks_A) v
     <= Z.of_nat (List.length (fst breaks_A)))%Z /\
    exists found, get_range_for_value v (snd breaks_A) = Ok found.
Proof.
  apply (@percentile_breaks_are_accepted Reference.numpy_recent processing_A table_A
           "Monetary" config_A (fst breaks_A) (snd breaks_A)).
  - discriminate.
  - reflexivity.
  - reflexivity.
  - vm_compute. reflexivity.
Defined.

(** X8. The name of the variable decides the order: where the score
    arithmetic stays within 64 bits (so with a step that is not negative),
    a variable called recency (in any letter case) gives the larger value
    the lower or equal score, and any other variable gives it the higher
    or equal score. *)
Theorem recency_scores_run_backwards `{NumLib}
        (self : t) (df : DataFrame) (column : string) (col : list Q)
        (scores : list Z) (value_ranges : list (option range)) :
  dict_get df column = Some col ->
  score_variable self df column = Ok (scores, value_ranges) ->
  no_wrap (global_config self) (String.eqb (lower column) "recency") ->
  forall i j vi vj si sj,
    nth_error col i = Some vi -> nth_error col j = Some vj ->
    nth_error scores i = Some si -> nth_error scores j = Some sj ->
    vi < vj ->
    if String.eqb (lower column) "recency" then (sj <= si)%Z else (si <= sj)%Z.
Proof.
  intros Hcol Hsv Hfit i j vi vj si sj Hvi Hvj Hsi Hsj Hlt.
  unfold score_variable in Hsv.
  destruct (calculate_breaks self df column) as [[breaks ranges]| |] eqn:Hcb;
    try discriminate. cbn [bind] in Hsv.
  destruct (calculate_score_rows _ _ _ _ _ _ Hcol Hsv) as [Hm [_ Hrows]].
  destruct (accepted_breaks_sorted _ _ _ Hcb Hm) as [H1 _].
  destruct (Hrows i vi Hvi) as [di [Hdi Hsi']].
  destruct (Hrows j vj Hvj) as [dj [Hdj Hsj']].
  rewrite Hsi in Hsi'. rewrite Hsj in Hsj'.
  injection Hsi' as ->. injection Hsj' as ->.
  unfold digitize1 in Hdi, Hdj. rewrite H1 in Hdi, Hdj. cbn in Hdi, Hdj.
  injection Hdi as <-. injection Hdj as <-.
  assert (Hd : (searchsorted_right breaks vi <= searchsorted_right breaks vj)%Z).
  { apply searchsorted_right_mono. lra. }
  pose proof (clip_mono (score_min (global_config self))
                        (num_categories (global_config self)) Hd) as Hclip.
  assert (Hminn : (score_min (global_config self)
                   <= num_categories (global_config self))%Z) by apply Hfit.
  rewrite !(score_of_bucket_exact Hfit) by (apply clip_between; exact Hminn).
  destruct Hfit as [Hstep _].
  destruct (String.eqb (lower column) "recency"); nia.
Qed.

Lemma recency_scores_run_backwards_witness :
  if String.eqb (lower "RECENCY") "recency" then (1 <= 5)%Z else (5 <= 1)%Z.
Proof.
  assert (Hsv : @score_variable Reference.numpy_recent processing_std table_B "RECENCY"
                = Ok (fst scores_C, snd scores_C)) by (vm_compute; reflexivity).
  assert (Hfit : no_wrap (global_config processing_std)
                         (String.eqb (lower "RECENCY") "recency")).
  { unfold no_wrap. vm_compute. repeat split; discriminate. }
  assert (Hlt : 1 < 100) by reflexivity.
  exact (@recency_scores_run_backwards Reference.numpy_recent processing_std table_B
           "RECENCY" column_C (fst scores_C) (snd scores_C) eq_refl Hsv Hfit
           0%nat 4%nat 1 100 5%Z 1%Z eq_refl eq_refl eq_refl eq_refl Hlt).
Defined.

Lemma floor_step (p1 p3 : Q) :
  p1 + 1 <= p3 -> (Qfloor p1 + 1 <= Qfloor p3)%Z.
Proof.
  intros Hle. rewrite <- (Qfloor_Z (Qfloor p1 + 1)). apply Qfloor_resp_le.
  rewrite inject_Z_plus. pose proof (Qfloor_le p1). change (inject_Z 1) with 1. lra.
Qed.

(** Between the first and the third quartile of a sorted sample that has
    one entry, or three and more, there is an entry. *)
Lemma entry_between_quartiles (s : list Q) :
  StronglySorted Qle s -> s <> [] -> List.length s <> 2%nat ->
  exists v, In v s /\
            quantile_sorted s (25 # 100) <= v /\ v <= quantile_sorted s (75 # 100).
Proof.
  intros Hs Hne Hlen.
  assert (Hq1 : 0 <= 25 # 100 <= 1) by (split; discriminate).
  assert (Hq3 : 0 <= 75 # 100 <= 1) by (split; discriminate).
  assert (Hn : (0 < List.length s)%nat) by (destruct s; [contradiction | simpl; lia]).
  destruct (quantile_sorted_between Hs Hne Hq1) as [_ Hhi1].
  destruct (quantile_sorted_between Hs Hne Hq3) as [Hlo3 _].
  destruct (quantile_sorted_shape Hne Hq1) as [Hk1 [_ [_ [Hz1 _]]]].
  destruct (quantile_sorted_shape Hne Hq3) as [Hk3 [_ [_ [Hz3 _]]]].
  destruct (quantile_sorted_bounds Hs Hne Hq1) as [_ Htop1].
  destruct (quantile_sorted_bounds Hs Hne Hq3) as [Hbot3 _].
  destruct (le_lt_dec 3 (List.length s)) as [Hthree | Hsmall].
  - set (n := List.length s) in *.
    set (p1 := inject_Z (Z.of_nat (n - 1)) * (25 # 100)) in *.
    set (p3 := inject_Z (Z.of_nat (n - 1)) * (75 # 100)) in *.
    assert (HN : 2 <= inject_Z (Z.of_nat (n - 1))).
    { change 2 with (inject_Z 2). rewrite <- Zle_Qle. lia. }
    assert (Hstep : (Qfloor p1 + 1 <= Qfloor p3)%Z).
    { apply floor_step. unfold p1, p3. lra. }
    exists (nth (Nat.min (S (Z.to_nat (Qfloor p1))) (n - 1)) s 0).
    split; [apply nth_In; fold n; lia|]. split; [exact Hhi1|].
    eapply Qle_trans; [|exact Hlo3].
    apply sorted_nth; [exact Hs | lia | fold n; lia].
  - assert (Hone : List.length s = 1%nat) by lia.
    exists (nth 0 s 0). split; [apply nth_In; lia|].
    rewrite Hone in Htop1. split; [exact Htop1 | exact Hbot3].
Qed.

(** The two quartiles of two samples. *)
Lemma quartiles_of_two (a b : Q) :
  quantile_sorted [a; b] (25 # 100) == a + (b - a) * (1 # 4) /\
  quantile_sorted [a; b] (75 # 100) == a + (b - a) * (3 # 4).
Proof.
  unfold quantile_sorted.
  change (Qfloor (inject_Z (Z.of_nat (List.length [a; b] - 1)) * (25 # 100))) with 0%Z.
  change (Qfloor (inject_Z (Z.of_nat (List.length [a; b] - 1)) * (75 # 100))) with 0%Z.
  cbn [List.length Nat.sub Z.to_nat Nat.min nth]. split; cbn; ring.
Qed.

(** The limits of the method [IQR] on a column with a row. *)
Lemma iqr_limits `{NumLib} (self : t) (df : DataFrame) (column : string)
      (cfg : VarConfig) (col : list Q) :
  dict_get (variables_config self) column = Some cfg ->
  outlier_method cfg = Some "IQR" ->
  dict_get df column = Some col ->
  col <> [] ->
  let q1 := quantile_sorted (sort col) (25 # 100) in
  let q3 := quantile_sorted (sort col) (75 # 100) in
  let f := get_default (iqr_factor cfg) (15 # 10) in
  calculate_outliers_limits self df column
  = Ok (Build_OutlierLimits (Some (q1 - f * (q3 - q1))) (Some (q3 + f * (q3 - q1)))
                            (Some (Some (q3 - q1))) (series_min col) (series_max col)).
Proof.
  intros Hcfg Hm Hcol Hne q1 q3 f.
  unfold calculate_outliers_limits, dict_getitem. rewrite Hcfg, Hcol. cbn [bind].
  rewrite Hm. cbn [getitem bind].
  change (String.eqb "IQR" "IQR") with true. cbn iota.
  rewrite !(series_quantile_some _ Hne). reflexivity.
Qed.

Lemma Qle_bool_gt (x y : Q) : y < x -> Qle_bool x y = false.
Proof.
  intros Hlt. destruct (Qle_bool x y) eqn:E; [|reflexivity].
  apply Qle_bool_iff in E. lra.
Qed.

(** X9. With the method [IQR] and a factor of at least 1 (the default is
    1.5), the limits of a column with a row are computed and at least one
    row of the column lies within them: the sample handed on to the
    cut-points is never empty. *)
Theorem iqr_sample_never_empty `{NumLib} (self : t) (df : DataFrame) (column : string)
        (cfg : VarConfig) (col : list Q) :
  dict_get (variables_config self) column = Some cfg ->
  outlier_method cfg = Some "IQR" ->
  dict_get df column = Some col ->
  col <> [] ->
  1 <= get_default (iqr_factor cfg) (15 # 10) ->
  exists lim li ls v,
    calculate_outliers_limits self df column = Ok lim /\
    LI lim = Some li /\ LS lim = Some ls /\
    In v col /\ li <= v /\ v <= ls /\
    filter (within_limits (LI lim) (LS lim)) col <> [].
Proof.
  intros Hcfg Hm Hcol Hne Hf.
  pose proof (@iqr_limits _ self df column cfg col Hcfg Hm Hcol Hne) as Hlim.
  cbv zeta in Hlim.
  set (q1 := quantile_sorted (sort col) (25 # 100)) in *.
  set (q3 := quantile_sorted (sort col) (75 # 100)) in *.
  set (f := get_default (iqr_factor cfg) (15 # 10)) in *.
  pose proof (sort_sorted col) as Hs.
  pose proof (sort_nonempty Hne) as Hsne.
  assert (Hq13 : q1 <= q3).
  { apply quantile_sorted_mono; try assumption; discriminate. }
  assert (Hkept : exists v, In v col /\ q1 - f * (q3 - q1) <= v /\ v <= q3 + f * (q3 - q1)).
  { destruct (Nat.eq_dec (List.length (sort col)) 2) as [Htwo | Hnot].
    - unfold q1, q3 in *. clear Hlim.
      destruct (sort col) as [|a [|b [|c s']]] eqn:Es; try discriminate. clear Htwo.
      destruct (quartiles_of_two a b) as [E1 E3].
      set (q1' := quantile_sorted [a; b] (25 # 100)) in *.
      set (q3' := quantile_sorted [a; b] (75 # 100)) in *.
      clearbody q1' q3'.
      assert (Hab : a <= b).
      { apply (sorted_head_le Hs). right. left. reflexivity. }
      exists a. split; [apply sort_In; rewrite Es; left; reflexivity|].
      assert (Hp : 0 <= (b - a) * (f - 1)) by (apply Qmult_le_0_compat; lra).
      assert (Hp' : 0 <= (b - a) * f) by (apply Qmult_le_0_compat; lra).
      assert (Hw : f * (q3' - q1') == (b - a) * f * (1 # 2)) by (rewrite E1, E3; ring).
      split; lra.
    - destruct (entry_between_quartiles Hs Hsne Hnot) as [v [Hv [Hlo Hhi]]].
      fold q1 in Hlo. fold q3 in Hhi.
      exists v. split; [apply sort_In; exact Hv|].
      assert (Hp : 0 <= f * (q3 - q1)) by (apply Qmult_le_0_compat; lra).
      split; lra. }
  destruct Hkept as [v [Hv [Hlo Hhi]]].
  do 3 eexists. exists v. split; [exact Hlim|]. cbn [LI LS].
  split; [reflexivity|]. split; [reflexivity|].
  split; [exact Hv|]. split; [exact Hlo|]. split; [exact Hhi|].
  intros Hnil.
  assert (Hin : In v (filter (within_limits (Some (q1 - f * (q3 - q1)))
                                            (Some (q3 + f * (q3 - q1)))) col)).
  { apply filter_In. split; [exact Hv|].
    unfold within_limits, ge_fl, le_fl, notnull.
    apply Qle_bool_iff in Hlo, Hhi. rewrite Hlo, Hhi. reflexivity. }
  rewrite Hnil in Hin. destruct Hin.
Qed.

Lemma iqr_sample_never_empty_witness :
  exists lim li ls v,
    @calculate_outliers_limits Reference.numpy_recent processing_A table_A "Monetary"
    = Ok lim /\
    LI lim = Some li /\ LS lim = Some ls /\
    In v column_A /\ li <= v /\ v <= ls /\
    filter (within_limits (LI lim) (LS lim)) column_A <> [].
Proof.
  apply (@iqr_sample_never_empty Reference.numpy_recent processing_A table_A "Monetary"
           config_A column_A).
  - reflexivity.
  - reflexivity.
  - reflexivity.
  - discriminate.
  - vm_compute. discriminate.
Defined.

(** X10. With the method [IQR] and a factor below 1/2, a column of two
    customers with different values has no row within the limits: the
    sample handed on to the cut-points is empty. *)
Theorem iqr_two_customers_small_factor `{NumLib}
        (self : t) (df : DataFrame) (column : string) (cfg : VarConfig) (x y : Q) :
  dict_get (variables_config self) column = Some cfg ->
  outlier_method cfg = Some "IQR" ->
  dict_get df column = Some [x; y] ->
  ~ x == y ->
  get_default (iqr_factor cfg) (15 # 10) < 1 # 2 ->
  exists lim,
    calculate_outliers_limits self df column = Ok lim /\
    filter (within_limits (LI lim) (LS lim)) [x; y] = [].
Proof.
  intros Hcfg Hm Hcol Hxy Hf.
  assert (Hne : [x; y] <> []) by discriminate.
  pose proof (@iqr_limits _ self df column cfg [x; y] Hcfg Hm Hcol Hne) as Hlim.
  cbv zeta in Hlim.
  eexists. split; [exact Hlim|]. cbn [LI LS].
  set (f := get_default (iqr_factor cfg) (15 # 10)) in *. clearbody f.
  clear Hlim.
  assert (Hsort : sort [x; y] = if Qle_bool x y then [x; y] else [y; x]) by reflexivity.
  rewrite Hsort. clear Hsort.
  destruct (Qle_bool x y) eqn:E.
  - apply Qle_bool_iff in E.
    destruct (quartiles_of_two x y) as [E1 E3].
    set (q1 := quantile_sorted [x; y] (25 # 100)) in *.
    set (q3 := quantile_sorted [x; y] (75 # 100)) in *.
    clearbody q1 q3.
    assert (Hd : 0 < y - x) by lra.
    assert (Hp : 0 < (y - x) * ((1 # 2) - f)) by (apply Qmult_lt_0_compat; lra).
    assert (Hw : f * (q3 - q1) == (y - x) * f * (1 # 2)) by (rewrite E1, E3; ring).
    cbn [filter]. unfold within_limits, ge_fl, le_fl.
    rewrite (@Qle_bool_gt (q1 - f * (q3 - q1)) x) by lra.
    rewrite (@Qle_bool_gt y (q3 + f * (q3 - q1))) by lra.
    cbn [andb]. rewrite andb_false_r. reflexivity.
  - apply Qle_bool_false in E.
    destruct (quartiles_of_two y x) as [E1 E3].
    set (q1 := quantile_sorted [y; x] (25 # 100)) in *.
    set (q3 := quantile_sorted [y; x] (75 # 100)) in *.
    clearbody q1 q3.
    assert (Hd : 0 < x - y) by lra.
    assert (Hp : 0 < (x - y) * ((1 # 2) - f)) by (apply Qmult_lt_0_compat; lra).
    assert (Hw : f * (q3 - q1) == (x - y) * f * (1 # 2)) by (rewrite E1, E3; ring).
    cbn [filter]. unfold within_limits, ge_fl, le_fl.
    rewrite (@Qle_bool_gt x (q3 + f * (q3 - q1))) by lra.
    rewrite (@Qle_bool_gt (q1 - f * (q3 - q1)) y) by lra.
    cbn [andb]. rewrite andb_false_r. reflexivity.
Qed.

Lemma iqr_two_customers_small_factor_witness :
  exists lim,
    @calculate_outliers_limits Reference.numpy_recent processing_narrow table_two_rows
                               "Monetary" = Ok lim /\
    filter (within_limits (LI lim) (LS lim)) [10; 20] = [].
Proof.
  apply (@iqr_two_customers_small_factor Reference.numpy_recent processing_narrow
           table_two_rows "Monetary" config_narrow 10 20).
  - reflexivity.
  - reflexivity.
  - reflexivity.
  - discriminate.
  - reflexivity.
Defined.

End MoreVariableFacts.

(** ** More on the final score, the categories and [process_rfm] *)

Module MoreSegmentFacts.

Import SegmentAssigner SegmentPipeline Shapes Scenarios MoreScenarios.
Import SegmentAssignerFacts CategoryFacts.
Local Open Scope string_scope.





(** X12. With any of the three methods, a table that lacks one of the
    three score columns raises [KeyError]. *)
Theorem final_score_missing_column `{TextLib} (self : t) (df : DataFrame) :
  score_method self = "combinacion" \/ score_method self = "suma"
  \/ score_method self = "promedio" ->
  dict_get df "Recency_score" = None \/ dict_get df "Frequency_score" = None
  \/ dict_get df "Monetary_score" = None ->
  exists msg, calculate_final_score self df = Raise (KeyError msg).
Proof.
  intros Hmethod Hmissing. unfold calculate_final_score, dict_getitem.
  assert (Hraise : forall k : list cell -> list cell -> list cell -> outcome (list cell),
             exists msg,
               (r <- match dict_get df "Recency_score" with
                     | Some v => Ok v
                     | None => Raise (KeyError "Recency_score")
                     end ;;
                f <- match dict_get df "Frequency_score" with
                     | Some v => Ok v
                     | None => Raise (KeyError "Frequency_score")
                     end ;;
                m <- match dict_get df "Monetary_score" with
                     | Some v => Ok v
                     | None => Raise (KeyError "Monetary_score")
                     end ;;
                k r f m) = Raise (KeyError msg)).
  { intros k.
    destruct (dict_get df "Recency_score") as [r|]; cbn [bind];
      [|eexists; reflexivity].
    destruct (dict_get df "Frequency_score") as [f|]; cbn [bind];
      [|eexists; reflexivity].
    destruct (dict_get df "Monetary_score") as [m|]; cbn [bind];
      [|eexists; reflexivity].
    destruct Hmissing as [Hx | [Hx | Hx]]; discriminate. }
  destruct Hmethod as [-> | [-> | ->]].
  - change (String.eqb "combinacion" "combinacion") with true. cbn iota.
    apply (Hraise (fun r f m =>
                     Ok (map3 (fun a b c => Str (py_str a ++ py_str b ++ py_str c)) r f m))).
  - change (String.eqb "suma" "combinacion") with false.
    change (String.eqb "suma" "suma") with true. cbn iota.
    apply (Hraise (fun r f m => sequence (map3 row_sum r f m))).
  - change (String.eqb "promedio" "combinacion") with false.
    change (String.eqb "promedio" "suma") with false.
    change (String.eqb "promedio" "promedio") with true. cbn iota.
    apply (Hraise (fun r f m => sequence (map3 row_mean r f m))).
Qed.

Lemma final_score_missing_column_witness :
  exists msg,
    @calculate_final_score Reference.pandas_text assigner_sum scenario_E
    = Raise (KeyError msg).
Proof.
  apply (@final_score_missing_column Reference.pandas_text assigner_sum scenario_E).
  - right. left. reflexivity.
  - left. reflexivity.
Defined.

Lemma dt_to_period_M_raises `{TextLib} (col : list cell) :
  Exists (fun c => ~ datelike c) col ->
  dt_to_period_M col
  = Raise (AttributeError "Can only use .dt accessor with datetimelike values").
Proof.
  unfold dt_to_period_M. induction col as [|c col IH]; intros Hex.
  - inversion Hex.
  - cbn [mapM]. destruct c; try reflexivity.
    + cbn [bind]. rewrite IH; [reflexivity|].
      inversion Hex as [? ? Hbad | ? ? Hrest]; subst; [|exact Hrest].
      exfalso. apply Hbad. right. eexists. reflexivity.
    + cbn [bind]. rewrite IH; [reflexivity|].
      inversion Hex as [? ? Hbad | ? ? Hrest]; subst; [|exact Hrest].
      exfalso. apply Hbad. left. reflexivity.
Qed.

Lemma dt_to_period_M_total `{TextLib} (col : list cell) :
  Forall datelike col -> exists periods, dt_to_period_M col = Ok periods.
Proof.
  intros Hall. unfold dt_to_period_M. apply mapM_total.
  eapply Forall_impl; [|exact Hall].
  intros c [-> | [d ->]]; eexists; reflexivity.
Qed.

(** X13. What [assign_business_categories] raises, in the order it checks:
    [KeyError] with its own message when the score column is missing, then
    [KeyError] for a missing [MonthsWithPurchases] or [LastPurchaseDate],
    then [AttributeError] when [LastPurchaseDate] holds a cell that is not
    a date, then [AttributeError] when the processor has no end date. *)
Theorem assign_categories_errors `{TextLib}
        (self : t) (df : DataFrame) (score_column : string) :
  (dict_get df score_column = None ->
   assign_business_categories self df score_column
   = Raise (KeyError ("La columna '" ++ score_column ++ "' no existe en el DataFrame.")))
  /\ (forall scores,
         dict_get df score_column = Some scores ->
         (dict_get df "MonthsWithPurchases" = None ->
          assign_business_categories self df score_column
          = Raise (KeyError "MonthsWithPurchases"))
         /\ (forall months,
                dict_get df "MonthsWithPurchases" = Some months ->
                (dict_get df "LastPurchaseDate" = None ->
                 assign_business_categories self df score_column
                 = Raise (KeyError "LastPurchaseDate"))
                /\ (forall last_purchase,
                       dict_get df "LastPurchaseDate" = Some last_purchase ->
                       (Exists (fun c => ~ datelike c) last_purchase ->
                        assign_business_categories self df score_column
                        = Raise (AttributeError
                                   "Can only use .dt accessor with datetimelike values"))
                       /\ (Forall datelike last_purchase ->
                           end_date self = None ->
                           assign_business_categories self df score_column
                           = Raise (AttributeError
                                      "'RFMProcessor' object has no attribute 'end_date'"))))).
Proof.
  unfold assign_business_categories, dict_getitem. split.
  - intros Hnone. rewrite Hnone. reflexivity.
  - intros scores Hscores. rewrite Hscores. split.
    + intros Hnone. rewrite Hnone. reflexivity.
    + intros months Hmonths. rewrite Hmonths. cbn [bind]. split.
      * intros Hnone. rewrite Hnone. reflexivity.
      * intros last_purchase Hlast. rewrite Hlast. cbn [bind]. split.
        -- intros Hbad. rewrite (dt_to_period_M_raises Hbad). reflexivity.
        -- intros Hgood Hend. destruct (dt_to_period_M_total Hgood) as [periods Hp].
           rewrite Hp. cbn [bind]. rewrite Hend. reflexivity.
Qed.

Lemma assign_categories_errors_witness :
  @assign_business_categories Reference.pandas_text assigner_E scenario_E "Score"
  = Raise (KeyError "La columna 'Score' no existe en el DataFrame.")
  /\ @assign_business_categories Reference.pandas_text assigner_E scenario_D "Recency_score"
     = Raise (KeyError "MonthsWithPurchases").
Proof.
  split.
  - apply (proj1 (@assign_categories_errors Reference.pandas_text assigner_E scenario_E
                    "Score")). reflexivity.
  - apply (proj1 (proj2 (@assign_categories_errors Reference.pandas_text assigner_E
                           scenario_D "Recency_score") [Int 5] eq_refl)).
    reflexivity.
Defined.

Lemma drop_column_get_same (df : DataFrame) (name : string) :
  dict_get (drop_column df name) name = None.
Proof.
  induction df as [|[k v] df IH]; [reflexivity|]. cbn [drop_column].
  destruct (String.eqb k name) eqn:E; [exact IH|].
  cbn [dict_get]. rewrite E. exact IH.
Qed.

(** What [assign_business_categories] returns, when it returns. *)
Lemma assign_categories_result `{TextLib}
      (self : t) (df : DataFrame) (score_column : string) (out : DataFrame) :
  assign_business_categories self df score_column = Ok out ->
  exists is_new labels,
    out = drop_column
            (dict_set (dict_set df "IsNew" (map Boolean is_new))
                      "Business_Category" (map Str labels))
            "IsNew".
Proof.
  unfold assign_business_categories.
  destruct (dict_get df score_column); [|discriminate].
  destruct (dict_getitem df "MonthsWithPurchases") as [months| |]; try discriminate.
  cbn [bind].
  destruct (dict_getitem df "LastPurchaseDate") as [last_purchase| |]; try discriminate.
  cbn [bind].
  destruct (dt_to_period_M last_purchase) as [periods| |]; try discriminate.
  cbn [bind].
  destruct (end_date self) as [e|]; [|discriminate].
  destruct (Nat.eqb (nrows df) 0 && _); [discriminate|].
  destruct (dict_getitem _ score_column) as [scores| |]; try discriminate.
  cbn [bind]. intros [= <-]. do 2 eexists. reflexivity.
Qed.

Lemma assigned_columns `{TextLib}
      (self : t) (df : DataFrame) (score_column : string) (out : DataFrame) :
  assign_business_categories self df score_column = Ok out ->
  dict_get out "IsNew" = None
  /\ (exists labels, dict_get out "Business_Category" = Some (map Str labels))
  /\ forall k, k <> "IsNew" -> k <> "Business_Category" ->
               dict_get out k = dict_get df k.
Proof.
  intros Hout. destruct (assign_categories_result _ _ _ Hout) as [is_new [labels ->]].
  split; [apply drop_column_get_same|]. split.
  - exists labels. rewrite drop_column_get_other by discriminate.
    apply dict_get_set_same.
  - intros k Hk1 Hk2. rewrite drop_column_get_other by exact Hk1.
    rewrite dict_get_set_other by (intros Heq; apply Hk2; symmetry; exact Heq).
    apply dict_get_set_other. intros Heq; apply Hk1; symmetry; exact Heq.
Qed.

(** X14. The table that [assign_business_categories] returns has a
    column [Business_Category] of labels and no column [IsNew], not even
    one the caller's table had; every other column is as it was. *)
Theorem assign_categories_columns `{TextLib}
        (self : t) (df : DataFrame) (score_column : string) (out : DataFrame) :
  assign_business_categories self df score_column = Ok out ->
  dict_get out "IsNew" = None
  /\ (exists labels, dict_get out "Business_Category" = Some (map Str labels))
  /\ forall k, k <> "IsNew" -> k <> "Business_Category" ->
               dict_get out k = dict_get df k.
Proof.
  intros Hout. exact (assigned_columns _ _ _ Hout).
Qed.

Lemma assign_categories_columns_witness :
  exists out,
    @assign_business_categories Reference.pandas_text assigner_E table_scored
                                "Monetary_score" = Ok out
    /\ dict_get table_scored "IsNew" = Some [Str "x"; Str "y"; Str "z"]
    /\ dict_get out "IsNew" = None
    /\ (exists labels, dict_get out "Business_Category" = Some (map Str labels))
    /\ forall k, k <> "IsNew" -> k <> "Business_Category" ->
                 dict_get out k = dict_get table_scored k.
Proof.
  eexists. split; [reflexivity|]. split; [reflexivity|].
  apply (@assign_categories_columns Reference.pandas_text assigner_E table_scored
           "Monetary_score"). reflexivity.
Defined.

End MoreSegmentFacts.

(** ** The constructor and [process_rfm] *)

Module MorePipelineFacts.

Import SegmentAssigner SegmentPipeline Shapes Scenarios MoreScenarios.
Import SegmentAssignerFacts CategoryFacts MoreSegmentFacts.
Local Open Scope string_scope.

(** X15. When [process_rfm] returns, it has printed its three lines, and
    the table holds the final scores under [Final_Score], the labels under
    [Business_Category], the end date of the processor on every row of
    [CutoffDate], no column [IsNew], and every other column as it was. *)
Theorem process_rfm_result `{TextLib}
        (self : t) (df : DataFrame) (out : list string) (df' : DataFrame) :
  process_rfm self df = (out, Ok df') ->
  out = ["Calculando el score final..."; "Asignando categorías de negocio...";
         "Procesamiento RFM completado."]
  /\ exists e final,
      end_date self = Some e /\
      calculate_final_score self df = Ok final /\
      dict_get df' "Final_Score" = Some final /\
      (exists col, dict_get df' "CutoffDate" = Some col /\
                   Forall (fun c => c = Date e) col) /\
      dict_get df' "IsNew" = None /\
      (exists labels, dict_get df' "Business_Category" = Some (map Str labels)) /\
      forall k, k <> "Final_Score" -> k <> "IsNew" -> k <> "Business_Category" ->
                k <> "CutoffDate" -> dict_get df' k = dict_get df k.
Proof.
  unfold process_rfm.
  destruct (calculate_final_score self df) as [final| |] eqn:Hfinal; try discriminate.
  destruct (assign_business_categories self _ "Final_Score") as [assigned| |] eqn:Hassign;
    try discriminate.
  destruct (end_date self) as [e|] eqn:Hend; [|discriminate].
  intros [= <- <-]. split; [reflexivity|].
  destruct (assigned_columns _ _ _ Hassign) as [Hnew [[labels Hlabels] Hother]].
  exists e, final. split; [reflexivity|]. split; [reflexivity|]. split.
  { rewrite dict_get_set_other by discriminate.
    rewrite Hother by discriminate. apply dict_get_set_same. }
  split.
  { eexists. split; [apply dict_get_set_same|].
    apply Forall_forall. intros c Hc. apply repeat_spec in Hc. exact Hc. }
  split.
  { rewrite dict_get_set_other by discriminate. exact Hnew. }
  split.
  { exists labels. rewrite dict_get_set_other by discriminate. exact Hlabels. }
  intros k Hk1 Hk2 Hk3 Hk4.
  rewrite dict_get_set_other by (intros Heq; apply Hk4; symmetry; exact Heq).
  rewrite Hother by assumption.
  apply dict_get_set_other. intros Heq; apply Hk1; symmetry; exact Heq.
Qed.

Lemma process_rfm_result_witness :
  ["Calculando el score final..."; "Asignando categorías de negocio...";
   "Procesamiento RFM completado."]
  = ["Calculando el score final..."; "Asignando categorías de negocio...";
     "Procesamiento RFM completado."]
  /\ exists e final,
      end_date assigner_E = Some e /\
      @calculate_final_score Reference.pandas_text assigner_E table_scored = Ok final /\
      dict_get processed_E "Final_Score" = Some final /\
      (exists col, dict_get processed_E "CutoffDate" = Some col /\
                   Forall (fun c => c = Date e) col) /\
      dict_get processed_E "IsNew" = None /\
      (exists labels, dict_get processed_E "Business_Category" = Some (map Str labels)) /\
      forall k, k <> "Final_Score" -> k <> "IsNew" -> k <> "Business_Category" ->
                k <> "CutoffDate" -> dict_get processed_E k = dict_get table_scored k.
Proof.
  apply (@process_rfm_result Reference.pandas_text assigner_E table_scored).
  vm_compute. reflexivity.
Defined.

(** X16. A configuration file that cannot be read, or one that has the
    interval and the number of the date range and whose interval is none
    of [months], [days] and [years], leaves the fallback processor: the
    accented default method, no categories, no end date, whatever the file
    configured. That processor cannot process any table: [process_rfm]
    prints its first line and raises [ValueError]. A configuration without
    the interval or without the number makes the constructor itself raise
    [KeyError]. *)
Theorem constructor_fallback `{TextLib} `{DateLib} :
  (forall m, init (Raise (ValueError m)) = Ok fallback
             /\ init (Raise (FileNotFoundError m)) = Ok fallback)
  /\ (forall config interval number,
         cfg_interval config = Some interval ->
         cfg_number config = Some number ->
         interval <> "months" -> interval <> "days" -> interval <> "years" ->
         init (Ok config) = Ok fallback)
  /\ (forall config,
         cfg_interval config = None \/ cfg_number config = None ->
         exists msg, init (Ok config) = Raise (KeyError msg))
  /\ forall df,
      process_rfm fallback df
      = (["Calculando el score final..."],
         Raise (ValueError "Método de cálculo de score 'combinación' no reconocido.")).
Proof.
  split; [intros m; split; reflexivity|]. split.
  { intros config interval number Hi Hn H1 H2 H3. unfold init, get_date_range_for_rfm.
    rewrite Hi, Hn. cbn [getitem bind].
    apply String.eqb_neq in H1, H2, H3. rewrite H1, H2, H3. reflexivity. }
  split.
  { intros config Hmissing. unfold init, get_date_range_for_rfm.
    destruct (cfg_interval config) as [interval|]; [|eexists; reflexivity].
    destruct Hmissing as [Hi | Hn]; [discriminate|]. rewrite Hn.
    eexists. reflexivity. }
  intros df. reflexivity.
Qed.

Lemma constructor_fallback_witness :
  @init Reference.calendar (Ok config_bad_interval) = Ok fallback
  /\ cfg_score_method config_bad_interval = Some "combinacion"
  /\ exists msg, @init Reference.calendar (Ok config_without_number) = Raise (KeyError msg).
Proof.
  split; [|split; [reflexivity|]].
  - apply (proj1 (proj2 (@constructor_fallback Reference.pandas_text Reference.calendar))
             config_bad_interval "weeks" (Whole 12)); [reflexivity | reflexivity
                                                        | discriminate..].
  - apply (proj1 (proj2 (proj2 (@constructor_fallback Reference.pandas_text
                                  Reference.calendar)))
             config_without_number). right. reflexivity.
Defined.

(** The processors that the constructor can leave. *)
Lemma init_result `{DateLib} (loaded : outcome Config) (self : t) :
  init loaded = Ok self ->
  self = fallback
  \/ exists config,
      loaded = Ok config /\
      self = Build_t (get_default (cfg_score_method config) "combinación")
                     (get_default (cfg_business_categories config) [])
                     (Some (Build_date 2024 12 10)).
Proof.
  unfold init. destruct loaded as [config|[]|]; try discriminate.
  - unfold get_date_range_for_rfm.
    destruct (cfg_interval config) as [interval|]; [|discriminate].
    cbn [getitem bind].
    destruct (cfg_number config) as [number|]; [|discriminate].
    cbn [getitem bind].
    destruct (String.eqb interval "months" || String.eqb interval "days"
              || String.eqb interval "years").
    + destruct (lib_start_date interval number) as [[]|[]|]; cbn [bind];
        try discriminate.
      * intros [= <-]. right. exists config. split; reflexivity.
      * intros [= <-]. left. reflexivity.
      * intros [= <-]. left. reflexivity.
    + intros [= <-]. left. reflexivity.
  - intros [= <-]. left. reflexivity.
  - intros [= <-]. left. reflexivity.
Qed.

(** X17. Whatever the configuration and the day of the run, the
    [CutoffDate] that [process_rfm] writes on every row for a processor
    that the constructor built is 10 December 2024. *)
Theorem cutoff_date_is_fixed `{TextLib} `{DateLib}
        (loaded : outcome Config) (self : t) (df : DataFrame)
        (out : list string) (df' : DataFrame) :
  init loaded = Ok self ->
  process_rfm self df = (out, Ok df') ->
  exists col,
    dict_get df' "CutoffDate" = Some col /\
    Forall (fun c => c = Date (Build_date 2024 12 10)) col.
Proof.
  intros Hinit. unfold process_rfm.
  destruct (calculate_final_score self df) as [final| |]; try discriminate.
  destruct (assign_business_categories self _ "Final_Score") as [assigned| |];
    try discriminate.
  destruct (end_date self) as [e|] eqn:Hend; [|discriminate].
  intros [= _ <-].
  assert (He : e = Build_date 2024 12 10).
  { destruct (init_result _ Hinit) as [-> | [config [_ ->]]].
    - discriminate.
    - injection Hend as <-. reflexivity. }
  subst e. eexists. split; [apply dict_get_set_same|].
  apply Forall_forall. intros c Hc. apply repeat_spec in Hc. exact Hc.
Qed.

Lemma cutoff_date_is_fixed_witness :
  exists col,
    dict_get processed_good "CutoffDate" = Some col /\
    Forall (fun c => c = Date (Build_date 2024 12 10)) col.
Proof.
  apply (@cutoff_date_is_fixed Reference.pandas_text Reference.calendar (Ok config_good)
           (Build_t "combinacion" [("Campeones", ["555"; "554"])]
                    (Some (Build_date 2024 12 10)))
           table_scored
           ["Calculando el score final..."; "Asignando categorías de negocio...";
            "Procesamiento RFM completado."]
           processed_good).
  - reflexivity.
  - vm_compute. reflexivity.
Defined.

End MorePipelineFacts.

(** ** Repeated cut-points, and what [calculate_score] raises *)

Module MoreDigitizeFacts.

Import Numpy NumpyFacts RFMProcessing Shapes Scenarios MoreScenarios.
Import BreakFacts ScoreFacts MoreBucketFacts.
Local Open Scope string_scope.

(** Over ascending cut-points the entries counted for a value are the
    leading ones. *)
Lemma searchsorted_right_prefix (a : list Q) :
  StronglySorted Qle a ->
  forall (v : Q) (j : nat),
    searchsorted_right a v = Z.of_nat j ->
    forall i x, nth_error a i = Some x -> ((i < j)%nat <-> x <= v).
Proof.
  induction 1 as [|b a Hs IH Hall]; intros v j Hcount i x Hi.
  - destruct i; discriminate.
  - rewrite searchsorted_right_cons in Hcount.
    pose proof (searchsorted_right_bounds a v) as Hbounds.
    destruct (Qle_bool b v) eqn:E.
    + apply Qle_bool_iff in E. destruct j as [|j]; [lia|].
      destruct i as [|i].
      * injection Hi as <-. split; [intros _; exact E | lia].
      * cbn [nth_error] in Hi.
        assert (Hc : searchsorted_right a v = Z.of_nat j) by lia.
        rewrite <- (IH v j Hc i x Hi). lia.
    + apply Qle_bool_false in E.
      assert (Hx : v < x).
      { destruct i as [|i].
        - injection Hi as <-. exact E.
        - cbn [nth_error] in Hi. apply nth_error_In in Hi.
          rewrite Forall_forall in Hall. specialize (Hall x Hi). lra. }
      assert (Hzero : searchsorted_right a v = 0%Z).
      { apply searchsorted_right_none. intros y Hy.
        rewrite Forall_forall in Hall. specialize (Hall y Hy). lra. }
      assert (Hj : j = O) by lia. subst j. split; [lia | lra].
Qed.

(** X18. When two consecutive cut-points are equal, as happens with
    percentiles of a column with many equal values, no value is ever put
    in the bucket between them: that score is given to no customer. *)
Theorem repeated_cut_point_skips_a_bucket
        (breaks : list Q) (k : nat) (b b' : Q) (v : Q) (d : Z) :
  monotonicity breaks = 1%Z ->
  nth_error breaks k = Some b ->
  nth_error breaks (S k) = Some b' ->
  b == b' ->
  digitize1 breaks v = Ok d ->
  d <> Z.of_nat (S k).
Proof.
  intros Hmono Hk Hsk Heq Hd Hbucket.
  unfold digitize1 in Hd. rewrite Hmono in Hd. cbn in Hd. injection Hd as <-.
  apply monotonicity_ascending in Hmono.
  pose proof (@searchsorted_right_prefix breaks Hmono v (S k) Hbucket) as Hprefix.
  assert (Hb : b <= v) by (apply (Hprefix k b Hk); lia).
  assert (Hb' : ~ b' <= v).
  { intros Hle. apply (Hprefix (S k) b' Hsk) in Hle. lia. }
  apply Hb'. lra.
Qed.

Lemma repeated_cut_point_skips_a_bucket_witness :
  nth_error (fst breaks_B) 2 = Some (25000 # 500) /\
  nth_error (fst breaks_B) 3 = Some (25000 # 500) /\
  digitize1 (fst breaks_B) 50 = Ok 4%Z /\
  4%Z <> Z.of_nat 3.
Proof.
  assert (H2 : nth_error (fst breaks_B) 2 = Some (25000 # 500)) by reflexivity.
  assert (H3 : nth_error (fst breaks_B) 3 = Some (25000 # 500)) by reflexivity.
  assert (Hd : digitize1 (fst breaks_B) 50 = Ok 4%Z) by (vm_compute; reflexivity).
  split; [exact H2|]. split; [exact H3|]. split; [exact Hd|].
  apply (@repeated_cut_point_skips_a_bucket (fst breaks_B) 2 (25000 # 500) (25000 # 500)
           50 4).
  - vm_compute. reflexivity.
  - exact H2.
  - exact H3.
  - reflexivity.
  - exact Hd.
Defined.

(** X19. What [calculate_score] raises: [KeyError] for a column the table
    lacks, [ValueError] for cut-points that neither ascend nor descend,
    and [IndexError] when the column has a row and the list of ranges is
    empty; on a column without rows it returns two empty lists. *)
Theorem calculate_score_errors
        (self : t) (df : DataFrame) (column : string)
        (breaks : list Q) (break_ranges : list range) (inverse : bool) :
  (dict_get df column = None ->
   calculate_score self df column breaks break_ranges inverse = Raise (KeyError column))
  /\ (forall col,
         dict_get df column = Some col ->
         (monotonicity breaks = 0%Z ->
          calculate_score self df column breaks break_ranges inverse
          = Raise (ValueError "bins must be monotonically increasing or decreasing"))
         /\ (monotonicity breaks <> 0%Z ->
             col <> [] -> break_ranges = [] ->
             calculate_score self df column breaks break_ranges inverse
             = Raise (IndexError "list index out of range"))
         /\ (monotonicity breaks <> 0%Z ->
             col = [] ->
             calculate_score self df column breaks break_ranges inverse = Ok ([], []))).
Proof.
  unfold calculate_score, dict_getitem. split.
  - intros Hnone. rewrite Hnone. reflexivity.
  - intros col Hcol. rewrite Hcol. cbn [bind]. split; [|split].
    + intros Hzero. unfold digitize. rewrite Hzero. reflexivity.
    + intros Hmono Hne ->.
      destruct (@digitize_total col breaks Hmono) as [ds Hds]. rewrite Hds.
      cbn [bind]. destruct col as [|v col]; [contradiction|]. reflexivity.
    + intros Hmono ->. unfold digitize. apply Z.eqb_neq in Hmono. rewrite Hmono.
      reflexivity.
Qed.

Lemma calculate_score_errors_witness :
  calculate_score processing_A table_A "Visits" (fst breaks_A) (snd breaks_A) false
  = Raise (KeyError "Visits")
  /\ calculate_score processing_A table_A "Monetary" [1; 3; 2] (snd breaks_A) false
     = Raise (ValueError "bins must be monotonically increasing or decreasing").
Proof.
  split.
  - apply (proj1 (@calculate_score_errors processing_A table_A "Visits"
                    (fst breaks_A) (snd breaks_A) false)). reflexivity.
  - apply (proj1 (proj2 (@calculate_score_errors processing_A table_A "Monetary"
                           [1; 3; 2] (snd breaks_A) false) column_A eq_refl)).
    reflexivity.
Defined.

End MoreDigitizeFacts.
